(** * Arsenal CLI (cli-src/index.ts): the four commands over an explicit world

    index.ts holds the CLI twice.  The first copy, the one that validates
    its input and wraps every command in a try/catch, is the program of this
    development; the second, shorter copy is embedded after it, in the
    module [Second], and compared with the first.

    The commands [init], [sync], [link] and [unlink] are computations in a
    small monad that threads the local disk and the state of the remote
    service, may throw a JavaScript [Error], and records in a trace every
    call that leaves the process: file system, network, child process,
    prompt and console.

    What the program imports rather than defines is an interface:
    - the JavaScript built-ins [JSON.parse], [JSON.stringify], [parseInt] and
      the decoding of a response body ([JsRuntime]);
    - the outside world ([Env]): the remote service, with a state of its own
      that every request may change, [execSync] and [inquirer.prompt] (which
      hands over answers only; its [validate] callbacks are embedded on
      their own).

    Values have the types the source declares for them ([Config], [Learning],
    the response types); a number is an integer.  The disk holds the paths
    the program touches; an operation on it fails exactly when the disk makes
    it fail (a missing file or directory, a directory where a file is
    expected, a file where a directory is expected, a file that the system
    does not let the process remove), and its error message is the error
    code.  A console line is the console method, the [chalk]
    colour and the text. *)

From stdpp Require Import gmap strings list fin_maps pretty.
From Stdlib Require Import ZArith Lia Ascii.

(** ** Exceptions *)

(** A thrown [Error] is identified with its [message], the only part of it the
    program ever looks at. *)
Definition Exn : Type := string.

Inductive Completion (A : Type) : Type :=
  | Returned (a : A)
  | Thrown (e : Exn).
Arguments Returned {A} a.
Arguments Thrown {A} e.

Definition is_returned {A} (c : Completion A) : bool :=
  match c with Returned _ => true | Thrown _ => false end.

(** ** Type definitions of the source *)

Module LoginResponse.
Record t : Type := mk {
  access_token : string;
  user_id : Z;
  token_type : string;
  detail : option string
}.
End LoginResponse.

Module ApiKeyResponse.
Record t : Type := mk { api_key : string }.
End ApiKeyResponse.

Module TestApiKeyResponse.
Record user_t : Type := mk_user { user_id : Z; project_id : Z }.
Record t : Type := mk { user : user_t }.
End TestApiKeyResponse.

(** The body of an error response, read as [{ detail?: string }]. *)
Module ErrorBody.
Record t : Type := mk { detail : option string }.
End ErrorBody.

Record Config : Type := mkConfig {
  projectId : string;
  apiKey : string;
  userId : Z;
  githubRepo : option string
}.

Record Learning : Type := mkLearning {
  file_path : string;
  function_name : string;
  library_name : string;
  description : string;
  code_snippet : string;
  title : option string
}.

(** ** JavaScript built-ins used by the program *)

(** [parseInt] yields [None] for [NaN].  [JSON.parse] and [res.json()] are
    followed in the source by a cast to the expected type; they throw on text
    that is not JSON. *)
Class JsRuntime : Type := {
  parseInt : string → option Z;
  JSON_parse_Config : string → Completion Config;
  JSON_parse_Learning : string → Completion Learning;
  JSON_stringify_Config : Config → string;
  json_LoginResponse : string → Completion LoginResponse.t;
  json_ApiKeyResponse : string → Completion ApiKeyResponse.t;
  json_TestApiKeyResponse : string → Completion TestApiKeyResponse.t;
  json_ErrorBody : string → Completion ErrorBody.t
}.

(** [a || b] on strings: the empty string is falsy. *)
Definition str_or (a b : string) : string :=
  if String.eqb a "" then b else a.

(** [a || b] where [a] may be [undefined]. *)
Definition opt_or (a : option string) (b : string) : string :=
  match a with
  | Some s => str_or s b
  | None => b
  end.

(** A possibly undefined string inside a template literal. *)
Definition template_opt (a : option string) : string :=
  match a with
  | Some s => s
  | None => "undefined"
  end.

(** [s.endsWith(suffix)] *)
Definition endsWith (s suffix : string) : bool :=
  let n := String.length s in
  let m := String.length suffix in
  (m <=? n) && String.eqb (String.substring (n - m) m s) suffix.

(** ** HTTP requests and responses *)

Definition API_URL : string := "https://arsenal-backend-production.up.railway.app".

Inductive Method : Type := GET | POST.

(** The object handed to [JSON.stringify] for the request body;
    [project_id] is [None] when [parseInt] gave [NaN]. *)
Inductive Body : Type :=
  | LoginBody (email password : string)
  | GenerateKeyBody (project_id : option Z)
  | LearningBody (file_path function_name library_name description code_snippet : string).

Record Request : Type := mkRequest {
  url : string;
  method : Method;
  headers : list (string * string);
  body : option Body
}.

(** [text] is the outcome of reading the response body. *)
Record Response : Type := mkResponse {
  status : Z;
  text : Completion string
}.

(** [res.ok] *)
Definition ok (res : Response) : bool :=
  bool_decide (200 ≤ status res ≤ 299)%Z.

(** What [await fetch(...)] does: reject (no response at all) or resolve. *)
Inductive FetchOutcome : Type :=
  | Rejected (e : Exn)
  | Responded (res : Response).

(** ** The local disk *)

Inductive Path : Type :=
  | ConfigDir                     (* <cwd>/.arsenal *)
  | ConfigFile                    (* <cwd>/.arsenal/config.json *)
  | LearningsDir                  (* <cwd>/.arsenal/learnings *)
  | LearningFile (file : string)  (* <cwd>/.arsenal/learnings/<file> *)
  | HookFile.                     (* <cwd>/.git/hooks/pre-push *)

Inductive Entry : Type :=
  | RegFile (content : string)
  | SubDir.

Inductive DirNode : Type :=
  | Missing
  | NotADir
  | Dir (entries : gmap string Entry).

Record ArsenalDir : Type := mkArsenalDir {
  config_json : option string;
  learnings : DirNode
}.

Inductive ArsenalNode : Type :=
  | ArsMissing
  | ArsNotADir
  | ArsDir (d : ArsenalDir).

(** [git_hooks] is [None] when <cwd>/.git/hooks does not exist, otherwise the
    content of the pre-push hook, if there is one.  [held] tells the paths
    at which the system refuses to remove a file, though the file can be read
    and written: the file of another user in a directory that has the sticky
    bit, a file that another process keeps open where that forbids its
    removal. *)
Record Disk : Type := mkDisk {
  dot_arsenal : ArsenalNode;
  git_hooks : option (option string);
  held : Path → bool
}.

Definition disk_config (d : Disk) : option string :=
  match dot_arsenal d with
  | ArsDir a => config_json a
  | _ => None
  end.

Definition disk_learnings (d : Disk) : DirNode :=
  match dot_arsenal d with
  | ArsDir a => learnings a
  | _ => Missing
  end.

(** The pending records: the entries of the learnings directory. *)
Definition pending (d : Disk) : gmap string Entry :=
  match disk_learnings d with
  | Dir es => es
  | _ => ∅
  end.

Definition set_learnings (es : gmap string Entry) (d : Disk) : Disk :=
  match dot_arsenal d with
  | ArsDir a => mkDisk (ArsDir (mkArsenalDir (config_json a) (Dir es))) (git_hooks d) (held d)
  | _ => d
  end.

Definition set_config (c : option string) (d : Disk) : Disk :=
  match dot_arsenal d with
  | ArsDir a => mkDisk (ArsDir (mkArsenalDir c (learnings a))) (git_hooks d) (held d)
  | _ => d
  end.

Definition disk_mkdir (p : Path) (d : Disk) : Completion Disk :=
  match p with
  | ConfigDir =>
      match dot_arsenal d with
      | ArsMissing =>
          Returned (mkDisk (ArsDir (mkArsenalDir None Missing)) (git_hooks d) (held d))
      | ArsNotADir => Thrown "EEXIST"
      | ArsDir _ => Returned d
      end
  | _ => Thrown "EEXIST"
  end.

Definition disk_readFile (p : Path) (d : Disk) : Completion string :=
  match p with
  | ConfigFile =>
      match disk_config d with
      | Some c => Returned c
      | None => Thrown "ENOENT"
      end
  | LearningFile file =>
      match disk_learnings d with
      | Dir es =>
          match es !! file with
          | Some (RegFile c) => Returned c
          | Some SubDir => Thrown "EISDIR"
          | None => Thrown "ENOENT"
          end
      | NotADir => Thrown "ENOTDIR"
      | Missing => Thrown "ENOENT"
      end
  | HookFile =>
      match git_hooks d with
      | Some (Some c) => Returned c
      | _ => Thrown "ENOENT"
      end
  | ConfigDir | LearningsDir => Thrown "EISDIR"
  end.

Definition disk_writeFile (p : Path) (data : string) (d : Disk) : Completion Disk :=
  match p with
  | ConfigFile =>
      match dot_arsenal d with
      | ArsDir _ => Returned (set_config (Some data) d)
      | ArsNotADir => Thrown "ENOTDIR"
      | ArsMissing => Thrown "ENOENT"
      end
  | LearningFile file =>
      match disk_learnings d with
      | Dir es =>
          match es !! file with
          | Some SubDir => Thrown "EISDIR"
          | _ => Returned (set_learnings (<[file := RegFile data]> es) d)
          end
      | NotADir => Thrown "ENOTDIR"
      | Missing => Thrown "ENOENT"
      end
  | HookFile =>
      match git_hooks d with
      | Some _ => Returned (mkDisk (dot_arsenal d) (Some (Some data)) (held d))
      | None => Thrown "ENOENT"
      end
  | ConfigDir | LearningsDir => Thrown "EISDIR"
  end.

Definition disk_access (p : Path) (d : Disk) : Completion unit :=
  match p with
  | ConfigDir =>
      match dot_arsenal d with
      | ArsMissing => Thrown "ENOENT"
      | _ => Returned tt
      end
  | ConfigFile =>
      match disk_config d with
      | Some _ => Returned tt
      | None => Thrown "ENOENT"
      end
  | LearningsDir =>
      match disk_learnings d with
      | Missing => Thrown "ENOENT"
      | _ => Returned tt
      end
  | LearningFile file =>
      match pending d !! file with
      | Some _ => Returned tt
      | None => Thrown "ENOENT"
      end
  | HookFile =>
      match git_hooks d with
      | Some (Some _) => Returned tt
      | _ => Thrown "ENOENT"
      end
  end.

(** The names come in the order the map enumerates them, which the program
    must not (and does not) rely on. *)
Definition disk_readdir (p : Path) (d : Disk) : Completion (list string) :=
  match p with
  | LearningsDir =>
      match disk_learnings d with
      | Dir es => Returned (map_to_list es).*1
      | NotADir => Thrown "ENOTDIR"
      | Missing => Thrown "ENOENT"
      end
  | _ => Thrown "ENOTDIR"
  end.

(** A file that is there is removed unless it is held. *)
Definition disk_unlink (p : Path) (d : Disk) : Completion Disk :=
  match p with
  | ConfigFile =>
      match disk_config d with
      | Some _ => if held d p then Thrown "EPERM" else Returned (set_config None d)
      | None => Thrown "ENOENT"
      end
  | LearningFile file =>
      match disk_learnings d with
      | Dir es =>
          match es !! file with
          | Some (RegFile _) =>
              if held d p then Thrown "EPERM"
              else Returned (set_learnings (delete file es) d)
          | Some SubDir => Thrown "EPERM"
          | None => Thrown "ENOENT"
          end
      | NotADir => Thrown "ENOTDIR"
      | Missing => Thrown "ENOENT"
      end
  | HookFile =>
      match git_hooks d with
      | Some (Some _) =>
          if held d p then Thrown "EPERM"
          else Returned (mkDisk (dot_arsenal d) (Some None) (held d))
      | _ => Thrown "ENOENT"
      end
  | ConfigDir | LearningsDir => Thrown "EPERM"
  end.

(** ** What the process does to the outside: the trace *)

Inductive Console : Type := ConsoleLog | ConsoleError | ConsoleWarn.

(** The [chalk] colours the program uses. *)
Inductive Color : Type := red | green | blue | yellow | gray.

Inductive Prompt : Type := PromptInit | PromptLink.

Inductive Event : Type :=
  | EvMkdir (p : Path)
  | EvReadFile (p : Path)
  | EvWriteFile (p : Path) (data : string) (mode : option N)
  | EvAccess (p : Path)
  | EvReaddir (p : Path)
  | EvUnlink (p : Path)
  | EvExec (command : string)
  | EvPrompt (q : Prompt)
  | EvFetch (req : Request) (out : FetchOutcome)
  | EvConsole (stream : Console) (colour : Color) (line : string).

Module InitAnswers.
Record t : Type := mk { email : string; password : string; projectId : string }.
End InitAnswers.

Module LinkAnswers.
Record t : Type := mk { githubRepo : string }.
End LinkAnswers.

(** The world outside the process.  The remote service has a state of its
    own, of any type [R], which a request may change. *)
Record Env (R : Type) : Type := mkEnv {
  serve : R → Request → FetchOutcome * R;
  execSync : string → Completion string;
  prompt_init : Completion InitAnswers.t;
  prompt_link : Completion LinkAnswers.t
}.
Arguments serve {R} _ _ _.
Arguments execSync {R} _ _.
Arguments prompt_init {R} _.
Arguments prompt_link {R} _.

Record World (R : Type) : Type := mkWorld {
  disk : Disk;
  remote : R
}.
Arguments mkWorld {R} _ _.
Arguments disk {R} _.
Arguments remote {R} _.

(** ** The monad of the commands *)

(** A computation runs in a world and completes, normally or by throwing, in
    a new world, having produced a trace. *)
Definition M (R A : Type) : Type :=
  World R → Completion A * World R * list Event.

Definition ret {R A} (a : A) : M R A :=
  λ w, (Returned a, w, []).

Definition throw {R A} (e : Exn) : M R A :=
  λ w, (Thrown e, w, []).

Definition bind {R A B} (m : M R A) (k : A → M R B) : M R B :=
  λ w,
    match m w with
    | (Returned a, w1, t1) =>
        match k a w1 with
        | (r, w2, t2) => (r, w2, t1 ++ t2)
        end
    | (Thrown e, w1, t1) => (Thrown e, w1, t1)
    end.

(** [try { m } catch (err) { h(err.message) }] *)
Definition try_catch {R A} (m : M R A) (h : Exn → M R A) : M R A :=
  λ w,
    match m w with
    | (Returned a, w1, t1) => (Returned a, w1, t1)
    | (Thrown e, w1, t1) =>
        match h e w1 with
        | (r, w2, t2) => (r, w2, t1 ++ t2)
        end
    end.

(** Runs [m] and hands its completion to the caller: for a [try] whose
    [catch] leaves the enclosing function. *)
Definition attempt {R A} (m : M R A) : M R (Completion A) :=
  λ w,
    match m w with
    | (r, w1, t1) => (Returned r, w1, t1)
    end.

(** A pure step that may throw. *)
Definition lift {R A} (c : Completion A) : M R A :=
  λ w, (c, w, []).

Declare Scope M_scope.
Notation "x ← m ; k" := (bind m (λ x, k))
  (at level 20, m at level 100, k at level 200, only parsing) : M_scope.
Notation "m ;; k" := (bind m (λ _, k))
  (at level 100, k at level 200, right associativity, only parsing) : M_scope.
Delimit Scope M_scope with M.
Bind Scope M_scope with M.

Definition result {R A} (x : Completion A * World R * list Event) : Completion A := x.1.1.
Definition world_after {R A} (x : Completion A * World R * list Event) : World R := x.1.2.
Definition trace {R A} (x : Completion A * World R * list Event) : list Event := x.2.

(** ** The program *)

Definition newline : string := String (Ascii.ascii_of_nat 10) "".
Definition dquote : string := String (Ascii.ascii_of_nat 34) "".

Section Program.
Context {js : JsRuntime} {R : Type} (env : Env R).
Local Open Scope M_scope.

Local Abbreviation M := (M R).

(** *** Calls that leave the process *)

Definition on_disk {A} (ev : Event) (op : Disk → Completion A) : M A :=
  λ w, (op (disk w), w, [ev]).

Definition change_disk (ev : Event) (op : Disk → Completion Disk) : M unit :=
  λ w,
    match op (disk w) with
    | Returned d => (Returned tt, mkWorld d (remote w), [ev])
    | Thrown e => (Thrown e, w, [ev])
    end.

Definition mkdir (p : Path) : M unit := change_disk (EvMkdir p) (disk_mkdir p).
Definition readFile (p : Path) : M string := on_disk (EvReadFile p) (disk_readFile p).
Definition writeFile (p : Path) (data : string) (mode : option N) : M unit :=
  change_disk (EvWriteFile p data mode) (disk_writeFile p data).
Definition access (p : Path) : M unit := on_disk (EvAccess p) (disk_access p).
Definition readdir (p : Path) : M (list string) := on_disk (EvReaddir p) (disk_readdir p).
Definition unlink (p : Path) : M unit := change_disk (EvUnlink p) (disk_unlink p).

Definition exec (command : string) : M string :=
  λ w, (execSync env command, w, [EvExec command]).

Definition prompt {A} (q : Prompt) (answers : Completion A) : M A :=
  λ w, (answers, w, [EvPrompt q]).

Definition fetch (req : Request) : M Response :=
  λ w,
    match serve env (remote w) req with
    | (Rejected e, r) => (Thrown e, mkWorld (disk w) r, [EvFetch req (Rejected e)])
    | (Responded res, r) => (Returned res, mkWorld (disk w) r, [EvFetch req (Responded res)])
    end.

(** [await res.text()] and [await res.json() as A] *)
Definition res_text (res : Response) : M string := lift (text res).

Definition res_json {A} (decode : string → Completion A) (res : Response) : M A :=
  match text res with
  | Returned s => lift (decode s)
  | Thrown e => throw e
  end.

Definition console (stream : Console) (colour : Color) (line : string) : M unit :=
  λ w, (Returned tt, w, [EvConsole stream colour line]).

(** *** isGitRepo *)

Definition isGitRepo : M bool :=
  try_catch
    (exec "git rev-parse --is-inside-work-tree" ;; ret true)
    (λ _, ret false).

(** *** generateApiKey *)

Definition generateApiKey (accessToken : string) (projectId : option Z) : M string :=
  res ← fetch {| url := API_URL +:+ "/auth/generate-key";
                 method := POST;
                 headers := [("Authorization", "Bearer " +:+ accessToken);
                             ("Content-Type", "application/json")];
                 body := Some (GenerateKeyBody projectId) |};
  if negb (ok res) then
    error ← res_json json_ErrorBody res;
    throw (opt_or (ErrorBody.detail error) "Failed to generate API key")
  else
    data ← res_json json_ApiKeyResponse res;
    ret (ApiKeyResponse.api_key data).

(** *** validateConfig *)

Definition test_api_key_request (config : Config) : Request :=
  {| url := API_URL +:+ "/auth/test-api-key";
     method := GET;
     headers := [("Authorization", "ApiKey " +:+ apiKey config)];
     body := None |}.

(** [data.user.user_id !== config.userId ||
     data.user.project_id !== parseInt(config.projectId)] *)
Definition mismatch (data : TestApiKeyResponse.t) (config : Config) : bool :=
  let u := TestApiKeyResponse.user data in
  negb (bool_decide (TestApiKeyResponse.user_id u = userId config))
  || negb (bool_decide (Some (TestApiKeyResponse.project_id u) = parseInt (projectId config))).

Definition validateConfig (config : Config) : M unit :=
  try_catch
    (res ← fetch (test_api_key_request config);
     (if negb (ok res) then throw "Invalid API key" else ret tt) ;;
     data ← res_json json_TestApiKeyResponse res;
     if mismatch data config
     then throw "Config mismatch: API key does not match user ID or project ID"
     else ret tt)
    (λ message, throw ("Configuration validation failed: " +:+ message)).

(** *** init *)

Definition init_body : M unit :=
  made ← attempt (mkdir ConfigDir);
  match made with
  | Thrown _ => console ConsoleError red "Failed to create config directory"
  | Returned _ =>
      answers ← prompt PromptInit (prompt_init env);
      console ConsoleLog blue "🔐 Logging in..." ;;
      loginRes ← fetch {| url := API_URL +:+ "/auth/login";
                          method := POST;
                          headers := [("Content-Type", "application/json")];
                          body := Some (LoginBody (InitAnswers.email answers)
                                                  (InitAnswers.password answers)) |};
      loginData ← res_json json_LoginResponse loginRes;
      if negb (ok loginRes) then
        console ConsoleLog red
          ("Login failed: " +:+ template_opt (LoginResponse.detail loginData))
      else
        console ConsoleLog green "✅ Login successful" ;;
        console ConsoleLog blue "🔍 Verifying project ownership..." ;;
        projectCheckRes ←
          fetch {| url := API_URL +:+ "/projects/" +:+ InitAnswers.projectId answers;
                   method := GET;
                   headers := [("Authorization",
                                "Bearer " +:+ LoginResponse.access_token loginData)];
                   body := None |};
        if negb (ok projectCheckRes) then
          errorText ← res_text projectCheckRes;
          console ConsoleLog red
            ("❌ Project " +:+ InitAnswers.projectId answers
               +:+ " not found or not owned by you.") ;;
          console ConsoleLog gray ("Error details: " +:+ errorText)
        else
          console ConsoleLog blue "🔑 Generating API key..." ;;
          generated ← attempt
            (key ← generateApiKey (LoginResponse.access_token loginData)
                                  (parseInt (InitAnswers.projectId answers));
             console ConsoleLog green "✅ Generated API key" ;;
             ret key);
          match generated with
          | Thrown message =>
              console ConsoleLog red ("❌ Failed to generate API key: " +:+ message)
          | Returned key =>
              let config := {| projectId := InitAnswers.projectId answers;
                               apiKey := key;
                               userId := LoginResponse.user_id loginData;
                               githubRepo := None |} in
              writeFile ConfigFile (JSON_stringify_Config config) None ;;
              console ConsoleLog green "✅ Project initialized with API key"
          end
  end.

Definition init_action : M unit :=
  try_catch init_body
    (λ message, console ConsoleError red ("❌ Initialization failed: " +:+ message)).

(** *** sync *)

Definition submit_request (learning : Learning) (config : Config) : Request :=
  {| url := API_URL +:+ "/projects/" +:+ projectId config +:+ "/learnings";
     method := POST;
     headers := [("Content-Type", "application/json");
                 ("Authorization", "ApiKey " +:+ apiKey config)];
     body := Some (LearningBody (file_path learning) (function_name learning)
                                (library_name learning) (description learning)
                                (code_snippet learning)) |}.

(** The request is sent; the file is deleted on a success response; any
    error is rethrown with the name of the learning in front. *)
Definition sendLearning (learning : Learning) (config : Config) (filePath : Path) : M unit :=
  try_catch
    (res ← fetch (submit_request learning config);
     (if negb (ok res) then
        error ← try_catch (res_json json_ErrorBody res) (λ _, ret (ErrorBody.mk None));
        throw ("Server error: " +:+ pretty (status res) +:+ " - "
                 +:+ opt_or (ErrorBody.detail error) "Unknown error")
      else ret tt) ;;
     unlink filePath)
    (λ message,
       let learningName :=
         opt_or (title learning) (str_or (function_name learning) "Unknown learning") in
       throw ("Failed to sync " +:+ learningName +:+ ": " +:+ message)).

(** One turn of the loop over [files]; the two counters are passed along. *)
Definition sync_file (config : Config) (counts : nat * nat) (file : string) : M (nat * nat) :=
  let '(successCount, errorCount) := counts in
  try_catch
    (let filePath := LearningFile file in
     content ← readFile filePath;
     learning ← lift (JSON_parse_Learning content);
     sendLearning learning config filePath ;;
     console ConsoleLog green ("✅ Synced: " +:+ str_or (function_name learning) file) ;;
     ret (S successCount, errorCount))
    (λ message,
       console ConsoleLog red ("❌ Failed to sync " +:+ file +:+ ": " +:+ message) ;;
       ret (successCount, S errorCount)).

Fixpoint sync_files (config : Config) (files : list string) (counts : nat * nat)
  : M (nat * nat) :=
  match files with
  | [] => ret counts
  | file :: rest =>
      counts' ← sync_file config counts file;
      sync_files config rest counts'
  end.

(** [names.filter(file => file.endsWith('.json'))] *)
Definition json_files (names : list string) : list string :=
  filter (λ file, endsWith file ".json" = true) names.

(** The two summary lines after the loop. *)
Definition report (successCount errorCount : nat) : M unit :=
  (if 0 <? successCount
   then console ConsoleLog green
          ("✅ Successfully synced " +:+ pretty successCount +:+ " learning(s)")
   else ret tt) ;;
  (if 0 <? errorCount
   then console ConsoleLog red
          ("❌ Failed to sync " +:+ pretty errorCount +:+ " learning(s)")
   else ret tt).

(** What follows the validation of the configuration. *)
Definition sync_validated (config : Config) : M unit :=
  console ConsoleLog blue ("🔗 Project ID: " +:+ projectId config) ;;
  (match githubRepo config with
   | Some repo =>
       if String.eqb repo "" then ret tt
       else console ConsoleLog blue ("🔗 GitHub Repo: " +:+ repo)
   | None => ret tt
   end) ;;
  found ← attempt (access LearningsDir);
  let learningsExist := is_returned found in
  if negb learningsExist then
    console ConsoleWarn yellow "⚠️ No learnings directory found."
  else
    names ← readdir LearningsDir;
    let files := json_files names in
    if length files =? 0 then
      console ConsoleLog blue "📭 No learnings to sync."
    else
      console ConsoleLog yellow ("📤 Syncing " +:+ pretty (length files) +:+ " learning(s)...") ;;
      counts ← sync_files config files (0, 0);
      report counts.1 counts.2.

(** [JSON.parse(await fs.readFile(configPath, 'utf-8'))]: what [sync] and
    [link] try in order to load the configuration. *)
Definition load_config : M Config :=
  configContent ← readFile ConfigFile;
  lift (JSON_parse_Config configContent).

Definition sync_body : M unit :=
  loaded ← attempt load_config;
  match loaded with
  | Thrown _ => console ConsoleError red "❌ No config found. Did you run `arsenal init`?"
  | Returned config =>
      validated ← attempt (validateConfig config);
      match validated with
      | Thrown message => console ConsoleError red ("❌ " +:+ message)
      | Returned _ => sync_validated config
      end
  end.

Definition sync_action : M unit :=
  try_catch sync_body
    (λ message, console ConsoleError red ("❌ Sync failed: " +:+ message)).

(** *** link *)

Definition hookScript : string :=
  "#!/bin/bash" +:+ newline
  +:+ "              echo " +:+ dquote
  +:+ "🔁 Running arsenal sync after Git push..." +:+ dquote +:+ newline
  +:+ "              arsenal sync" +:+ newline
  +:+ "              ".

Definition link_body : M unit :=
  git ← isGitRepo;
  if negb git then
    console ConsoleLog red
      "❌ This folder is not a Git repo. Please run `git init` or clone a repo first."
  else
    loaded ← attempt load_config;
    match loaded with
    | Thrown _ =>
        console ConsoleLog red "❌ No Arsenal config found. Please run `arsenal init` first."
    | Returned config =>
        (* defaultRepo is computed and never used *)
        try_catch
          (exec "git config --get remote.origin.url" ;; ret tt)
          (λ _, console ConsoleWarn yellow "⚠️ Could not auto-detect GitHub repo.") ;;
        answers ← prompt PromptLink (prompt_link env);
        let config := {| projectId := projectId config;
                         apiKey := apiKey config;
                         userId := userId config;
                         githubRepo := Some (LinkAnswers.githubRepo answers) |} in
        writeFile ConfigFile (JSON_stringify_Config config) None ;;
        try_catch
          (writeFile HookFile hookScript (Some 493%N) ;;   (* mode 0o755 *)
           console ConsoleLog green "✅ Git hook installed at .git/hooks/pre-push" ;;
           console ConsoleLog green "✅ GitHub repo linked successfully")
          (λ message, console ConsoleLog red ("❌ Failed to install Git hook: " +:+ message))
    end.

Definition link_action : M unit :=
  try_catch link_body
    (λ message, console ConsoleError red ("❌ Link failed: " +:+ message)).

(** *** unlink *)

Definition unlink_body : M unit :=
  try_catch
    (access HookFile ;;
     unlink HookFile ;;
     console ConsoleLog green "✅ Git hook removed successfully")
    (λ _, console ConsoleLog yellow "⚠️ No Arsenal git hook found").

Definition unlink_action : M unit :=
  try_catch unlink_body
    (λ message, console ConsoleLog red ("❌ Failed to remove Git hook: " +:+ message)).

(** *** The command table *)

Inductive Command : Type := init | sync | link | unlink_hook.

Definition command_body (c : Command) : M unit :=
  match c with
  | init => init_body
  | sync => sync_body
  | link => link_body
  | unlink_hook => unlink_body
  end.

Definition action (c : Command) : M unit :=
  match c with
  | init => init_action
  | sync => sync_action
  | link => link_action
  | unlink_hook => unlink_action
  end.

End Program.

(** ** Reading a trace *)

(** The record file an event reads, and the one it deletes. *)
Definition record_read (ev : Event) : option string :=
  match ev with
  | EvReadFile (LearningFile file) => Some file
  | _ => None
  end.

Definition record_unlink (ev : Event) : option string :=
  match ev with
  | EvUnlink (LearningFile file) => Some file
  | _ => None
  end.

Definition record_reads (t : list Event) : list string := omap record_read t.
Definition record_unlinks (t : list Event) : list string := omap record_unlink t.

(** A request that submits a learning: the POST of [sendLearning]. *)
Definition is_submission (req : Request) : bool :=
  match method req, body req with
  | POST, Some (LearningBody _ _ _ _ _) => true
  | _, _ => false
  end.

Definition submission_call (ev : Event) : bool :=
  match ev with
  | EvFetch req _ => is_submission req
  | _ => false
  end.

(** The submission calls of a trace. *)
Definition submission_calls (t : list Event) : list Event :=
  filter (λ ev, submission_call ev = true) t.

(** The submissions of a trace, record by record: a record is submitted by
    the request that directly follows the reading of its file (parsing, in
    between, leaves no event). *)
Fixpoint submissions (t : list Event) : list (string * FetchOutcome) :=
  match t with
  | [] => []
  | ev :: t' =>
      match ev, t' with
      | EvReadFile (LearningFile file), EvFetch _ out :: _ => (file, out) :: submissions t'
      | _, _ => submissions t'
      end
  end.

(** A success (2xx) response. *)
Definition success (out : FetchOutcome) : bool :=
  match out with
  | Responded res => ok res
  | Rejected _ => false
  end.

(** The records whose submission received a success response, and those
    whose submission received another response. *)
Definition accepted_records (t : list Event) : list string :=
  (filter (λ p, success p.2 = true) (submissions t)).*1.

Definition refused (out : FetchOutcome) : bool :=
  match out with
  | Responded res => negb (ok res)
  | Rejected _ => false
  end.

Definition refused_records (t : list Event) : list string :=
  (filter (λ p, refused p.2 = true) (submissions t)).*1.

(** After a success response [sendLearning] deletes the file of the record,
    which fails when the file is held: the accepted records that a run
    deletes, and those it is stuck with. *)
Definition deleted_records (d : Disk) (t : list Event) : list string :=
  filter (λ file, held d (LearningFile file) = false) (accepted_records t).

Definition stuck_records (d : Disk) (t : list Event) : list string :=
  filter (λ file, held d (LearningFile file) = true) (accepted_records t).

(** An event that touches the record file [file]. *)
Definition touches (file : string) (ev : Event) : Prop :=
  match ev with
  | EvMkdir p | EvReadFile p | EvWriteFile p _ _ | EvAccess p | EvReaddir p | EvUnlink p =>
      p = LearningFile file
  | _ => False
  end.

(** The lines a run prints on the console. *)
Definition console_line (ev : Event) : option (Console * Color * string) :=
  match ev with
  | EvConsole stream colour line => Some (stream, colour, line)
  | _ => None
  end.

Definition console_lines (t : list Event) : list (Console * Color * string) :=
  omap console_line t.

(** The two nothing-to-sync outcomes of [sync]. *)
Definition no_directory_line : Console * Color * string :=
  (ConsoleWarn, yellow, "⚠️ No learnings directory found.").

Definition no_learnings_line : Console * Color * string :=
  (ConsoleLog, blue, "📭 No learnings to sync.").

Definition reports_nothing_to_sync (t : list Event) : Prop :=
  no_directory_line ∈ console_lines t ∨ no_learnings_line ∈ console_lines t.

(** The summary lines for the two counters. *)
Definition report_lines (successCount errorCount : nat) : list Event :=
  (if 0 <? successCount
   then [EvConsole ConsoleLog green
           ("✅ Successfully synced " +:+ pretty successCount +:+ " learning(s)")]
   else [])
  ++ (if 0 <? errorCount
      then [EvConsole ConsoleLog red
              ("❌ Failed to sync " +:+ pretty errorCount +:+ " learning(s)")]
      else []).

(** The lines that tell how the records fared: what [console.log] prints in
    green or in red. *)
Definition verdict (ev : Event) : bool :=
  match ev with
  | EvConsole ConsoleLog green _ | EvConsole ConsoleLog red _ => true
  | _ => false
  end.

Definition verdicts (t : list Event) : list Event :=
  filter (λ ev, verdict ev = true) t.

(** The line the loop prints for the record [file]: its success, or its
    failure with the name of the file in it. *)
Definition record_line (file : string) (ev : Event) : Prop :=
  (∃ name, ev = EvConsole ConsoleLog green ("✅ Synced: " +:+ name))
  ∨ (∃ message,
       ev = EvConsole ConsoleLog red ("❌ Failed to sync " +:+ file +:+ ": " +:+ message)).

(** The disk once the record [file] is deleted from it, if the disk lets it
    be deleted. *)
Definition remove_record (file : string) (d : Disk) : Disk :=
  match disk_unlink (LearningFile file) d with
  | Returned d' => d'
  | Thrown _ => d
  end.

Definition remove_records (files : list string) (d : Disk) : Disk :=
  foldl (λ d file, remove_record file d) d files.

(** The names [readdir] gives for the pending storage, and the records among
    them. *)
Definition enumerated (d : Disk) : list string :=
  json_files (map_to_list (pending d)).*1.

(** The messages [sendLearning] builds, by name. *)
Definition server_error {js : JsRuntime} (res : Response) : Exn :=
  "Server error: " +:+ pretty (status res) +:+ " - "
    +:+ opt_or
          (match text res with
           | Returned s =>
               match json_ErrorBody s with
               | Returned error => ErrorBody.detail error
               | Thrown _ => None
               end
           | Thrown _ => None
           end)
          "Unknown error".

Definition failed_to_sync (learning : Learning) (message : Exn) : Exn :=
  "Failed to sync "
    +:+ opt_or (title learning) (str_or (function_name learning) "Unknown learning")
    +:+ ": " +:+ message.

(** A trace that begins with a request.  A record is submitted by the
    request that follows its reading, so traces are split where no request
    follows. *)
Definition starts_with_fetch (t : list Event) : Prop :=
  match t with
  | EvFetch _ _ :: _ => True
  | _ => False
  end.

(** What the loop over [files] may leave in the trace. *)
Definition loop_event (files : list string) (ev : Event) : Prop :=
  (∃ file, file ∈ files
           ∧ (ev = EvReadFile (LearningFile file) ∨ ev = EvUnlink (LearningFile file)))
  ∨ submission_call ev = true
  ∨ (∃ colour line, ev = EvConsole ConsoleLog colour line).

(** The lines [sync] prints once the configuration is validated. *)
Definition header_lines (config : Config) : list Event :=
  EvConsole ConsoleLog blue ("🔗 Project ID: " +:+ projectId config)
  :: match githubRepo config with
     | Some repo =>
         if String.eqb repo "" then []
         else [EvConsole ConsoleLog blue ("🔗 GitHub Repo: " +:+ repo)]
     | None => []
     end.

Definition syncing_line (n : nat) : Event :=
  EvConsole ConsoleLog yellow ("📤 Syncing " +:+ pretty n +:+ " learning(s)...").

(** ** The vocabulary of the properties *)

(** A trace that neither touches a record file nor submits anything. *)
Definition record_free (t : list Event) : Prop :=
  Forall (λ ev, (∀ file, ¬ touches file ev) ∧ submission_call ev = false) t.

(** Steps 1 and 2 of [sync] succeed: the configuration loads and validates. *)
Definition config_accepted {js : JsRuntime} {R} (env : Env R) (w : World R) (config : Config)
  : Prop :=
  result (load_config w) = Returned config
  ∧ result (validateConfig env config w) = Returned tt.

(** Step 3 onwards finds a place to enumerate: the pending storage is a
    directory or is absent. *)
Definition storage_enumerable (d : Disk) : Prop :=
  disk_learnings d ≠ NotADir.

(** Zero pending records: the storage directory is absent, or holds no
    record. *)
Definition no_pending_record (d : Disk) : Prop :=
  disk_learnings d = Missing
  ∨ (∃ es, disk_learnings d = Dir es) ∧ enumerated d = [].

(** The remote service answers a request the same way whenever it is asked. *)
Definition responds_identically {R} (env : Env R) : Prop :=
  ∀ r r' req, (serve env r req).1 = (serve env r' req).1.

(** The submission [sync] makes for [file] on the disk [d], when the remote
    service is in state [r]: none when the file cannot be read or parsed. *)
Definition planned {js : JsRuntime} {R} (env : Env R) (config : Config) (r : R) (d : Disk)
    (file : string) : option (string * FetchOutcome) :=
  match disk_readFile (LearningFile file) d with
  | Returned content =>
      match JSON_parse_Learning content with
      | Returned learning => Some (file, (serve env r (submit_request learning config)).1)
      | Thrown _ => None
      end
  | Thrown _ => None
  end.

(** The failures of [validate] as the specification names them, and the
    message of the [Error] that carries each. *)
Inductive ValidateError : Type :=
  | ConfigMismatch
  | ValidationFailed (cause : Exn).

Definition validate_message (err : ValidateError) : Exn :=
  "Configuration validation failed: "
    +:+ match err with
        | ConfigMismatch => "Config mismatch: API key does not match user ID or project ID"
        | ValidationFailed cause => cause
        end.

(** Following the specification, [validateApiKey] of the Remote Client: the
    owner of the key, or a failure ([Invalid API key] on a status that is not
    a success) *)
Definition validateApiKey {js : JsRuntime} (out : FetchOutcome)
  : Completion TestApiKeyResponse.user_t :=
  match out with
  | Rejected e => Thrown e
  | Responded res =>
      if ok res then
        match text res with
        | Returned s =>
            match json_TestApiKeyResponse s with
            | Returned data => Returned (TestApiKeyResponse.user data)
            | Thrown e => Thrown e
            end
        | Thrown e => Thrown e
        end
      else Thrown "Invalid API key"
  end.

(** The owner the remote service names differs from the stored pair. *)
Definition differs {js : JsRuntime} (owner : TestApiKeyResponse.user_t) (config : Config)
  : Prop :=
  TestApiKeyResponse.user_id owner ≠ userId config
  ∨ Some (TestApiKeyResponse.project_id owner) ≠ parseInt (projectId config).

(** Following the specification, [validate]: call [validateApiKey], then
    compare the owner with the stored configuration. *)
Definition validate {js : JsRuntime} (config : Config) (out : FetchOutcome)
  : option ValidateError :=
  match validateApiKey out with
  | Thrown cause => Some (ValidationFailed cause)
  | Returned owner =>
      if bool_decide (TestApiKeyResponse.user_id owner = userId config
                      ∧ Some (TestApiKeyResponse.project_id owner) = parseInt (projectId config))
      then None
      else Some ConfigMismatch
  end.

(** The line a command prints when an error reaches its top level. *)
Definition failure_line (c : Command) (message : Exn) : Event :=
  match c with
  | init => EvConsole ConsoleError red ("❌ Initialization failed: " +:+ message)
  | sync => EvConsole ConsoleError red ("❌ Sync failed: " +:+ message)
  | link => EvConsole ConsoleError red ("❌ Link failed: " +:+ message)
  | unlink_hook => EvConsole ConsoleLog red ("❌ Failed to remove Git hook: " +:+ message)
  end.

(** The [catch] at the top level of a command: it prints that line and
    returns. *)
Definition top_level_catch {R} (c : Command) (message : Exn) : M R unit :=
  λ w, (Returned tt, w, [failure_line c message]).

(** The line of [link] outside a Git repository. *)
Definition not_a_git_repo_line : Event :=
  EvConsole ConsoleLog red
    "❌ This folder is not a Git repo. Please run `git init` or clone a repo first.".

(** Deleting records changes neither whether the storage is there nor
    whether it is a directory. *)
Definition same_kind (a b : DirNode) : Prop :=
  match a, b with
  | Missing, Missing | NotADir, NotADir | Dir _, Dir _ => True
  | _, _ => False
  end.

(** What every run of [sync] guarantees, whatever the world: [run] is the
    completion, final world and trace of [sync] started in [w].  The run
    tries to delete the accepted records and no other, and the storage loses
    those of them whose file is not held. *)
Definition sync_guarantees {R} (w : World R) (run : Completion unit * World R * list Event)
  : Prop :=
  let t := trace run in
  let w' := world_after run in
  result run = Returned tt
  ∧ disk w' = remove_records (accepted_records t) (disk w)
  ∧ record_unlinks t = accepted_records t
  ∧ (record_reads t = [] ∨ record_reads t = enumerated (disk w))
  ∧ sublist (accepted_records t) (record_reads t)
  ∧ sublist (submissions t).*1 (record_reads t)
  ∧ (∀ g, pending (disk w') !! g =
          if decide (g ∈ deleted_records (disk w) t) then None else pending (disk w) !! g)
  ∧ size (pending (disk w')) + length (deleted_records (disk w) t) = size (pending (disk w))
  ∧ length (submission_calls t) = length (submissions t)
  ∧ (∀ file, Exists (touches file) t → file ∈ record_reads t).

(** ** The vocabulary of the other commands *)

(** The three requests of [init], by name. *)
Definition login_request (answers : InitAnswers.t) : Request :=
  {| url := API_URL +:+ "/auth/login";
     method := POST;
     headers := [("Content-Type", "application/json")];
     body := Some (LoginBody (InitAnswers.email answers) (InitAnswers.password answers)) |}.

Definition project_request (answers : InitAnswers.t) (loginData : LoginResponse.t) : Request :=
  {| url := API_URL +:+ "/projects/" +:+ InitAnswers.projectId answers;
     method := GET;
     headers := [("Authorization", "Bearer " +:+ LoginResponse.access_token loginData)];
     body := None |}.

Definition generate_key_request (accessToken : string) (projectId : option Z) : Request :=
  {| url := API_URL +:+ "/auth/generate-key";
     method := POST;
     headers := [("Authorization", "Bearer " +:+ accessToken);
                 ("Content-Type", "application/json")];
     body := Some (GenerateKeyBody projectId) |}.

(** The request for a key that [init] makes once the login is accepted. *)
Definition key_request {js : JsRuntime} (answers : InitAnswers.t) (loginData : LoginResponse.t)
  : Request :=
  generate_key_request (LoginResponse.access_token loginData)
                       (parseInt (InitAnswers.projectId answers)).

(** [await res.json() as A], as a value. *)
Definition decoded {A} (decode : string → Completion A) (res : Response) : Completion A :=
  match text res with
  | Returned s => decode s
  | Thrown e => Thrown e
  end.

(** The configuration [init] stores. *)
Definition initial_config (answers : InitAnswers.t) (loginData : LoginResponse.t)
    (key : string) : Config :=
  {| projectId := InitAnswers.projectId answers;
     apiKey := key;
     userId := LoginResponse.user_id loginData;
     githubRepo := None |}.

(** The configuration [link] stores. *)
Definition linked_config (config : Config) (answers : LinkAnswers.t) : Config :=
  {| projectId := projectId config;
     apiKey := apiKey config;
     userId := userId config;
     githubRepo := Some (LinkAnswers.githubRepo answers) |}.

(** The request [req] was answered in the trace, with a success (2xx)
    response [res]. *)
Definition approved (req : Request) (res : Response) (t : list Event) : Prop :=
  EvFetch req (Responded res) ∈ t ∧ ok res = true.

(** The requests of a trace, and the files it writes. *)
Definition request_of (ev : Event) : option Request :=
  match ev with
  | EvFetch req _ => Some req
  | _ => None
  end.

Definition requests (t : list Event) : list Request := omap request_of t.

Definition write_of (ev : Event) : option (Path * string * option N) :=
  match ev with
  | EvWriteFile p data mode => Some (p, data, mode)
  | _ => None
  end.

Definition writes (t : list Event) : list (Path * string * option N) := omap write_of t.

(** The disk once [.arsenal] is made sure to be there ([mkdir] with
    [recursive]). *)
Definition with_config_dir (d : Disk) : Disk :=
  match disk_mkdir ConfigDir d with
  | Returned d' => d'
  | Thrown _ => d
  end.

(** The request [sync] makes for the record [file] on the disk [d]: the
    five fields of the learning its file holds, under the project and the
    key of the configuration; none when the file cannot be read or parsed. *)
Definition submission_of {js : JsRuntime} (config : Config) (d : Disk) (file : string)
  : option Request :=
  match disk_readFile (LearningFile file) d with
  | Returned content =>
      match JSON_parse_Learning content with
      | Returned learning => Some (submit_request learning config)
      | Thrown _ => None
      end
  | Thrown _ => None
  end.

(** The name [sendLearning] gives a learning in its error:
    [learning.title || learning.function_name || 'Unknown learning']. *)
Definition learning_name (learning : Learning) : string :=
  match title learning with
  | Some t => if String.eqb t "" then str_or (function_name learning) "Unknown learning" else t
  | None => str_or (function_name learning) "Unknown learning"
  end.

(** What [sendLearning] reports for an outcome that is not a success: the
    error of the network, or the status with the [detail] of the body
    ([Unknown error] when the body is not JSON, or has no [detail] or an
    empty one). *)
Definition refusal {js : JsRuntime} (out : FetchOutcome) : Exn :=
  match out with
  | Rejected e => e
  | Responded res => server_error res
  end.

(** A request goes to the API. *)
Definition to_the_api (req : Request) : Prop :=
  ∃ path, url req = API_URL +:+ path.

(** ** The answers of the prompts: [validateEmail] and the [validate] callbacks

    A string is its UTF-8 text.  The patterns below are made of ASCII
    characters only, which UTF-8 keeps apart from the bytes of every other
    character, so that matching the bytes is matching the characters. *)

(** *** [String.prototype.trim] and [includes] *)

(** UTF-8, for the code points below U+10000. *)
Definition utf8 (cp : N) : string :=
  let byte (n : N) := Ascii.ascii_of_N n in
  if (cp <? 0x80)%N then String (byte cp) ""
  else if (cp <? 0x800)%N then
    String (byte (0xC0 + cp / 64)%N) (String (byte (0x80 + cp mod 64)%N) "")
  else
    String (byte (0xE0 + cp / 4096)%N)
      (String (byte (0x80 + (cp / 64) mod 64)%N) (String (byte (0x80 + cp mod 64)%N) "")).

(** The white space and the line terminators of ECMAScript: TAB, LF, VT, FF,
    CR, the space separators (category Zs), LS, PS and the byte order mark. *)
Definition white_space : list N :=
  [0x9; 0xA; 0xB; 0xC; 0xD; 0x20; 0xA0; 0x1680;
   0x2000; 0x2001; 0x2002; 0x2003; 0x2004; 0x2005; 0x2006; 0x2007; 0x2008; 0x2009; 0x200A;
   0x2028; 0x2029; 0x202F; 0x205F; 0x3000; 0xFEFF]%N.

(** [s] without the prefix [p], when it has it. *)
Fixpoint strip_prefix (p s : string) : option string :=
  match p, s with
  | EmptyString, _ => Some s
  | String a p', String b s' => if Ascii.eqb a b then strip_prefix p' s' else None
  | String _ _, EmptyString => None
  end.

(** [s] without its first character, when that is white space. *)
Definition strip_white_space (s : string) : option string :=
  foldr (λ cp found, match strip_prefix (utf8 cp) s with
                     | Some rest => Some rest
                     | None => found
                     end) None white_space.

Fixpoint trimStart_upto (n : nat) (s : string) : string :=
  match n with
  | O => s
  | S n' =>
      match strip_white_space s with
      | Some rest => trimStart_upto n' rest
      | None => s
      end
  end.

Definition trimStart (s : string) : string := trimStart_upto (String.length s) s.

(** [s] is white space only. *)
Definition blank (s : string) : bool := String.eqb (trimStart s) "".

Fixpoint trimEnd (s : string) : string :=
  match s with
  | EmptyString => ""
  | String a rest => if blank s then "" else String a (trimEnd rest)
  end.

Definition trim (s : string) : string := trimEnd (trimStart s).

(** [s.includes(needle)] *)
Fixpoint includes (s needle : string) : bool :=
  match strip_prefix needle s with
  | Some _ => true
  | None =>
      match s with
      | EmptyString => false
      | String _ rest => includes rest needle
      end
  end.

(** *** Regular expressions, as far as the program uses them *)

Inductive Regex : Type :=
  | Never
  | Empty
  | Chars (ranges : list (Ascii.ascii * Ascii.ascii))   (* [a-z...]; a literal is [c-c] *)
  | Seq (r1 r2 : Regex)
  | Alt (r1 r2 : Regex)
  | Star (r : Regex).

(** [r+] and [r{n,}] *)
Definition Plus (r : Regex) : Regex := Seq r (Star r).

Fixpoint AtLeast (n : nat) (r : Regex) : Regex :=
  match n with
  | O => Star r
  | S n' => Seq r (AtLeast n' r)
  end.

Definition in_range (a : Ascii.ascii) (range : Ascii.ascii * Ascii.ascii) : bool :=
  (Ascii.nat_of_ascii range.1 <=? Ascii.nat_of_ascii a)
  && (Ascii.nat_of_ascii a <=? Ascii.nat_of_ascii range.2).

Definition in_class (ranges : list (Ascii.ascii * Ascii.ascii)) (a : Ascii.ascii) : bool :=
  existsb (in_range a) ranges.

(** Matching by derivatives: [nullable r] tells whether [r] matches the
    empty string, [derive a r] matches what [r] matches after an [a]. *)
Fixpoint nullable (r : Regex) : bool :=
  match r with
  | Never => false
  | Empty => true
  | Chars _ => false
  | Seq r1 r2 => nullable r1 && nullable r2
  | Alt r1 r2 => nullable r1 || nullable r2
  | Star _ => true
  end.

Fixpoint derive (a : Ascii.ascii) (r : Regex) : Regex :=
  match r with
  | Never => Never
  | Empty => Never
  | Chars ranges => if in_class ranges a then Empty else Never
  | Seq r1 r2 =>
      if nullable r1 then Alt (Seq (derive a r1) r2) (derive a r2)
      else Seq (derive a r1) r2
  | Alt r1 r2 => Alt (derive a r1) (derive a r2)
  | Star r1 => Seq (derive a r1) (Star r1)
  end.

(** [/^r$/.test(s)]: the whole of [s] matches [r]. *)
Fixpoint regex_test (r : Regex) (s : string) : bool :=
  match s with
  | EmptyString => nullable r
  | String a rest => regex_test (derive a r) rest
  end.

(** *** validateEmail *)

(** [/^[a-zA-Z0-9._%+-]+@[a-zA-Z0-9.-]+\.[a-zA-Z]{2,}$/] *)
Definition emailRegex : Regex :=
  Seq (Plus (Chars [("a", "z"); ("A", "Z"); ("0", "9"); (".", "."); ("_", "_");
                    ("%", "%"); ("+", "+"); ("-", "-")]%char))
    (Seq (Chars [("@", "@")]%char)
       (Seq (Plus (Chars [("a", "z"); ("A", "Z"); ("0", "9"); (".", "."); ("-", "-")]%char))
          (Seq (Chars [(".", ".")]%char)
             (AtLeast 2 (Chars [("a", "z"); ("A", "Z")]%char))))).

Definition validateEmail (email : string) : bool :=
  regex_test emailRegex (trim email).

(** *** The [validate] callbacks of the prompts

    A callback answers [true] or the message to show; the prompt asks again
    until it answers [true].  The callback of the project id goes through
    [Number], whose rounding is not modelled: it is left out. *)
Inductive Validation : Type :=
  | Valid
  | Invalid (message : string).

Definition validate_email (input : string) : Validation :=
  if negb (validateEmail input) then Invalid "Please enter a valid email address"
  else Valid.

Definition validate_password (input : string) : Validation :=
  if String.length input <? 1 then Invalid "Password cannot be empty"
  else Valid.

Definition validate_githubRepo (input : string) : Validation :=
  if String.eqb (trim input) "" then Invalid "GitHub repo URL is required"
  else if negb (includes input "github.com")
  then Invalid "Please enter a valid GitHub repository URL"
  else Valid.

(** The characters of the three parts of an address that [validateEmail]
    accepts. *)
Definition letter (a : Ascii.ascii) : bool :=
  let n := Ascii.nat_of_ascii a in
  ((97 <=? n) && (n <=? 122)) || ((65 <=? n) && (n <=? 90)).

Definition digit (a : Ascii.ascii) : bool :=
  let n := Ascii.nat_of_ascii a in (48 <=? n) && (n <=? 57).

Definition one_of (chars : string) (a : Ascii.ascii) : bool :=
  existsb (Ascii.eqb a) (String.list_ascii_of_string chars).

Definition local_char (a : Ascii.ascii) : bool := letter a || digit a || one_of "._%+-" a.

Definition domain_char (a : Ascii.ascii) : bool := letter a || digit a || one_of ".-" a.

(** Every character of [s] satisfies [p]. *)
Definition all_chars (p : Ascii.ascii → bool) (s : string) : Prop :=
  Forall (λ a, p a = true) (String.list_ascii_of_string s).
(** What it is for a string to match a regular expression. *)
Inductive matches : Regex → string → Prop :=
  | matches_empty : matches Empty ""
  | matches_chars ranges a :
      in_class ranges a = true → matches (Chars ranges) (String a "")
  | matches_seq r1 r2 s1 s2 :
      matches r1 s1 → matches r2 s2 → matches (Seq r1 r2) (s1 +:+ s2)
  | matches_alt_l r1 r2 s : matches r1 s → matches (Alt r1 r2) s
  | matches_alt_r r1 r2 s : matches r2 s → matches (Alt r1 r2) s
  | matches_star_nil r : matches (Star r) ""
  | matches_star_more r s1 s2 :
      matches r s1 → matches (Star r) s2 → matches (Star r) (s1 +:+ s2).

(** A byte of the UTF-8 text of some white space. *)
Definition white_space_byte (a : Ascii.ascii) : bool :=
  existsb (λ cp, existsb (Ascii.eqb a) (String.list_ascii_of_string (utf8 cp))) white_space.

(** * The second copy of the program

    From line 463 on, index.ts holds the four commands a second time: over
    the synchronous calls of [fs], with prompts that check nothing, with no
    [catch] at the top of [init], [sync] and [link], and with a loop in
    [sync] that the first failure ends.  It is embedded here as it is
    written, in a monad of its own whose trace also records what the first
    copy never does: [fs.existsSync], a [mkdirSync] that is not recursive,
    console output that is not one coloured line, and the default a prompt
    shows. *)

Module Second.

(** What one [console] call prints: pieces, coloured by [chalk] or not. *)
Inductive Piece : Type :=
  | Coloured (colour : Color) (text : string)
  | Bare (text : string).

Inductive Step : Type :=
  | Shared (ev : Event)                            (* a step the first copy has too *)
  | Exists (p : Path)                              (* fs.existsSync *)
  | MkdirSync (p : Path)                           (* fs.mkdirSync, not recursive *)
  | Print (stream : Console) (pieces : list Piece)
  | Ask (q : Prompt) (default : option string).

(** A computation of the first copy, run in the second. *)
Definition shared {R A} (m : M R A) : World R → Completion A * World R * list Step :=
  λ w,
    match m w with
    | (r, w1, t1) => (r, w1, Shared <$> t1)
    end.

Definition M (R A : Type) : Type :=
  World R → Completion A * World R * list Step.

Definition ret {R A} (a : A) : M R A :=
  λ w, (Returned a, w, []).

Definition throw {R A} (e : Exn) : M R A :=
  λ w, (Thrown e, w, []).

Definition bind {R A B} (m : M R A) (k : A → M R B) : M R B :=
  λ w,
    match m w with
    | (Returned a, w1, t1) =>
        match k a w1 with
        | (r, w2, t2) => (r, w2, t1 ++ t2)
        end
    | (Thrown e, w1, t1) => (Thrown e, w1, t1)
    end.

Definition try_catch {R A} (m : M R A) (h : Exn → M R A) : M R A :=
  λ w,
    match m w with
    | (Returned a, w1, t1) => (Returned a, w1, t1)
    | (Thrown e, w1, t1) =>
        match h e w1 with
        | (r, w2, t2) => (r, w2, t1 ++ t2)
        end
    end.

Definition attempt {R A} (m : M R A) : M R (Completion A) :=
  λ w,
    match m w with
    | (r, w1, t1) => (Returned r, w1, t1)
    end.

Definition lift {R A} (c : Completion A) : M R A :=
  λ w, (c, w, []).

Declare Scope Second_scope.
Notation "x ← m ; k" := (bind m (λ x, k))
  (at level 20, m at level 100, k at level 200, only parsing) : Second_scope.
Notation "m ;; k" := (bind m (λ _, k))
  (at level 100, k at level 200, right associativity, only parsing) : Second_scope.
Delimit Scope Second_scope with Second.
Bind Scope Second_scope with M.

Definition result {R A} (x : Completion A * World R * list Step) : Completion A := x.1.1.
Definition world_after {R A} (x : Completion A * World R * list Step) : World R := x.1.2.
Definition trace {R A} (x : Completion A * World R * list Step) : list Step := x.2.

(** [fs.mkdirSync(path)], without [recursive]: the path must not exist. *)
Definition disk_mkdirSync (p : Path) (d : Disk) : Completion Disk :=
  match p with
  | ConfigDir =>
      match dot_arsenal d with
      | ArsMissing =>
          Returned (mkDisk (ArsDir (mkArsenalDir None Missing)) (git_hooks d) (held d))
      | _ => Thrown "EEXIST"
      end
  | _ => Thrown "EEXIST"
  end.

(** The hook script of the second copy: the same lines, not indented. *)
Definition hookScript : string :=
  "#!/bin/bash" +:+ newline
  +:+ "echo " +:+ dquote +:+ "🔁 Running arsenal sync after Git push..." +:+ dquote +:+ newline
  +:+ "arsenal sync" +:+ newline.

Section Program.
Context {js : JsRuntime} {R : Type} (env : Env R).

(** Two things the first copy does not use: [Number.prototype.toString]
    ([None] is [NaN]), and a prompt whose answer may depend on the default
    it shows. *)
Context (Number_toString : option Z → string).
Context (prompt_link_default : string → Completion LinkAnswers.t).

Local Open Scope Second_scope.
Local Abbreviation M := (M R).

(** *** Calls that leave the process *)

Definition existsSync (p : Path) : M bool :=
  λ w, (Returned (is_returned (disk_access p (disk w))), w, [Exists p]).

Definition mkdirSync (p : Path) : M unit :=
  λ w,
    match disk_mkdirSync p (disk w) with
    | Returned d => (Returned tt, mkWorld d (remote w), [MkdirSync p])
    | Thrown e => (Thrown e, w, [MkdirSync p])
    end.

Definition readFileSync (p : Path) : M string := shared (readFile p).
Definition writeFileSync (p : Path) (data : string) (mode : option N) : M unit :=
  shared (writeFile p data mode).
Definition readdirSync (p : Path) : M (list string) := shared (readdir p).
Definition unlinkSync (p : Path) : M unit := shared (unlink p).

Definition exec (command : string) : M string := shared (exec env command).

(** [fetch] is [node-fetch], imported when it is called. *)
Definition fetch (req : Request) : M Response := shared (fetch env req).

Definition res_json {A} (decode : string → Completion A) (res : Response) : M A :=
  shared (res_json decode res).

(** [console.log(chalk.colour(line))], and a [console] call that prints
    other pieces. *)
Definition console (stream : Console) (colour : Color) (line : string) : M unit :=
  shared (console stream colour line).

Definition print (stream : Console) (pieces : list Piece) : M unit :=
  λ w, (Returned tt, w, [Print stream pieces]).

Definition ask {A} (q : Prompt) (default : option string) (answers : Completion A) : M A :=
  λ w, (answers, w, [Ask q default]).

(** *** generateApiKey *)

Definition generateApiKey (accessToken : string) (projectId : option Z) : M string :=
  res ← fetch {| url := API_URL +:+ "/auth/generate-key";
                 method := POST;
                 headers := [("Authorization", "Bearer " +:+ accessToken);
                             ("Content-Type", "application/json")];
                 body := Some (GenerateKeyBody (parseInt (Number_toString projectId))) |};
  if negb (ok res) then
    error ← res_json json_ErrorBody res;
    throw (opt_or (ErrorBody.detail error) "Failed to generate API key")
  else
    data ← res_json json_ApiKeyResponse res;
    ret (ApiKeyResponse.api_key data).

(** *** validateConfig *)

Definition validateConfig (config : Config) : M unit :=
  try_catch
    (res ← fetch (test_api_key_request config);
     (if negb (ok res) then throw "Invalid API key" else ret tt) ;;
     data ← res_json json_TestApiKeyResponse res;
     if mismatch data config
     then throw "Config mismatch: API key does not match user ID or project ID"
     else ret tt)
    (λ message, throw ("Configuration validation failed: " +:+ message)).

(** *** isGitRepo *)

Definition isGitRepo : M bool :=
  try_catch
    (exec "git rev-parse --is-inside-work-tree" ;; ret true)
    (λ _, ret false).

(** *** init *)

Definition init_action : M unit :=
  present ← existsSync ConfigDir;
  (if negb present then mkdirSync ConfigDir else ret tt) ;;
  answers ← ask PromptInit None (prompt_init env);
  loginRes ← fetch {| url := API_URL +:+ "/auth/login";
                      method := POST;
                      headers := [("Content-Type", "application/json")];
                      body := Some (LoginBody (InitAnswers.email answers)
                                              (InitAnswers.password answers)) |};
  loginData ← res_json json_LoginResponse loginRes;
  if negb (ok loginRes) then
    console ConsoleLog red
      ("❌ Login failed: " +:+ template_opt (LoginResponse.detail loginData))
  else
    projectCheckRes ←
      fetch {| url := API_URL +:+ "/projects/" +:+ InitAnswers.projectId answers;
               method := GET;
               headers := [("Authorization",
                            "Bearer " +:+ LoginResponse.access_token loginData)];
               body := None |};
    if negb (ok projectCheckRes) then
      console ConsoleLog red
        ("❌ Project " +:+ InitAnswers.projectId answers
           +:+ " not found or not owned by you.")
    else
      generated ← attempt
        (key ← generateApiKey (LoginResponse.access_token loginData)
                              (parseInt (InitAnswers.projectId answers));
         console ConsoleLog green "✅ Generated API key" ;;
         ret key);
      match generated with
      | Thrown _ => console ConsoleLog red "❌ Failed to generate API key"
      | Returned key =>
          let config := {| projectId := InitAnswers.projectId answers;
                           apiKey := key;
                           userId := LoginResponse.user_id loginData;
                           githubRepo := None |} in
          writeFileSync ConfigFile (JSON_stringify_Config config) None ;;
          console ConsoleLog green "✅ Project initialized with API key"
      end.

(** *** sync *)

Definition sendLearning (learning : Learning) (config : Config) (filePath : Path) : M unit :=
  try_catch
    (res ← fetch (submit_request learning config);
     (if negb (ok res) then throw ("Server error: " +:+ pretty (status res)) else ret tt) ;;
     unlinkSync filePath)
    (λ message,
       throw ("Failed to sync " +:+ template_opt (title learning) +:+ ": " +:+ message)).

(** The loop of [syncAll]: an error leaves it. *)
Fixpoint sync_files (config : Config) (files : list string) : M unit :=
  match files with
  | [] => ret tt
  | file :: rest =>
      let filePath := LearningFile file in
      content ← readFileSync filePath;
      learning ← lift (JSON_parse_Learning content);
      sendLearning learning config filePath ;;
      sync_files config rest
  end.

Definition syncAll (config : Config) (files : list string) : M unit :=
  try_catch
    (sync_files config files ;;
     console ConsoleLog green
       ("✅ Successfully synced " +:+ pretty (length files) +:+ " learning(s)"))
    (λ message, console ConsoleLog red ("❌ " +:+ message)).

Definition sync_action : M unit :=
  present ← existsSync ConfigFile;
  if negb present then
    console ConsoleError red "❌ No config found. Did you run `arsenal init`?"
  else
    content ← readFileSync ConfigFile;
    config ← lift (JSON_parse_Config content);
    validated ← attempt (validateConfig config);
    match validated with
    | Thrown message => console ConsoleError red ("❌ " +:+ message)
    | Returned _ =>
        console ConsoleLog blue ("🔗 Project ID: " +:+ projectId config) ;;
        console ConsoleLog blue ("🔗 GitHub Repo: " +:+ template_opt (githubRepo config)) ;;
        found ← existsSync LearningsDir;
        if negb found then
          print ConsoleWarn [Bare "⚠️ No learnings directory found."]
        else
          names ← readdirSync LearningsDir;
          let files := json_files names in
          if length files =? 0 then
            print ConsoleLog [Bare "📭 No learnings to sync."]
          else
            console ConsoleLog yellow
              ("📤 Syncing " +:+ pretty (length files) +:+ " learning(s)...") ;;
            syncAll config files
    end.

(** *** link *)

Definition link_action : M unit :=
  git ← isGitRepo;
  if negb git then
    console ConsoleLog red
      "❌ This folder is not a Git repo. Please run `git init` or clone a repo first."
  else
    present ← existsSync ConfigFile;
    if negb present then
      console ConsoleLog red "❌ No Arsenal config found. Please run `arsenal init` first."
    else
      defaultRepo ←
        try_catch
          (out ← exec "git config --get remote.origin.url"; ret (trim out))
          (λ _, print ConsoleWarn [Bare "⚠️ Could not auto-detect GitHub repo."] ;; ret "");
      let default := str_or defaultRepo "https://github.com/username/repo" in
      answers ← ask PromptLink (Some default) (prompt_link_default default);
      content ← readFileSync ConfigFile;
      config ← lift (JSON_parse_Config content);
      let config := {| projectId := projectId config;
                       apiKey := apiKey config;
                       userId := userId config;
                       githubRepo := Some (LinkAnswers.githubRepo answers) |} in
      writeFileSync ConfigFile (JSON_stringify_Config config) None ;;
      try_catch
        (writeFileSync HookFile hookScript (Some 493%N) ;;   (* mode 0o755 *)
         console ConsoleLog green "✅ Git hook installed at .git/hooks/pre-push" ;;
         console ConsoleLog green "✅ GitHub repo linked successfully")
        (λ message,
           print ConsoleLog [Coloured red "❌ Failed to install Git hook:"; Bare message]).

(** *** unlink *)

Definition unlink_action : M unit :=
  try_catch
    (present ← existsSync HookFile;
     if present then
       unlinkSync HookFile ;;
       console ConsoleLog green "✅ Git hook removed successfully"
     else
       console ConsoleLog yellow "⚠️ No Arsenal git hook found")
    (λ message,
       print ConsoleLog [Coloured red "❌ Failed to remove Git hook:"; Bare message]).

End Program.

(** The steps of a trace that the first copy has too. *)
Definition shared_step (s : Step) : option Event :=
  match s with
  | Shared ev => Some ev
  | _ => None
  end.

Definition shared_steps (t : list Step) : list Event := omap shared_step t.

End Second.

(** * A concrete world

    A runtime whose decoders know the JSON texts below (and throw on any
    other text), a remote service that accepts one learning and answers 500
    to the others, and a few disks. *)

Module Sample.

(** ** parseInt: leading white space, a sign, [0x] for radix 16, then the
    longest run of digits *)

Definition digit_value (radix : Z) (a : Ascii.ascii) : option Z :=
  let n := Z.of_nat (Ascii.nat_of_ascii a) in
  let v :=
    if bool_decide (48 ≤ n ≤ 57)%Z then Some (n - 48)%Z
    else if bool_decide (97 ≤ n ≤ 122)%Z then Some (n - 87)%Z
    else if bool_decide (65 ≤ n ≤ 90)%Z then Some (n - 55)%Z
    else None in
  match v with
  | Some d => if bool_decide (d < radix)%Z then Some d else None
  | None => None
  end.

Fixpoint read_digits (radix : Z) (acc : option Z) (s : string) : option Z :=
  match s with
  | String a rest =>
      match digit_value radix a with
      | Some d => read_digits radix (Some (radix * default 0%Z acc + d)%Z) rest
      | None => acc
      end
  | EmptyString => acc
  end.

Definition is_space (a : Ascii.ascii) : bool :=
  let n := Ascii.nat_of_ascii a in
  (n =? 32) || ((9 <=? n) && (n <=? 13)).

Fixpoint skip_spaces (s : string) : string :=
  match s with
  | String a rest => if is_space a then skip_spaces rest else s
  | EmptyString => s
  end.

Definition read_unsigned (s : string) : option Z :=
  match s with
  | String "0"%char (String "x"%char rest) | String "0"%char (String "X"%char rest) =>
      read_digits 16 None rest
  | _ => read_digits 10 None s
  end.

Definition parse_int (s : string) : option Z :=
  match skip_spaces s with
  | String "-"%char rest => Z.opp <$> read_unsigned rest
  | String "+"%char rest => read_unsigned rest
  | rest => read_unsigned rest
  end.

(** ** JSON texts *)

Definition quoted (s : string) : string := dquote +:+ s +:+ dquote.

Definition field (key value : string) : string := quoted key +:+ ":" +:+ value.

Definition learning_text (l : Learning) : string :=
  "{" +:+ field "file_path" (quoted (file_path l))
  +:+ "," +:+ field "function_name" (quoted (function_name l))
  +:+ "," +:+ field "library_name" (quoted (library_name l))
  +:+ "," +:+ field "description" (quoted (description l))
  +:+ "," +:+ field "code_snippet" (quoted (code_snippet l))
  +:+ match title l with
      | Some t => "," +:+ field "title" (quoted t)
      | None => ""
      end
  +:+ "}".

(** [JSON.stringify(config, null, 2)], for strings that need no escaping. *)
Definition config_text (c : Config) : string :=
  "{" +:+ newline
  +:+ "  " +:+ quoted "projectId" +:+ ": " +:+ quoted (projectId c) +:+ "," +:+ newline
  +:+ "  " +:+ quoted "apiKey" +:+ ": " +:+ quoted (apiKey c) +:+ "," +:+ newline
  +:+ "  " +:+ quoted "userId" +:+ ": " +:+ pretty (userId c)
  +:+ match githubRepo c with
      | Some repo => "," +:+ newline +:+ "  " +:+ quoted "githubRepo" +:+ ": " +:+ quoted repo
      | None => ""
      end
  +:+ newline +:+ "}".

Definition owner_text (user_id project_id : Z) : string :=
  "{" +:+ field "user"
            ("{" +:+ field "user_id" (pretty user_id)
             +:+ "," +:+ field "project_id" (pretty project_id) +:+ "}")
  +:+ "}".

Definition detail_text (detail : string) : string :=
  "{" +:+ field "detail" (quoted detail) +:+ "}".

(** A decoder that knows the listed texts only. *)
Definition decode {A} (known : list (string * A)) (s : string) : Completion A :=
  match list_find (λ p, p.1 = s) known with
  | Some (_, (_, a)) => Returned a
  | None => Thrown "Unexpected token in JSON"
  end.

Definition parser_learning : Learning :=
  {| file_path := "src/cli.ts"; function_name := "parseArgs"; library_name := "commander";
     description := "program.parse reads process.argv"; code_snippet := "program.parse();";
     title := None |}.

Definition fetch_learning : Learning :=
  {| file_path := "src/api.ts"; function_name := "sendLearning"; library_name := "node-fetch";
     description := "res.ok is false outside 200-299"; code_snippet := "if (!res.ok) throw";
     title := Some "fetch status" |}.

Definition stored_config : Config :=
  {| projectId := "12"; apiKey := "ak_7_12"; userId := 7; githubRepo := None |}.

(** The same file with another user in it. *)
Definition tampered_config : Config :=
  {| projectId := "12"; apiKey := "ak_7_12"; userId := 9; githubRepo := None |}.

#[export] Instance runtime : JsRuntime :=
  {| parseInt := parse_int;
     JSON_parse_Config :=
       decode [(config_text stored_config, stored_config);
               (config_text tampered_config, tampered_config)];
     JSON_parse_Learning :=
       decode [(learning_text parser_learning, parser_learning);
               (learning_text fetch_learning, fetch_learning)];
     JSON_stringify_Config := config_text;
     json_LoginResponse := decode [];
     json_ApiKeyResponse := decode [];
     json_TestApiKeyResponse :=
       decode [(owner_text 7 12,
                TestApiKeyResponse.mk (TestApiKeyResponse.mk_user 7 12))];
     json_ErrorBody := decode [(detail_text "quota exceeded", ErrorBody.mk (Some "quota exceeded"))] |}.

(** ** The remote service: it knows one key, accepts the learnings of
    [parseArgs] and refuses the others; it keeps no state. *)
Definition respond (req : Request) : FetchOutcome :=
  match body req with
  | Some (LearningBody _ function_name _ _ _) =>
      if String.eqb function_name "parseArgs"
      then Responded (mkResponse 201 (Returned "{}"))
      else Responded (mkResponse 500 (Returned (detail_text "quota exceeded")))
  | Some _ => Responded (mkResponse 404 (Returned "{}"))
  | None =>
      if bool_decide (headers req = [("Authorization", "ApiKey ak_7_12")])
      then Responded (mkResponse 200 (Returned (owner_text 7 12)))
      else Responded (mkResponse 401 (Returned "{}"))
  end.

Definition in_git : Env unit :=
  {| serve := λ _ req, (respond req, tt);
     execSync := λ _, Returned "true";
     prompt_init := Thrown "User force closed the prompt";
     prompt_link := Returned (LinkAnswers.mk "https://github.com/jacobalbert3/arsenal-cli") |}.

Definition outside_git : Env unit :=
  {| serve := λ _ req, (respond req, tt);
     execSync := λ _, Thrown "Command failed: git rev-parse --is-inside-work-tree";
     prompt_init := Thrown "User force closed the prompt";
     prompt_link := Returned (LinkAnswers.mk "https://github.com/jacobalbert3/arsenal-cli") |}.

(** ** Disks *)

Definition disk_with (config : option string) (records : DirNode) : Disk :=
  {| dot_arsenal := ArsDir {| config_json := config; learnings := records |};
     git_hooks := Some None;
     held := λ _, false |}.

(** Two records and a file that is not one. *)
Definition two_records : gmap string Entry :=
  <["parser.json" := RegFile (learning_text parser_learning)]>
    (<["fetch.json" := RegFile (learning_text fetch_learning)]>
       (<["notes.txt" := RegFile "remember to sync"]> ∅)).

(** The same with a record that is not JSON and a directory named like one. *)
Definition five_entries : gmap string Entry :=
  <["broken.json" := RegFile "{file_path:"]> (<["old.json" := SubDir]> two_records).

Definition world_of (d : Disk) : World unit := mkWorld d tt.

Definition ready : World unit :=
  world_of (disk_with (Some (config_text stored_config)) (Dir two_records)).

Definition messy : World unit :=
  world_of (disk_with (Some (config_text stored_config)) (Dir five_entries)).

Definition tampered : World unit :=
  world_of (disk_with (Some (config_text tampered_config)) (Dir two_records)).

Definition no_config : World unit :=
  world_of {| dot_arsenal := ArsMissing; git_hooks := Some None; held := λ _, false |}.

Definition nothing_pending : World unit :=
  world_of (disk_with (Some (config_text stored_config)) (Dir {["notes.txt" := RegFile "remember to sync"]})).

Definition no_directory : World unit :=
  world_of (disk_with (Some (config_text stored_config)) Missing).

(** One record, which the remote service accepts. *)
Definition one_record : World unit :=
  world_of (disk_with (Some (config_text stored_config))
              (Dir (<["parser.json" := RegFile (learning_text parser_learning)]>
                      {["notes.txt" := RegFile "remember to sync"]}))).

(** The pending storage is a regular file. *)
Definition storage_is_a_file : World unit :=
  world_of (disk_with (Some (config_text stored_config)) NotADir).

(** The two records in a storage where [parser.json] is held. *)
Definition stuck : World unit :=
  world_of
    {| dot_arsenal :=
         ArsDir {| config_json := Some (config_text stored_config);
                   learnings := Dir two_records |};
       git_hooks := Some None;
       held := λ p,
         match p with
         | LearningFile file => String.eqb file "parser.json"
         | _ => false
         end |}.

(** The directory [.git] of a repository, in which [arsenal init] was run:
    a configuration, and no [.git/hooks] below it.  There
    [git rev-parse --is-inside-work-tree] succeeds and answers [false]. *)
Definition dot_git : World unit :=
  world_of
    {| dot_arsenal :=
         ArsDir {| config_json := Some (config_text stored_config); learnings := Missing |};
       git_hooks := None;
       held := λ _, false |}.

Definition inside_dot_git : Env unit :=
  {| serve := λ _ req, (respond req, tt);
     execSync := λ command,
       if String.eqb command "git rev-parse --is-inside-work-tree"
       then Returned ("false" +:+ newline)
       else Thrown ("Command failed: " +:+ command);
     prompt_init := Thrown "User force closed the prompt";
     prompt_link := Returned (LinkAnswers.mk "https://github.com/jacobalbert3/arsenal-cli") |}.

End Sample.

(** * A concrete world with accounts

    A remote service that knows one account (user 7, who owns the projects 12
    and 14 and may have a key for project 12 only), behind a proxy that
    answers 502 to one address; a runtime that decodes its answers. *)

Module Account.

Definition login_text : string :=
  "{" +:+ Sample.field "access_token" (Sample.quoted "jwt-7")
  +:+ "," +:+ Sample.field "user_id" "7"
  +:+ "," +:+ Sample.field "token_type" (Sample.quoted "bearer") +:+ "}".

Definition key_text : string :=
  "{" +:+ Sample.field "api_key" (Sample.quoted "ak_7_12") +:+ "}".

(** A configuration whose project id is a word. *)
Definition worded_config : Config :=
  {| projectId := "twelve"; apiKey := "ak_7_12"; userId := 7; githubRepo := None |}.

(** The body of a refused login is read as a [LoginResponse] too: only its
    [detail] is there. *)
Definition runtime : JsRuntime :=
  {| parseInt := Sample.parse_int;
     JSON_parse_Config :=
       Sample.decode [(Sample.config_text Sample.stored_config, Sample.stored_config);
                      (Sample.config_text worded_config, worded_config)];
     JSON_parse_Learning :=
       Sample.decode [(Sample.learning_text Sample.parser_learning, Sample.parser_learning)];
     JSON_stringify_Config := Sample.config_text;
     json_LoginResponse :=
       Sample.decode
         [(login_text, LoginResponse.mk "jwt-7" 7 "bearer" None);
          (Sample.detail_text "Incorrect email or password",
           LoginResponse.mk "" 0 "" (Some "Incorrect email or password"));
          ("{}", LoginResponse.mk "" 0 "" None)];
     json_ApiKeyResponse := Sample.decode [(key_text, ApiKeyResponse.mk "ak_7_12")];
     json_TestApiKeyResponse :=
       Sample.decode [(Sample.owner_text 7 12,
                       TestApiKeyResponse.mk (TestApiKeyResponse.mk_user 7 12))];
     json_ErrorBody :=
       Sample.decode [("{}", ErrorBody.mk None);
                      (Sample.detail_text "", ErrorBody.mk (Some ""))] |}.

Definition respond (req : Request) : FetchOutcome :=
  match body req with
  | Some (LoginBody email password) =>
      if String.eqb email "ops@example.com"
      then Responded (mkResponse 502 (Returned "<html>Bad Gateway</html>"))
      else if String.eqb email "dev@example.com" && String.eqb password "s3cret"
      then Responded (mkResponse 200 (Returned login_text))
      else if String.eqb email "dev@example.com"
      then Responded (mkResponse 401 (Returned (Sample.detail_text "Incorrect email or password")))
      else Responded (mkResponse 401 (Returned "{}"))
  | Some (GenerateKeyBody project_id) =>
      if bool_decide (project_id = Some 12%Z)
      then Responded (mkResponse 200 (Returned key_text))
      else Responded (mkResponse 403 (Returned (Sample.detail_text "")))
  | Some (LearningBody _ _ _ _ _) => Responded (mkResponse 201 (Returned "{}"))
  | None =>
      if bool_decide (headers req = [("Authorization", "Bearer jwt-7")])
         && (String.eqb (url req) (API_URL +:+ "/projects/12")
             || String.eqb (url req) (API_URL +:+ "/projects/14"))
      then Responded (mkResponse 200 (Returned "{}"))
      else if bool_decide (headers req = [("Authorization", "ApiKey ak_7_12")])
      then Responded (mkResponse 200 (Returned (Sample.owner_text 7 12)))
      else Responded (mkResponse 404 (Returned "Not Found"))
  end.

(** The world outside, for a user who gives [answers] to [init]. *)
Definition office (answers : InitAnswers.t) : Env unit :=
  {| serve := λ _ req, (respond req, tt);
     execSync := λ _, Returned "true";
     prompt_init := Returned answers;
     prompt_link := Returned (LinkAnswers.mk "https://github.com/jacobalbert3/arsenal-cli") |}.

Definition owner : InitAnswers.t := InitAnswers.mk "dev@example.com" "s3cret" "12".
Definition mistyped : InitAnswers.t := InitAnswers.mk "dev@example.com" "secret" "12".
Definition proxied : InitAnswers.t := InitAnswers.mk "ops@example.com" "s3cret" "12".
Definition keyless : InitAnswers.t := InitAnswers.mk "dev@example.com" "s3cret" "14".

(** A directory that was never initialised, one where [.arsenal] is a
    regular file, a subdirectory of a work tree (no [.git/hooks] in it), and
    a project whose stored project id is a word. *)
Definition fresh : World unit :=
  mkWorld {| dot_arsenal := ArsMissing; git_hooks := Some None; held := λ _, false |} tt.

Definition blocked : World unit :=
  mkWorld {| dot_arsenal := ArsNotADir; git_hooks := Some None; held := λ _, false |} tt.

Definition subdirectory : World unit :=
  mkWorld {| dot_arsenal :=
               ArsDir {| config_json := Some (Sample.config_text Sample.stored_config);
                         learnings := Missing |};
             git_hooks := None;
             held := λ _, false |} tt.

Definition worded : World unit :=
  mkWorld {| dot_arsenal :=
               ArsDir {| config_json := Some (Sample.config_text worded_config);
                         learnings :=
                           Dir {["parser.json" :=
                                   RegFile (Sample.learning_text Sample.parser_learning)]} |};
             git_hooks := Some None;
             held := λ _, false |} tt.

(** A hook that Arsenal did not install, and the same hook held. *)
Definition hooked : World unit :=
  mkWorld {| dot_arsenal :=
               ArsDir {| config_json := Some (Sample.config_text Sample.stored_config);
                         learnings := Missing |};
             git_hooks := Some (Some ("#!/bin/sh" +:+ newline +:+ "npm test"));
             held := λ _, false |} tt.

Definition guarded : World unit :=
  mkWorld {| dot_arsenal :=
               ArsDir {| config_json := Some (Sample.config_text Sample.stored_config);
                         learnings := Missing |};
             git_hooks := Some (Some ("#!/bin/sh" +:+ newline +:+ "npm test"));
             held := λ p, match p with HookFile => true | _ => false end |} tt.

(** A clone: [git] knows where it came from. *)
Definition cloned : Env unit :=
  {| serve := λ _ req, (respond req, tt);
     execSync := λ command,
       if String.eqb command "git config --get remote.origin.url"
       then Returned ("https://github.com/jacobalbert3/arsenal-cli.git" +:+ newline)
       else Returned "true";
     prompt_init := Returned owner;
     prompt_link := Returned (LinkAnswers.mk "https://github.com/jacobalbert3/arsenal-cli") |}.

(** A user who accepts the default of every prompt. *)
Definition accept_default (default : string) : Completion LinkAnswers.t :=
  Returned (LinkAnswers.mk default).

(** [Number.prototype.toString], for the integers that print as their
    digits. *)
Definition toString (n : option Z) : string :=
  match n with
  | Some z => pretty z
  | None => "NaN"
  end.

(** A configuration file that was cut short. *)
Definition truncated : World unit :=
  mkWorld {| dot_arsenal :=
               ArsDir {| config_json := Some "{";
                         learnings :=
                           Dir {["parser.json" :=
                                   RegFile (Sample.learning_text Sample.parser_learning)]} |};
             git_hooks := Some None;
             held := λ _, false |} tt.

End Account.

(** * Properties *)

(** ** Traces *)

Lemma submissions_app t1 t2 :
  ¬ starts_with_fetch t2 →
  submissions (t1 ++ t2) = submissions t1 ++ submissions t2.
Proof.
  intros Hhead. induction t1 as [| ev t1 IH]; [reflexivity |].
  cbn [app submissions]. rewrite IH.
  destruct t1 as [| ev2 t1].
  - cbn [app submissions].
    destruct ev as [| [] | | | | | | | |]; try reflexivity.
    destruct t2 as [| [] t2]; try reflexivity. by destruct Hhead.
  - destruct ev as [| [] | | | | | | | |]; try reflexivity.
    cbn [app]. by destruct ev2.
Qed.

Lemma accepted_records_app t1 t2 :
  ¬ starts_with_fetch t2 →
  accepted_records (t1 ++ t2) = accepted_records t1 ++ accepted_records t2.
Proof.
  intros Hhead. unfold accepted_records.
  by rewrite submissions_app, filter_app, fmap_app.
Qed.

(** Traces that leave the records alone *)

Lemma record_free_submissions t1 t2 :
  record_free t1 → submissions (t1 ++ t2) = submissions t2.
Proof.
  induction 1 as [| ev t1 [Hev _] _ IH]; [done |].
  cbn [app submissions]. rewrite IH.
  destruct ev as [| p | | | | | | | |]; try done.
  destruct p; try done. exfalso. by apply (Hev file).
Qed.

Lemma record_free_reads t : record_free t → record_reads t = [].
Proof.
  induction 1 as [| ev t [Hev _] _ IH]; [done |].
  unfold record_reads in *. cbn. rewrite IH.
  destruct ev as [| p | | | | | | | |]; try done.
  destruct p; try done. exfalso. by apply (Hev file).
Qed.

Lemma record_free_unlinks t : record_free t → record_unlinks t = [].
Proof.
  induction 1 as [| ev t [Hev _] _ IH]; [done |].
  unfold record_unlinks in *. cbn. rewrite IH.
  destruct ev as [| | | | | p | | | |]; try done.
  destruct p; try done. exfalso. by apply (Hev file).
Qed.

Lemma record_free_calls t : record_free t → submission_calls t = [].
Proof.
  induction 1 as [| ev t [_ Hev] _ IH]; [done |].
  unfold submission_calls in *. rewrite filter_cons_False by (by rewrite Hev). exact IH.
Qed.

Lemma record_free_touches t file : record_free t → ¬ Exists (touches file) t.
Proof.
  intros Hfree Hex. apply Exists_exists in Hex as (ev & Hin & Hev).
  unfold record_free in Hfree. rewrite Forall_forall in Hfree.
  destruct (Hfree ev Hin) as [Hno _]. by apply (Hno file).
Qed.

Lemma record_free_no_submissions t : record_free t → submissions t = [].
Proof.
  intros Hfree. rewrite <- (app_nil_r t). by rewrite record_free_submissions.
Qed.

Lemma record_reads_app t1 t2 : record_reads (t1 ++ t2) = record_reads t1 ++ record_reads t2.
Proof. apply omap_app. Qed.

Lemma record_unlinks_app t1 t2 :
  record_unlinks (t1 ++ t2) = record_unlinks t1 ++ record_unlinks t2.
Proof. apply omap_app. Qed.

Lemma submission_calls_app t1 t2 :
  submission_calls (t1 ++ t2) = submission_calls t1 ++ submission_calls t2.
Proof. apply filter_app. Qed.

Lemma record_free_app t1 t2 : record_free t1 → record_free t2 → record_free (t1 ++ t2).
Proof. apply Forall_app_2. Qed.

Lemma record_free_header config : record_free (header_lines config).
Proof.
  unfold header_lines.
  destruct (githubRepo config) as [repo |]; [destruct (String.eqb repo "") |];
    repeat first [apply Forall_cons_2 | apply Forall_nil_2]; by split; [intros ? [] |].
Qed.

Lemma record_free_report s e : record_free (report_lines s e).
Proof.
  unfold report_lines.
  destruct (0 <? s), (0 <? e);
    repeat first [apply Forall_cons_2 | apply Forall_nil_2]; by split; [intros ? [] |].
Qed.

Lemma report_lines_head s e : ¬ starts_with_fetch (report_lines s e).
Proof. unfold report_lines. destruct (0 <? s), (0 <? e); cbn; tauto. Qed.

Ltac solve_record_free :=
  repeat first
    [ apply record_free_app | apply record_free_header | apply record_free_report
    | apply Forall_cons_2 | apply Forall_nil_2 ];
  try (split; [intros ? Htouch; cbn in Htouch; (done || discriminate) | reflexivity]).

(** Traces without a verdict *)

Lemma verdicts_quiet t : Forall (λ ev, verdict ev = false) t → verdicts t = [].
Proof.
  induction 1 as [| ev t Hev _ IH]; [done |].
  unfold verdicts in *. by rewrite filter_cons_False by (by rewrite Hev).
Qed.

Lemma quiet_header config : Forall (λ ev, verdict ev = false) (header_lines config).
Proof.
  unfold header_lines.
  destruct (githubRepo config) as [repo |]; [destruct (String.eqb repo "") |];
    repeat first [apply Forall_cons_2 | apply Forall_nil_2]; reflexivity.
Qed.

Lemma verdicts_report s e : verdicts (report_lines s e) = report_lines s e.
Proof. unfold report_lines. by destruct (0 <? s), (0 <? e). Qed.

Ltac solve_quiet :=
  apply verdicts_quiet;
  repeat first
    [ apply Forall_app_2 | apply quiet_header | apply Forall_cons_2 | apply Forall_nil_2 ];
  try reflexivity.

(** ** The disk *)

Lemma pending_set_learnings es' d es :
  disk_learnings d = Dir es → pending (set_learnings es' d) = es'.
Proof.
  unfold pending, disk_learnings, set_learnings.
  destruct (dot_arsenal d); try discriminate. reflexivity.
Qed.

Lemma held_set_learnings es d : held (set_learnings es d) = held d.
Proof. unfold set_learnings. by destruct (dot_arsenal d). Qed.

Lemma held_set_config c d : held (set_config c d) = held d.
Proof. unfold set_config. by destruct (dot_arsenal d). Qed.

Lemma remove_record_present file d es content :
  disk_learnings d = Dir es →
  es !! file = Some (RegFile content) →
  held d (LearningFile file) = false →
  remove_record file d = set_learnings (delete file es) d.
Proof.
  intros Hd Hes Hfree. unfold remove_record. cbn. by rewrite Hd, Hes, Hfree.
Qed.

Lemma remove_record_held file d :
  held d (LearningFile file) = true → remove_record file d = d.
Proof.
  intros Hheld. unfold remove_record. cbn [disk_unlink].
  destruct (disk_learnings d) as [| | es]; try done.
  destruct (es !! file) as [[c |] |]; try done. by rewrite Hheld.
Qed.

Lemma held_remove_record file d : held (remove_record file d) = held d.
Proof.
  unfold remove_record. cbn [disk_unlink].
  destruct (disk_learnings d) as [| | es]; try done.
  destruct (es !! file) as [[c |] |]; try done.
  destruct (held d (LearningFile file)); [done |]. apply held_set_learnings.
Qed.

Lemma held_remove_records files d : held (remove_records files d) = held d.
Proof.
  revert d. induction files as [| file files IH]; intros d; [done |].
  cbn. fold (remove_records files (remove_record file d)).
  by rewrite IH, held_remove_record.
Qed.

Lemma pending_dir d es : disk_learnings d = Dir es → pending d = es.
Proof. unfold pending. by intros ->. Qed.

Lemma deleted_records_held d d' t :
  held d = held d' → deleted_records d t = deleted_records d' t.
Proof. unfold deleted_records. by intros ->. Qed.

Lemma deleted_records_sublist d t : sublist (deleted_records d t) (accepted_records t).
Proof. apply sublist_filter. Qed.

Lemma deleted_records_elem d t file :
  file ∈ deleted_records d t ↔ file ∈ accepted_records t ∧ held d (LearningFile file) = false.
Proof. unfold deleted_records. rewrite list_elem_of_filter. tauto. Qed.

Lemma stuck_records_elem d t file :
  file ∈ stuck_records d t ↔ file ∈ accepted_records t ∧ held d (LearningFile file) = true.
Proof. unfold stuck_records. rewrite list_elem_of_filter. tauto. Qed.

(** An accepted record is deleted or the run is stuck with it. *)
Lemma deleted_or_stuck d t :
  length (deleted_records d t) + length (stuck_records d t) = length (accepted_records t).
Proof.
  unfold deleted_records, stuck_records.
  induction (accepted_records t) as [| file l IH]; [done |].
  destruct (held d (LearningFile file)) eqn:Hheld.
  - rewrite filter_cons_False by (by rewrite Hheld).
    rewrite filter_cons_True by done. cbn [length]. lia.
  - rewrite filter_cons_True by done.
    rewrite filter_cons_False by (by rewrite Hheld). cbn [length]. lia.
Qed.

Lemma verdicts_app t1 t2 : verdicts (t1 ++ t2) = verdicts t1 ++ verdicts t2.
Proof. apply filter_app. Qed.

Section Loop.
Context {js : JsRuntime} {R : Type} (env : Env R).

Lemma sendLearning_run learning config p (w : World R) :
  sendLearning env learning config p w =
    let req := submit_request learning config in
    match serve env (remote w) req with
    | (Rejected e, r) =>
        (Thrown (failed_to_sync learning e), mkWorld (disk w) r, [EvFetch req (Rejected e)])
    | (Responded res, r) =>
        if ok res then
          match disk_unlink p (disk w) with
          | Returned d =>
              (Returned tt, mkWorld d r, [EvFetch req (Responded res); EvUnlink p])
          | Thrown e =>
              (Thrown (failed_to_sync learning e), mkWorld (disk w) r,
               [EvFetch req (Responded res); EvUnlink p])
          end
        else
          (Thrown (failed_to_sync learning (server_error res)), mkWorld (disk w) r,
           [EvFetch req (Responded res)])
    end.
Proof.
  unfold sendLearning, try_catch, bind, fetch, server_error, failed_to_sync.
  cbv zeta.
  destruct (serve env (remote w) (submit_request learning config)) as [[e | res] r];
    [reflexivity |].
  destruct (ok res) eqn:Hok; cbn [negb].
  - unfold ret, unlink, change_disk. cbn [disk remote].
    destruct (disk_unlink p (disk w)); reflexivity.
  - unfold res_json, lift, throw, ret.
    destruct (text res) as [s | e]; [destruct (json_ErrorBody s) |]; reflexivity.
Qed.

(** One turn of the loop, in direct style. *)
Lemma sync_file_run config s e file (w : World R) :
  sync_file env config (s, e) file w =
    let failed message w1 t1 :=
      (Returned (s, S e), w1,
       EvReadFile (LearningFile file) :: t1
         ++ [EvConsole ConsoleLog red ("❌ Failed to sync " +:+ file +:+ ": " +:+ message)]) in
    match disk_readFile (LearningFile file) (disk w) with
    | Thrown message => failed message w []
    | Returned content =>
        match JSON_parse_Learning content with
        | Thrown message => failed message w []
        | Returned learning =>
            match sendLearning env learning config (LearningFile file) w with
            | (Thrown message, w1, t1) => failed message w1 t1
            | (Returned _, w1, t1) =>
                (Returned (S s, e), w1,
                 EvReadFile (LearningFile file) :: t1
                   ++ [EvConsole ConsoleLog green
                         ("✅ Synced: " +:+ str_or (function_name learning) file)])
            end
        end
    end.
Proof.
  unfold sync_file, try_catch, bind, readFile, on_disk, lift, console, ret.
  cbv zeta.
  destruct (disk_readFile (LearningFile file) (disk w)) as [content | m]; [| reflexivity].
  destruct (JSON_parse_Learning content) as [learning | m]; [| reflexivity].
  destruct (sendLearning env learning config (LearningFile file) w) as [[[[] | m] w1] t1];
    cbn [app]; rewrite ?app_nil_r; reflexivity.
Qed.

(** A turn has the record accepted and deletes its file; or it has the
    record accepted and fails to delete its file, which is held; or the
    record is not accepted.  In the last two cases it counts a failure and
    leaves the disk as it is. *)
Lemma sync_file_cases config s e file (w : World R) :
  (∃ es content learning res r,
      disk_learnings (disk w) = Dir es
      ∧ es !! file = Some (RegFile content)
      ∧ JSON_parse_Learning content = Returned learning
      ∧ serve env (remote w) (submit_request learning config) = (Responded res, r)
      ∧ ok res = true
      ∧ held (disk w) (LearningFile file) = false
      ∧ sync_file env config (s, e) file w =
          (Returned (S s, e),
           mkWorld (set_learnings (delete file es) (disk w)) r,
           [EvReadFile (LearningFile file);
            EvFetch (submit_request learning config) (Responded res);
            EvUnlink (LearningFile file);
            EvConsole ConsoleLog green
              ("✅ Synced: " +:+ str_or (function_name learning) file)]))
  ∨ (∃ es content learning res r,
      disk_learnings (disk w) = Dir es
      ∧ es !! file = Some (RegFile content)
      ∧ JSON_parse_Learning content = Returned learning
      ∧ serve env (remote w) (submit_request learning config) = (Responded res, r)
      ∧ ok res = true
      ∧ held (disk w) (LearningFile file) = true
      ∧ sync_file env config (s, e) file w =
          (Returned (s, S e), mkWorld (disk w) r,
           [EvReadFile (LearningFile file);
            EvFetch (submit_request learning config) (Responded res);
            EvUnlink (LearningFile file);
            EvConsole ConsoleLog red
              ("❌ Failed to sync " +:+ file +:+ ": " +:+ failed_to_sync learning "EPERM")]))
  ∨ (∃ r mid message,
      sync_file env config (s, e) file w =
        (Returned (s, S e), mkWorld (disk w) r,
         EvReadFile (LearningFile file) :: mid
           ++ [EvConsole ConsoleLog red ("❌ Failed to sync " +:+ file +:+ ": " +:+ message)])
      ∧ (mid = []
         ∨ ∃ req out, mid = [EvFetch req out] ∧ is_submission req = true ∧ success out = false)).
Proof.
  rewrite sync_file_run. cbv zeta.
  destruct (disk_readFile (LearningFile file) (disk w)) as [content | m] eqn:Hread;
    [| right; right; destruct w; eauto 10].
  destruct (JSON_parse_Learning content) as [learning | m] eqn:Hparse;
    [| right; right; destruct w; eauto 10].
  rewrite sendLearning_run. cbv zeta.
  destruct (serve env (remote w) (submit_request learning config)) as [[m | res] r] eqn:Hserve.
  { right. right. eexists r, [_], _. split; [reflexivity |]. right. eauto. }
  destruct (ok res) eqn:Hok.
  2:{ right. right. eexists r, [_], _. split; [reflexivity |]. right.
      eexists _, _. split; [reflexivity |]. cbn. by rewrite Hok. }
  cbn in Hread. cbn [disk_unlink].
  destruct (disk_learnings (disk w)) as [| | es]; try discriminate.
  destruct (es !! file) as [[c |] |] eqn:Hes; try discriminate.
  injection Hread as ->.
  destruct (held (disk w) (LearningFile file)) eqn:Hheld.
  - right. left. eexists es, content, learning, res, r. repeat split; try done.
  - left. eexists es, content, learning, res, r. repeat split; try done.
Qed.

Lemma sync_file_returns config counts file (w : World R) :
  ∃ counts' w1 t1, sync_file env config counts file w = (Returned counts', w1, t1).
Proof.
  destruct counts as [s e].
  destruct (sync_file_cases config s e file w)
    as [(? & ? & ? & ? & ? & _ & _ & _ & _ & _ & _ & ->)
       | [(? & ? & ? & ? & ? & _ & _ & _ & _ & _ & _ & ->) | (? & ? & ? & -> & _)]]; eauto.
Qed.

Lemma loop_event_mono files files' ev :
  files ⊆ files' → loop_event files ev → loop_event files' ev.
Proof.
  intros Hsub [(file & Hin & Hev) | H]; [left | by right].
  exists file. split; [by apply Hsub | done].
Qed.

(** The loop: it always runs to its end, reads every file once and in order,
    tries to delete exactly the accepted records, deletes those of them that
    are not held and counts all the others as failed. *)
Lemma sync_files_spec config files :
  ∀ s e (w : World R), ∃ w' tr,
    sync_files env config files (s, e) w =
      (Returned (s + length (deleted_records (disk w) tr),
                 e + (length files - length (deleted_records (disk w) tr))), w', tr)
    ∧ disk w' = remove_records (accepted_records tr) (disk w)
    ∧ record_reads tr = files
    ∧ record_unlinks tr = accepted_records tr
    ∧ sublist (accepted_records tr) files
    ∧ sublist (submissions tr).*1 files
    ∧ (∀ g, pending (disk w') !! g =
            if decide (g ∈ deleted_records (disk w) tr) then None else pending (disk w) !! g)
    ∧ size (pending (disk w')) + length (deleted_records (disk w) tr)
      = size (pending (disk w))
    ∧ Forall (loop_event files) tr
    ∧ ¬ starts_with_fetch tr
    ∧ length (submission_calls tr) = length (submissions tr)
    ∧ held (disk w') = held (disk w)
    ∧ Forall2 record_line files (verdicts tr).
Proof.
  induction files as [| file files IH]; intros s e w.
  { exists w, []. cbn. rewrite !Nat.add_0_r.
    split_and!; try done. intros []. }
  cbn [sync_files]. unfold bind.
  destruct (sync_file_cases config s e file w)
    as [(es & content & learning & res & r & Hd & Hes & Hparse & Hserve & Hok & Hfree & ->)
       | [(es & content & learning & res & r & Hd & Hes & Hparse & Hserve & Hok & Hheld & ->)
         | (r & mid & message & -> & Hmid)]].
  - (* accepted and deleted *)
    set (w1 := mkWorld (set_learnings (delete file es) (disk w)) r).
    destruct (IH (S s) e w1)
      as (w' & tr & -> & Hdisk & Hreads & Hunl & Hsub & Hsubm & Hlook & Hsize & Hev & Hhead
          & Hcalls & Hsame & Hlines).
    assert (Hh1 : held (disk w1) = held (disk w)) by apply held_set_learnings.
    rewrite (deleted_records_held _ _ tr Hh1) in *.
    set (seg := [EvReadFile (LearningFile file);
                 EvFetch (submit_request learning config) (Responded res);
                 EvUnlink (LearningFile file);
                 EvConsole ConsoleLog green
                   ("✅ Synced: " +:+ str_or (function_name learning) file)]).
    assert (Hacc : accepted_records (seg ++ tr) = file :: accepted_records tr).
    { rewrite accepted_records_app by done. unfold accepted_records, seg. cbn [submissions].
      rewrite filter_cons_True by (cbn; done). reflexivity. }
    assert (Hdel : deleted_records (disk w) (seg ++ tr) = file :: deleted_records (disk w) tr).
    { unfold deleted_records. rewrite Hacc. by rewrite filter_cons_True. }
    assert (Hsubs : submissions (seg ++ tr) = (file, Responded res) :: submissions tr).
    { by rewrite submissions_app. }
    exists w', (seg ++ tr). rewrite Hdel, Hacc, Hsubs.
    assert (Hp1 : pending (disk w1) = delete file es)
      by (apply (pending_set_learnings _ _ es), Hd).
    assert (Hp0 : pending (disk w) = es) by by apply pending_dir.
    pose proof (sublist_length _ _ Hsub) as Hlen.
    pose proof (sublist_length _ _ (deleted_records_sublist (disk w) tr)) as Hlen'.
    split_and!.
    + do 3 f_equal. cbn [length]. f_equal; lia.
    + unfold remove_records. cbn [foldl]. fold (remove_records (accepted_records tr)).
      erewrite remove_record_present by done. exact Hdisk.
    + unfold record_reads in *. rewrite omap_app. cbn. by rewrite Hreads.
    + unfold record_unlinks in *. rewrite omap_app. cbn. by rewrite Hunl.
    + by apply sublist_skip.
    + cbn. by apply sublist_skip.
    + intros g. rewrite Hlook, Hp1, Hp0.
      destruct (decide (g = file)) as [-> | Hne].
      * rewrite lookup_delete_eq.
        rewrite (decide_True (P := file ∈ file :: deleted_records (disk w) tr)) by constructor.
        by case_decide.
      * rewrite lookup_delete_ne by done.
        destruct (decide (g ∈ deleted_records (disk w) tr)) as [Hg | Hg].
        -- by rewrite decide_True by (by apply list_elem_of_further).
        -- rewrite decide_False; [done |]. by intros [? | ?]%elem_of_cons.
    + rewrite Hp1 in Hsize. rewrite Hp0. cbn [length].
      assert (size es = S (size (delete file es))).
      { rewrite map_size_delete, Hes. assert (size es ≠ 0); [| lia].
        intros Hz. apply map_size_empty_inv in Hz. by rewrite Hz, lookup_empty in Hes. }
      lia.
    + apply Forall_app. split.
      * unfold seg. repeat first [apply Forall_cons_2 | apply Forall_nil_2].
        -- left. exists file. split; [constructor | by left].
        -- right. by left.
        -- left. exists file. split; [constructor | by right].
        -- right. right. eauto.
      * eapply Forall_impl; [exact Hev |]. intros ev. apply loop_event_mono.
        intros x Hx. by apply list_elem_of_further.
    + cbn. tauto.
    + unfold submission_calls, seg in *. cbn [app].
      rewrite filter_cons_False by (cbn; done).
      rewrite filter_cons_True by (cbn; done).
      rewrite filter_cons_False by (cbn; done).
      rewrite filter_cons_False by (cbn; done).
      cbn [length]. by rewrite Hcalls.
    + by rewrite Hsame.
    + rewrite verdicts_app. unfold verdicts at 1, seg.
      rewrite !filter_cons_False by (cbn; done).
      rewrite filter_cons_True by (cbn; done). cbn [app filter list_filter].
      constructor; [left; eauto | exact Hlines].
  - (* accepted, and the file is held *)
    set (w1 := mkWorld (disk w) r).
    destruct (IH s (S e) w1)
      as (w' & tr & -> & Hdisk & Hreads & Hunl & Hsub & Hsubm & Hlook & Hsize & Hev & Hhead
          & Hcalls & Hsame & Hlines).
    cbn [disk w1] in *.
    set (seg := [EvReadFile (LearningFile file);
                 EvFetch (submit_request learning config) (Responded res);
                 EvUnlink (LearningFile file);
                 EvConsole ConsoleLog red
                   ("❌ Failed to sync " +:+ file +:+ ": "
                      +:+ failed_to_sync learning "EPERM")]).
    assert (Hacc : accepted_records (seg ++ tr) = file :: accepted_records tr).
    { rewrite accepted_records_app by done. unfold accepted_records, seg. cbn [submissions].
      rewrite filter_cons_True by (cbn; done). reflexivity. }
    assert (Hdel : deleted_records (disk w) (seg ++ tr) = deleted_records (disk w) tr).
    { unfold deleted_records. rewrite Hacc. by rewrite filter_cons_False by (by rewrite Hheld). }
    assert (Hsubs : submissions (seg ++ tr) = (file, Responded res) :: submissions tr).
    { by rewrite submissions_app. }
    exists w', (seg ++ tr). rewrite Hdel, Hacc, Hsubs.
    pose proof (sublist_length _ _ Hsub) as Hlen.
    pose proof (sublist_length _ _ (deleted_records_sublist (disk w) tr)) as Hlen'.
    split_and!; try done.
    + do 3 f_equal. cbn [length]. f_equal; lia.
    + unfold remove_records. cbn [foldl]. fold (remove_records (accepted_records tr)).
      by rewrite remove_record_held.
    + unfold record_reads in *. rewrite omap_app. cbn. by rewrite Hreads.
    + unfold record_unlinks in *. rewrite omap_app. cbn. by rewrite Hunl.
    + by apply sublist_skip.
    + cbn. by apply sublist_skip.
    + apply Forall_app. split.
      * unfold seg. repeat first [apply Forall_cons_2 | apply Forall_nil_2].
        -- left. exists file. split; [constructor | by left].
        -- right. by left.
        -- left. exists file. split; [constructor | by right].
        -- right. right. eauto.
      * eapply Forall_impl; [exact Hev |]. intros ev. apply loop_event_mono.
        intros x Hx. by apply list_elem_of_further.
    + cbn. tauto.
    + unfold submission_calls, seg in *. cbn [app].
      rewrite filter_cons_False by (cbn; done).
      rewrite filter_cons_True by (cbn; done).
      rewrite filter_cons_False by (cbn; done).
      rewrite filter_cons_False by (cbn; done).
      cbn [length]. by rewrite Hcalls.
    + rewrite verdicts_app. unfold verdicts at 1, seg.
      rewrite !filter_cons_False by (cbn; done).
      rewrite filter_cons_True by (cbn; done). cbn [app filter list_filter].
      constructor; [right; eauto | exact Hlines].
  - (* not accepted *)
    set (w1 := mkWorld (disk w) r).
    destruct (IH s (S e) w1)
      as (w' & tr & -> & Hdisk & Hreads & Hunl & Hsub & Hsubm & Hlook & Hsize & Hev & Hhead
          & Hcalls & Hsame & Hlines).
    cbn [disk w1] in *.
    set (seg := EvReadFile (LearningFile file) :: mid
                  ++ [EvConsole ConsoleLog red
                        ("❌ Failed to sync " +:+ file +:+ ": " +:+ message)]).
    assert (Hacc : accepted_records (seg ++ tr) = accepted_records tr).
    { rewrite accepted_records_app by done. unfold accepted_records, seg.
      destruct Hmid as [-> | (req & out & -> & Hreq & Hout)]; cbn [app submissions].
      - reflexivity.
      - rewrite filter_cons_False by (cbn; by rewrite Hout). reflexivity. }
    assert (Hdel : deleted_records (disk w) (seg ++ tr) = deleted_records (disk w) tr).
    { unfold deleted_records. by rewrite Hacc. }
    assert (Hsubs : sublist (submissions (seg ++ tr)).*1 (file :: files)
                    ∧ length (submission_calls (seg ++ tr)) = length (submissions (seg ++ tr))).
    { rewrite submissions_app by done. unfold seg, submission_calls.
      destruct Hmid as [-> | (req & out & -> & Hreq & Hout)]; cbn [app submissions].
      - rewrite filter_cons_False by (cbn; done).
        rewrite filter_cons_False by (cbn; done).
        split; [by apply sublist_cons | done].
      - rewrite filter_cons_False by (cbn; done).
        rewrite filter_cons_True by (cbn; done).
        rewrite filter_cons_False by (cbn; done).
        cbn. split; [by apply sublist_skip | by f_equal]. }
    destruct Hsubs as [Hsubs1 Hsubs2].
    exists w', (seg ++ tr). rewrite Hdel, Hacc.
    pose proof (sublist_length _ _ Hsub) as Hlen.
    pose proof (sublist_length _ _ (deleted_records_sublist (disk w) tr)) as Hlen'.
    split_and!; try done.
    + do 3 f_equal. cbn [length]. f_equal; lia.
    + unfold record_reads in *. unfold seg. cbn [app omap]. cbn.
      rewrite omap_app, Hreads.
      destruct Hmid as [-> | (req & out & -> & _)]; reflexivity.
    + unfold record_unlinks in *. unfold seg. cbn [app]. cbn.
      rewrite omap_app, Hunl.
      destruct Hmid as [-> | (req & out & -> & _)]; reflexivity.
    + by apply sublist_cons.
    + apply Forall_app. split.
      * unfold seg.
        apply Forall_cons_2; [left; exists file; split; [constructor | by left] |].
        apply Forall_app. split.
        -- destruct Hmid as [-> | (req & out & -> & Hreq & _)]; [apply Forall_nil_2 |].
           apply Forall_cons_2; [| apply Forall_nil_2]. right. by left.
        -- apply Forall_cons_2; [| apply Forall_nil_2]. right. right. eauto.
      * eapply Forall_impl; [exact Hev |]. intros ev. apply loop_event_mono.
        intros x Hx. by apply list_elem_of_further.
    + unfold seg. cbn. tauto.
    + rewrite verdicts_app. unfold verdicts at 1, seg.
      rewrite filter_cons_False by (cbn; done). rewrite filter_app.
      assert (Hnone : filter (λ ev, verdict ev = true) mid = []).
      { destruct Hmid as [-> | (req & out & -> & _)]; [done |].
        by rewrite filter_cons_False by (cbn; done). }
      rewrite Hnone. rewrite filter_cons_True by (cbn; done). cbn [app filter list_filter].
      constructor; [right; eauto | exact Hlines].
Qed.

End Loop.

(** ** The steps of [sync] *)

Section Sync.
Context {js : JsRuntime} {R : Type} (env : Env R).

Lemma validateConfig_run config (w : World R) :
  validateConfig env config w =
    let req := test_api_key_request config in
    let failed message := Thrown ("Configuration validation failed: " +:+ message) in
    match serve env (remote w) req with
    | (Rejected e, r) => (failed e, mkWorld (disk w) r, [EvFetch req (Rejected e)])
    | (Responded res, r) =>
        (if ok res then
           match text res with
           | Thrown e => failed e
           | Returned s =>
               match json_TestApiKeyResponse s with
               | Thrown e => failed e
               | Returned data =>
                   if mismatch data config
                   then failed "Config mismatch: API key does not match user ID or project ID"
                   else Returned tt
               end
           end
         else failed "Invalid API key",
         mkWorld (disk w) r, [EvFetch req (Responded res)])
    end.
Proof.
  unfold validateConfig, try_catch, bind, fetch. cbv zeta.
  destruct (serve env (remote w) (test_api_key_request config)) as [[e | res] r];
    [reflexivity |].
  destruct (ok res); cbn [negb]; [| reflexivity].
  unfold ret, res_json, lift, throw.
  destruct (text res) as [s | e]; [| reflexivity].
  destruct (json_TestApiKeyResponse s) as [data | e]; [| reflexivity].
  destruct (mismatch data config); reflexivity.
Qed.

Lemma report_run successCount errorCount (w : World R) :
  report successCount errorCount w = (Returned tt, w, report_lines successCount errorCount).
Proof.
  unfold report, report_lines, bind, console, ret.
  destruct (0 <? successCount), (0 <? errorCount); reflexivity.
Qed.

Lemma sync_validated_run config (w : World R) :
  sync_validated env config w =
    match disk_learnings (disk w) with
    | Missing =>
        (Returned tt, w,
         header_lines config
           ++ [EvAccess LearningsDir;
               EvConsole ConsoleWarn yellow "⚠️ No learnings directory found."])
    | NotADir =>
        (Thrown "ENOTDIR", w,
         header_lines config ++ [EvAccess LearningsDir; EvReaddir LearningsDir])
    | Dir es =>
        let files := json_files (map_to_list es).*1 in
        if length files =? 0 then
          (Returned tt, w,
           header_lines config
             ++ [EvAccess LearningsDir; EvReaddir LearningsDir;
                 EvConsole ConsoleLog blue "📭 No learnings to sync."])
        else
          match sync_files env config files (0, 0) w with
          | (Returned counts, w', t) =>
              (Returned tt, w',
               header_lines config
                 ++ [EvAccess LearningsDir; EvReaddir LearningsDir;
                     syncing_line (length files)]
                 ++ t ++ report_lines counts.1 counts.2)
          | (Thrown e, w', t) =>
              (Thrown e, w',
               header_lines config
                 ++ [EvAccess LearningsDir; EvReaddir LearningsDir;
                     syncing_line (length files)]
                 ++ t)
          end
    end.
Proof.
  unfold sync_validated, bind, attempt, access, readdir, on_disk.
  unfold disk_access, disk_readdir.
  destruct (disk_learnings (disk w)) as [| | es] eqn:Hd; cbn [is_returned negb].
  all: unfold header_lines, syncing_line, console, ret.
  all: destruct (githubRepo config) as [repo |]; [destruct (String.eqb repo "") |].
  all: cbv beta iota delta [is_returned negb]; rewrite ?Hd; try reflexivity.
  all: cbv zeta; destruct (length (json_files (map_to_list es).*1) =? 0); [reflexivity |].
  all: destruct (sync_files env config (json_files (map_to_list es).*1) (0, 0) w)
         as [[[counts | e] w'] t]; [rewrite report_run |]; reflexivity.
Qed.

Lemma load_config_run (w : World R) :
  load_config w =
    (match disk_readFile ConfigFile (disk w) with
     | Returned content => JSON_parse_Config content
     | Thrown e => Thrown e
     end, w, [EvReadFile ConfigFile]).
Proof.
  unfold load_config, bind, readFile, on_disk, lift.
  destruct (disk_readFile ConfigFile (disk w)); reflexivity.
Qed.

Lemma sync_action_run (w : World R) :
  sync_action env w =
    match result (load_config w) with
    | Thrown _ =>
        (Returned tt, w,
         [EvReadFile ConfigFile;
          EvConsole ConsoleError red "❌ No config found. Did you run `arsenal init`?"])
    | Returned config =>
        match validateConfig env config w with
        | (Thrown message, w1, t1) =>
            (Returned tt, w1,
             EvReadFile ConfigFile :: t1 ++ [EvConsole ConsoleError red ("❌ " +:+ message)])
        | (Returned _, w1, t1) =>
            match sync_validated env config w1 with
            | (Returned _, w2, t2) => (Returned tt, w2, EvReadFile ConfigFile :: t1 ++ t2)
            | (Thrown message, w2, t2) =>
                (Returned tt, w2,
                 EvReadFile ConfigFile :: t1 ++ t2
                   ++ [EvConsole ConsoleError red ("❌ Sync failed: " +:+ message)])
            end
        end
    end.
Proof.
  unfold sync_action, sync_body, try_catch, bind, attempt.
  rewrite load_config_run. unfold result. cbn [fst].
  destruct (match disk_readFile ConfigFile (disk w) with
            | Returned content => JSON_parse_Config content
            | Thrown e => Thrown e
            end) as [config | e]; [| reflexivity].
  destruct (validateConfig env config w) as [[[[] | m] w1] t1]; [| reflexivity].
  unfold console.
  destruct (sync_validated env config w1) as [[[[] | m] w2] t2];
    cbn [app]; rewrite ?app_nil_r, <- ?app_assoc; reflexivity.
Qed.

(** A run that stops before the loop. *)
Lemma sync_guarantees_stopped (w w' : World R) t :
  disk w' = disk w → record_free t → sync_guarantees w (Returned tt, w', t).
Proof.
  intros Hdisk Hfree. unfold sync_guarantees, result, world_after, trace. cbn [fst snd].
  assert (Hsub : submissions t = []) by by apply record_free_no_submissions.
  unfold deleted_records, accepted_records.
  rewrite Hsub, record_free_reads, record_free_unlinks, record_free_calls by done.
  cbn. rewrite Hdisk. split_and!; try done; try lia.
  - by left.
  - intros file Hex. by apply record_free_touches in Hex.
Qed.

(** A run that reaches the loop. *)
Lemma sync_guarantees_looped config (w w1 w2 : World R) es prelude t s e :
  disk w1 = disk w →
  record_free prelude →
  disk_learnings (disk w) = Dir es →
  sync_files env config (enumerated (disk w)) (0, 0) w1 = (Returned (s, e), w2, t) →
  sync_guarantees w (Returned tt, w2, prelude ++ t ++ report_lines s e)
  ∧ record_reads (prelude ++ t ++ report_lines s e) = enumerated (disk w)
  ∧ submissions (prelude ++ t ++ report_lines s e) = submissions t
  ∧ accepted_records (prelude ++ t ++ report_lines s e) = accepted_records t
  ∧ refused_records (prelude ++ t ++ report_lines s e) = refused_records t
  ∧ s = length (deleted_records (disk w) t)
  ∧ e = length (enumerated (disk w)) - length (deleted_records (disk w) t)
  ∧ verdicts (prelude ++ t ++ report_lines s e)
    = verdicts prelude ++ verdicts t ++ report_lines s e
  ∧ Forall2 record_line (enumerated (disk w)) (verdicts t).
Proof.
  intros Hdisk Hfree Hd Hloop.
  destruct (sync_files_spec env config (enumerated (disk w)) 0 0 w1)
    as (w' & tr & Hrun & Hdisk' & Hreads & Hunl & Hsub & Hsubm & Hlook & Hsize & Hev
        & Hhead & Hcalls & Hheld & Hlines).
  rewrite (deleted_records_held (disk w1) (disk w)) in * by by rewrite Hdisk.
  rewrite Hloop in Hrun. injection Hrun as -> -> -> ->.
  set (rep := report_lines _ _).
  assert (Hrep : record_free rep) by apply record_free_report.
  set (T := prelude ++ tr ++ rep).
  assert (HsubT : submissions T = submissions tr).
  { unfold T. rewrite record_free_submissions by done.
    rewrite submissions_app by apply report_lines_head.
    by rewrite (record_free_no_submissions rep), app_nil_r. }
  assert (HaccT : accepted_records T = accepted_records tr)
    by (unfold accepted_records; by rewrite HsubT).
  assert (HrefT : refused_records T = refused_records tr)
    by (unfold refused_records; by rewrite HsubT).
  assert (HreadsT : record_reads T = enumerated (disk w)).
  { unfold T. rewrite !record_reads_app, (record_free_reads prelude), (record_free_reads rep) by done.
    cbn [app]. by rewrite app_nil_r. }
  assert (HunlT : record_unlinks T = record_unlinks tr).
  { unfold T. rewrite !record_unlinks_app, (record_free_unlinks prelude), (record_free_unlinks rep) by done.
    cbn [app]. by rewrite app_nil_r. }
  assert (HcallsT : submission_calls T = submission_calls tr).
  { unfold T. rewrite !submission_calls_app, (record_free_calls prelude), (record_free_calls rep) by done.
    cbn [app]. by rewrite app_nil_r. }
  assert (HdelT : deleted_records (disk w) T = deleted_records (disk w) tr)
    by (unfold deleted_records; by rewrite HaccT).
  split_and!; try done.
  2:{ unfold T, rep. by rewrite !verdicts_app, verdicts_report. }
  unfold sync_guarantees, result, world_after, trace. cbn [fst snd]. fold T.
  rewrite HdelT, HaccT, HsubT, HreadsT, HunlT, HcallsT.
  rewrite Hdisk in Hdisk', Hlook, Hsize.
  split_and!; try done.
  - by right.
  - intros file Hex. unfold T in Hex.
    apply Exists_app in Hex as [Hex | Hex]; [by apply record_free_touches in Hex |].
    apply Exists_app in Hex as [Hex | Hex];
      [| by apply record_free_touches in Hex].
    apply Exists_exists in Hex as (ev & Hin & Htouch).
    rewrite Forall_forall in Hev.
    destruct (Hev ev Hin) as [(f & Hf & [-> | ->]) | [Hcall | (c & l & ->)]].
    + cbn in Htouch. by injection Htouch as ->.
    + cbn in Htouch. by injection Htouch as ->.
    + by destruct ev.
    + done.
Qed.

Lemma validateConfig_shape config (w : World R) :
  ∃ c r out,
    validateConfig env config w =
      (c, mkWorld (disk w) r, [EvFetch (test_api_key_request config) out]).
Proof.
  rewrite validateConfig_run. cbv zeta.
  destruct (serve env (remote w) (test_api_key_request config)) as [[e | res] r]; eauto.
Qed.

Lemma sync_files_returns config files counts (w : World R) :
  ∃ counts' w' t, sync_files env config files counts w = (Returned counts', w', t).
Proof.
  destruct counts as [s e].
  destruct (sync_files_spec env config files s e w) as (w' & t & -> & _). eauto.
Qed.

Lemma enumerated_dir d es :
  disk_learnings d = Dir es → enumerated d = json_files (map_to_list es).*1.
Proof. intros Hd. unfold enumerated. by rewrite (pending_dir d es). Qed.

(** A run stops before the loop, leaving the records alone, or its
    configuration is accepted and it runs the loop over what it enumerated. *)
Lemma sync_action_outcome (w : World R) :
  (∃ w' t, sync_action env w = (Returned tt, w', t) ∧ disk w' = disk w ∧ record_free t
           ∧ verdicts t = [])
  ∨ (∃ config es r w2 prelude tl s e,
        config_accepted env w config
        ∧ disk_learnings (disk w) = Dir es
        ∧ record_free prelude
        ∧ sync_files env config (enumerated (disk w)) (0, 0) (mkWorld (disk w) r) =
            (Returned (s, e), w2, tl)
        ∧ sync_action env w = (Returned tt, w2, prelude ++ tl ++ report_lines s e)
        ∧ verdicts prelude = []).
Proof.
  rewrite sync_action_run.
  destruct (result (load_config w)) as [config | e] eqn:Hload;
    [| left; eexists _, _; split_and!; [done | done | solve_record_free | solve_quiet]].
  destruct (validateConfig_shape config w) as (c & r & out & Hv). rewrite Hv.
  destruct c as [[] | m];
    [| left; eexists _, _; split_and!; [done | done | solve_record_free | solve_quiet]].
  rewrite sync_validated_run. cbn [disk].
  destruct (disk_learnings (disk w)) as [| | es] eqn:Hd.
  - left; eexists _, _; split_and!; [done | done | solve_record_free | solve_quiet].
  - left; eexists _, _; split_and!; [done | done | solve_record_free | solve_quiet].
  - cbv zeta. rewrite <- (enumerated_dir _ _ Hd).
    destruct (length (enumerated (disk w)) =? 0);
      [left; eexists _, _; split_and!; [done | done | solve_record_free | solve_quiet] |].
    destruct (sync_files env config (enumerated (disk w)) (0, 0) (mkWorld (disk w) r))
      as [[[[s e] | e] w'] t] eqn:Hloop.
    2:{ destruct (sync_files_returns config (enumerated (disk w)) (0, 0) (mkWorld (disk w) r))
          as (? & ? & ? & Hret). congruence. }
    cbn [fst snd]. right.
    set (prelude := EvReadFile ConfigFile
                      :: [EvFetch (test_api_key_request config) out]
                      ++ header_lines config
                      ++ [EvAccess LearningsDir; EvReaddir LearningsDir;
                          syncing_line (length (enumerated (disk w)))]).
    exists config, es, r, w', prelude, t, s, e. split_and!; try done.
    + split; [done | by rewrite Hv].
    + unfold prelude. solve_record_free.
    + unfold prelude. cbn [app]. by rewrite <- !app_assoc.
    + unfold prelude. solve_quiet.
Qed.

(** The guarantees hold for every run. *)
Lemma sync_action_guarantees (w : World R) : sync_guarantees w (sync_action env w).
Proof.
  destruct (sync_action_outcome w)
    as [(w' & t & -> & Hdisk & Hfree & _)
       | (config & es & r & w2 & prelude & tl & s & e & _ & Hd & Hfree & Hloop & -> & _)].
  - by apply sync_guarantees_stopped.
  - by apply (sync_guarantees_looped config w (mkWorld (disk w) r) w2 es prelude tl s e).
Qed.

(** A run whose configuration is accepted goes on to the enumeration. *)
Lemma sync_action_accepted (w : World R) config :
  config_accepted env w config →
  ∃ r out,
    validateConfig env config w =
      (Returned tt, mkWorld (disk w) r, [EvFetch (test_api_key_request config) out])
    ∧ sync_action env w =
        match sync_validated env config (mkWorld (disk w) r) with
        | (Returned _, w2, t2) =>
            (Returned tt, w2,
             EvReadFile ConfigFile :: EvFetch (test_api_key_request config) out :: t2)
        | (Thrown message, w2, t2) =>
            (Returned tt, w2,
             EvReadFile ConfigFile :: EvFetch (test_api_key_request config) out :: t2
               ++ [EvConsole ConsoleError red ("❌ Sync failed: " +:+ message)])
        end.
Proof.
  intros [Hload Hvalid].
  destruct (validateConfig_shape config w) as (c & r & out & Hv).
  rewrite Hv in Hvalid. cbn in Hvalid. subst c.
  exists r, out. split; [done |].
  rewrite sync_action_run, Hload, Hv.
  destruct (sync_validated env config (mkWorld (disk w) r)) as [[[[] | m] w2] t2]; reflexivity.
Qed.

End Sync.

(** ** What [readdir] enumerates *)

Lemma enumerated_NoDup d : NoDup (enumerated d).
Proof. unfold enumerated, json_files. apply NoDup_filter, NoDup_fst_map_to_list. Qed.

Lemma enumerated_json d file : file ∈ enumerated d → endsWith file ".json" = true.
Proof. unfold enumerated, json_files. rewrite list_elem_of_filter. tauto. Qed.

Lemma enumerated_present d file :
  file ∈ enumerated d → ∃ entry, pending d !! file = Some entry.
Proof.
  unfold enumerated, json_files. rewrite list_elem_of_filter. intros [_ Hin].
  apply list_elem_of_fmap in Hin as ([f entry] & -> & Hin).
  apply elem_of_map_to_list in Hin. eauto.
Qed.

Lemma enumerated_missing d : disk_learnings d = Missing → enumerated d = [].
Proof.
  intros Hd. unfold enumerated, pending. rewrite Hd. by rewrite map_to_list_empty.
Qed.

Lemma sublist_elem {A} (l k : list A) x : sublist l k → x ∈ l → x ∈ k.
Proof. intros Hsub Hin. eapply elem_of_submseteq; [exact Hin | by apply sublist_submseteq]. Qed.

Lemma NoDup_fst_agree {A B} (l : list (A * B)) x y1 y2 :
  NoDup l.*1 → (x, y1) ∈ l → (x, y2) ∈ l → y1 = y2.
Proof.
  induction l as [| [a b] l IH]; cbn; intros Hdup H1 H2; [by apply not_elem_of_nil in H1 |].
  apply NoDup_cons in Hdup as [Hnotin Hdup].
  apply elem_of_cons in H1 as [H1 | H1], H2 as [H2 | H2].
  - congruence.
  - injection H1 as -> ->. destruct Hnotin. by apply (list_elem_of_fmap_2 fst _ (a, y2)).
  - injection H2 as -> ->. destruct Hnotin. by apply (list_elem_of_fmap_2 fst _ (a, y1)).
  - by apply IH.
Qed.

Lemma accepted_records_elem t file :
  file ∈ accepted_records t ↔ ∃ out, (file, out) ∈ submissions t ∧ success out = true.
Proof.
  unfold accepted_records. rewrite list_elem_of_fmap. split.
  - intros ([f out] & -> & Hin). apply list_elem_of_filter in Hin as [Hok Hin]. eauto.
  - intros (out & Hin & Hok). exists (file, out). split; [done |].
    by apply list_elem_of_filter.
Qed.

Section Specification.
Context {js : JsRuntime} {R : Type} (env : Env R).

(** C1, as amended.  After a run of [sync], from any world: every record
    whose submission received a success (2xx) response and whose file is not
    held is gone from the pending storage.  A record whose submission
    received a success response and whose file is held is still there: the
    run tried to delete it and failed.  Every record whose submission
    received anything else, and every record that was read but never
    submitted (its file could not be read or parsed), is still in the
    pending storage too.  A record that is still there is the very entry it
    was before the run. *)
Theorem sync_deletes_accepted_and_keeps_failed (w : World R) :
  let run := sync_action env w in
  let after := pending (disk (world_after run)) in
  (∀ file out,
      (file, out) ∈ submissions (trace run) → success out = true →
      held (disk w) (LearningFile file) = false →
      after !! file = None)
  ∧ (∀ file out,
      (file, out) ∈ submissions (trace run) → success out = true →
      held (disk w) (LearningFile file) = true →
      file ∈ record_unlinks (trace run)
      ∧ ∃ entry, pending (disk w) !! file = Some entry ∧ after !! file = Some entry)
  ∧ (∀ file out,
      (file, out) ∈ submissions (trace run) → success out = false →
      ∃ entry, pending (disk w) !! file = Some entry ∧ after !! file = Some entry)
  ∧ (∀ file,
      file ∈ record_reads (trace run) → file ∉ (submissions (trace run)).*1 →
      ∃ entry, pending (disk w) !! file = Some entry ∧ after !! file = Some entry).
Proof.
  intros run after.
  destruct (sync_action_guarantees env w)
    as (_ & _ & Hunl & Hreads & Hacc & Hsubm & Hlook & _ & _ & _).
  fold run in Hunl, Hreads, Hacc, Hsubm, Hlook. fold after in Hlook.
  assert (Hin : ∀ file, file ∈ record_reads (trace run) → file ∈ enumerated (disk w)).
  { intros file Hfile. destruct Hreads as [Hnil | Heq]; [| by rewrite <- Heq].
    rewrite Hnil in Hfile. by apply not_elem_of_nil in Hfile. }
  assert (Hdup : NoDup (submissions (trace run)).*1).
  { eapply sublist_NoDup; [| exact Hsubm].
    destruct Hreads as [-> | ->]; [constructor | apply enumerated_NoDup]. }
  assert (Hkept : ∀ file,
    file ∈ record_reads (trace run) → file ∉ deleted_records (disk w) (trace run) →
    ∃ entry, pending (disk w) !! file = Some entry ∧ after !! file = Some entry).
  { intros file Hread Hnot.
    destruct (enumerated_present _ _ (Hin _ Hread)) as [entry Hentry].
    exists entry. split; [done |]. by rewrite Hlook, decide_False. }
  assert (Hread : ∀ file out,
    (file, out) ∈ submissions (trace run) → file ∈ record_reads (trace run)).
  { intros file out Hsub. apply (sublist_elem _ _ _ Hsubm).
    by apply (list_elem_of_fmap_2 fst _ (file, out)). }
  split_and!.
  - intros file out Hsub Hok Hfree. rewrite Hlook.
    rewrite decide_True; [done |].
    apply deleted_records_elem. split; [| done]. apply accepted_records_elem. eauto.
  - intros file out Hsub Hok Hheld. split.
    + rewrite Hunl. apply accepted_records_elem. eauto.
    + apply Hkept; [by eapply Hread |].
      intros [_ Hfree]%deleted_records_elem. congruence.
  - intros file out Hsub Hok. apply Hkept; [by eapply Hread |].
    intros [(out' & Hsub' & Hok')%accepted_records_elem _]%deleted_records_elem.
    rewrite (NoDup_fst_agree _ _ _ _ Hdup Hsub Hsub') in Hok. congruence.
  - intros file Hfile Hnot. apply Hkept; [done |].
    intros [(out & Hsub & _)%accepted_records_elem _]%deleted_records_elem.
    apply Hnot. by apply (list_elem_of_fmap_2 fst _ (file, out)).
Qed.

(** C10. A run of [sync], from any world, reads, submits and deletes only
    files of the pending storage whose names end in ".json"; no event of the
    run touches another file of the directory, no submission is made for it,
    and it is in the directory after the run as it was before. *)
Theorem sync_touches_json_files_only (w : World R) :
  let run := sync_action env w in
  (∀ file,
      file ∈ record_reads (trace run) ∨ file ∈ record_unlinks (trace run)
      ∨ file ∈ (submissions (trace run)).*1 →
      endsWith file ".json" = true)
  ∧ (∀ file,
      endsWith file ".json" = false →
      ¬ Exists (touches file) (trace run)
      ∧ (file ∉ (submissions (trace run)).*1)
      ∧ pending (disk (world_after run)) !! file = pending (disk w) !! file).
Proof.
  intros run.
  destruct (sync_action_guarantees env w)
    as (_ & _ & Hunl & Hreads & Hacc & Hsubm & Hlook & _ & _ & Htouch).
  fold run in Hunl, Hreads, Hacc, Hsubm, Hlook, Htouch.
  assert (Hjson : ∀ file, file ∈ record_reads (trace run) → endsWith file ".json" = true).
  { intros file Hfile. destruct Hreads as [Hnil | Heq].
    - rewrite Hnil in Hfile. by apply not_elem_of_nil in Hfile.
    - rewrite Heq in Hfile. by apply enumerated_json in Hfile. }
  assert (Hall : ∀ file,
    file ∈ record_reads (trace run) ∨ file ∈ record_unlinks (trace run)
    ∨ file ∈ (submissions (trace run)).*1 → endsWith file ".json" = true).
  { intros file [Hfile | [Hfile | Hfile]]; apply Hjson.
    - done.
    - rewrite Hunl in Hfile. by apply (sublist_elem _ _ _ Hacc).
    - by apply (sublist_elem _ _ _ Hsubm). }
  split; [exact Hall |].
  intros file Hnot. split_and!.
  - intros Hex. apply Htouch in Hex. rewrite Hjson in Hnot by done. discriminate.
  - intros Hin. rewrite Hall in Hnot by auto. discriminate.
  - rewrite Hlook, decide_False; [done |].
    intros [Hin _]%deleted_records_elem. apply (sublist_elem _ _ _ Hacc) in Hin.
    rewrite Hjson in Hnot by done. discriminate.
Qed.

Lemma sync_body_run (w : World R) :
  sync_body env w =
    match result (load_config w) with
    | Thrown _ =>
        (Returned tt, w,
         [EvReadFile ConfigFile;
          EvConsole ConsoleError red "❌ No config found. Did you run `arsenal init`?"])
    | Returned config =>
        match validateConfig env config w with
        | (Thrown message, w1, t1) =>
            (Returned tt, w1,
             EvReadFile ConfigFile :: t1 ++ [EvConsole ConsoleError red ("❌ " +:+ message)])
        | (Returned _, w1, t1) =>
            match sync_validated env config w1 with
            | (r, w2, t2) => (r, w2, EvReadFile ConfigFile :: t1 ++ t2)
            end
        end
    end.
Proof.
  unfold sync_body, bind, attempt.
  rewrite load_config_run. unfold result. cbn [fst].
  destruct (match disk_readFile ConfigFile (disk w) with
            | Returned content => JSON_parse_Config content
            | Thrown e => Thrown e
            end) as [config | e]; [| reflexivity].
  destruct (validateConfig env config w) as [[[[] | m] w1] t1]; [| reflexivity].
  destruct (sync_validated env config w1) as [[r w2] t2]; reflexivity.
Qed.

(** Once the configuration is accepted and the storage can be enumerated,
    nothing is thrown any more. *)
Lemma sync_validated_returns config (w : World R) :
  storage_enumerable (disk w) →
  result (sync_validated env config w) = Returned tt.
Proof.
  intros Hdir. rewrite sync_validated_run.
  destruct (disk_learnings (disk w)) as [| | es] eqn:Hd; [done | by destruct Hdir |].
  cbv zeta. destruct (length (json_files (map_to_list es).*1) =? 0); [done |].
  destruct (sync_files_returns env config (json_files (map_to_list es).*1) (0, 0) w)
    as (counts & w' & t & ->). done.
Qed.


(** A run that reaches the loop prints one line for each enumerated record
    and ends with the summary of its two counters: the records it deleted
    and the others.  A run that stops before the loop prints no such line. *)
Lemma sync_action_reports (w : World R) :
  let t := trace (sync_action env w) in
  let s := length (deleted_records (disk w) t) in
  let e := length (enumerated (disk w)) - s in
  (submissions t = [] ∧ verdicts t = [])
  ∨ ∃ before,
      t = before ++ report_lines s e
      ∧ verdicts t = verdicts before ++ report_lines s e
      ∧ Forall2 record_line (enumerated (disk w)) (verdicts before).
Proof.
  cbv zeta.
  destruct (sync_action_outcome env w)
    as [(w' & t' & -> & _ & Hfree & Hquiet)
       | (config & es & r & w2 & prelude & tl & s' & e' & _ & Hd & Hfree & Hloop & ->
          & Hquiet)].
  - left. split; [by apply record_free_no_submissions | done].
  - right.
    destruct (sync_guarantees_looped env config w (mkWorld (disk w) r) w2 es prelude tl s' e')
      as (_ & _ & _ & Hacc & _ & Hs & He & Hv & Hlines); [done | done | done | done |].
    exists (prelude ++ tl). unfold trace. cbn [snd].
    unfold deleted_records. rewrite Hacc. fold (deleted_records (disk w) tl).
    subst s' e'. rewrite Hv, verdicts_app, Hquiet. cbn [app].
    split_and!; [by rewrite <- app_assoc | done | done].
Qed.

(** C2, as amended.  In a run of [sync] over [N] enumerated records, each of
    which received a response from the remote service, [k] of them a non-2xx
    one, and with [j] of the accepted records in files that are held: the
    run prints one line for each record and then the summary lines for
    [N - k - j] successes and [k + j] failures (a line is printed for a
    counter that is not zero), and no other line in green or red on
    [console.log]; it tries to delete [N - k] files, deletes [N - k - j] of
    them, and the pending storage shrinks by exactly these [N - k - j]
    entries. *)
Theorem sync_reports_and_removes (w : World R) N k j :
  let run := sync_action env w in
  let after := pending (disk (world_after run)) in
  N = length (enumerated (disk w)) →
  k = length (refused_records (trace run)) →
  length (accepted_records (trace run)) + k = N →
  j = length (stuck_records (disk w) (trace run)) →
  (∃ lines,
      verdicts (trace run) = lines ++ report_lines (N - k - j) (k + j)
      ∧ Forall2 record_line (enumerated (disk w)) lines)
  ∧ (∃ before, trace run = before ++ report_lines (N - k - j) (k + j))
  ∧ length (record_unlinks (trace run)) = N - k
  ∧ length (deleted_records (disk w) (trace run)) = N - k - j
  ∧ (∀ file,
       after !! file =
         if decide (file ∈ deleted_records (disk w) (trace run)) then None
         else pending (disk w) !! file)
  ∧ size after + (N - k - j) = size (pending (disk w))
  ∧ after ⊆ pending (disk w).
Proof.
  intros run after HN Hk Hall Hj.
  destruct (sync_action_guarantees env w) as (_ & _ & Hunl & _ & _ & _ & Hlook & Hsize & _).
  fold run in Hunl, Hlook, Hsize. fold after in Hlook, Hsize.
  pose proof (deleted_or_stuck (disk w) (trace run)) as Hsum.
  assert (Hacc : length (accepted_records (trace run)) = N - k) by lia.
  assert (Hdel : length (deleted_records (disk w) (trace run)) = N - k - j) by lia.
  assert (Hrest : length (enumerated (disk w)) - (N - k - j) = k + j) by lia.
  assert (Hsubset : after ⊆ pending (disk w)).
  { apply map_subseteq_spec. intros file entry. rewrite Hlook. by case_decide. }
  assert (Hunl' : length (record_unlinks (trace run)) = N - k) by (by rewrite Hunl).
  assert (Hsize' : size after + (N - k - j) = size (pending (disk w)))
    by (by rewrite <- Hdel).
  split_and!; try done.
  - destruct (sync_action_reports w) as [[Hnone Hquiet] | (before & _ & Hv & Hlines)];
      fold run in Hnone, Hquiet || fold run in Hv, Hlines.
    + assert (HN0 : N = 0).
      { unfold accepted_records, refused_records in Hacc, Hk. rewrite Hnone in Hacc, Hk.
        cbn in Hacc, Hk. lia. }
      assert (Hzero : N - k - j = 0 ∧ k + j = 0) by lia.
      destruct Hzero as [-> ->].
      exists []. rewrite Hquiet. split; [done |].
      rewrite HN0 in HN. symmetry in HN. apply nil_length_inv in HN. rewrite HN. constructor.
    + rewrite Hdel, Hrest in Hv. eauto.
  - destruct (sync_action_reports w) as [[Hnone _] | (before & Hbefore & _)];
      fold run in Hnone || fold run in Hbefore.
    + assert (HN0 : N = 0).
      { unfold accepted_records, refused_records in Hacc, Hk. rewrite Hnone in Hacc, Hk.
        cbn in Hacc, Hk. lia. }
      assert (Hzero : N - k - j = 0 ∧ k + j = 0) by lia.
      destruct Hzero as [-> ->].
      exists (trace run). cbn. by rewrite app_nil_r.
    + rewrite Hdel, Hrest in Hbefore. eauto.
Qed.

(** C6. [validateConfig] is [validate] of the specification: it asks the
    remote service once, with the stored key, and nothing else; it throws
    the error of a mismatch when the owner the service names differs from the
    stored pair in either field, the error that wraps the underlying failure
    when [validateApiKey] fails, and returns otherwise. *)
Theorem validateConfig_refines_validate config (w : World R) :
  validateConfig env config w =
    let reply := serve env (remote w) (test_api_key_request config) in
    (match validate config reply.1 with
     | None => Returned tt
     | Some err => Thrown (validate_message err)
     end,
     mkWorld (disk w) reply.2,
     [EvFetch (test_api_key_request config) reply.1]).
Proof.
  rewrite validateConfig_run. cbv zeta.
  destruct (serve env (remote w) (test_api_key_request config)) as [[e | res] r];
    [reflexivity |].
  cbn [fst snd]. unfold validate, validateApiKey, mismatch.
  destruct (ok res); [| reflexivity].
  destruct (text res) as [s | e]; [| reflexivity].
  destruct (json_TestApiKeyResponse s) as [data | e]; [| reflexivity].
  repeat case_bool_decide; cbn; try reflexivity; tauto.
Qed.

(** C3. When the remote service names an owner of the stored key that differs
    from the stored pair in the user or in the project, [validateConfig]
    throws the mismatch error, and a run of [sync] stops on it: it reads the
    configuration, asks for the validation, prints the error, and neither
    submits a record nor deletes a file. *)
Theorem mismatch_stops_sync (w : World R) content config res r s data :
  disk_config (disk w) = Some content →
  JSON_parse_Config content = Returned config →
  serve env (remote w) (test_api_key_request config) = (Responded res, r) →
  ok res = true →
  text res = Returned s →
  json_TestApiKeyResponse s = Returned data →
  differs (TestApiKeyResponse.user data) config →
  let failure := validate_message ConfigMismatch in
  let run := sync_action env w in
  validateConfig env config w =
    (Thrown failure, mkWorld (disk w) r,
     [EvFetch (test_api_key_request config) (Responded res)])
  ∧ run =
      (Returned tt, mkWorld (disk w) r,
       [EvReadFile ConfigFile;
        EvFetch (test_api_key_request config) (Responded res);
        EvConsole ConsoleError red ("❌ " +:+ failure)])
  ∧ submission_calls (trace run) = []
  ∧ record_unlinks (trace run) = []
  ∧ disk (world_after run) = disk w.
Proof.
  intros Hfile Hparse Hserve Hok Htext Hjson Hdiff failure run.
  assert (Hv : validateConfig env config w =
                 (Thrown failure, mkWorld (disk w) r,
                  [EvFetch (test_api_key_request config) (Responded res)])).
  { rewrite validateConfig_run. cbv zeta. rewrite Hserve, Hok, Htext, Hjson.
    assert (Hmis : mismatch data config = true); [| by rewrite Hmis].
    unfold mismatch. destruct Hdiff as [Hu | Hp].
    - by rewrite (bool_decide_eq_false_2 _ Hu).
    - rewrite (bool_decide_eq_false_2 _ Hp). apply orb_true_r. }
  assert (Hrun : run =
                   (Returned tt, mkWorld (disk w) r,
                    [EvReadFile ConfigFile;
                     EvFetch (test_api_key_request config) (Responded res);
                     EvConsole ConsoleError red ("❌ " +:+ failure)])).
  { unfold run. rewrite sync_action_run, load_config_run. unfold result. cbn [fst].
    cbn [disk_readFile]. by rewrite Hfile, Hparse, Hv. }
  split_and!; [done | done | by rewrite Hrun .. ].
Qed.

(** C9. No command lets an error out.  Each of [init], [sync], [link] and
    [unlink] is its body inside a [try] whose [catch] prints one line and
    returns; such a handler returns normally whatever its body does, so
    whatever the disk, the remote service, the prompt and the child process
    do: when the body returns, so does the command, and when the body throws,
    the error is caught at the top level and printed as the last line of the
    run. *)
Theorem commands_catch_every_error (c : Command) :
  action env c = try_catch (command_body env c) (top_level_catch c)
  ∧ (∀ (body : M R unit) (w : World R),
        match body w with
        | (Returned _, w', t) =>
            try_catch body (top_level_catch c) w = (Returned tt, w', t)
        | (Thrown message, w', t) =>
            try_catch body (top_level_catch c) w
              = (Returned tt, w', t ++ [failure_line c message])
        end)
  ∧ (∀ w : World R, result (action env c w) = Returned tt).
Proof.
  assert (Haction : action env c = try_catch (command_body env c) (top_level_catch c))
    by (by destruct c).
  assert (Hcatch : ∀ (body : M R unit) (w : World R),
    match body w with
    | (Returned _, w', t) =>
        try_catch body (top_level_catch c) w = (Returned tt, w', t)
    | (Thrown message, w', t) =>
        try_catch body (top_level_catch c) w
          = (Returned tt, w', t ++ [failure_line c message])
    end).
  { intros body w. unfold try_catch, top_level_catch.
    by destruct (body w) as [[[[] | m] w'] t]. }
  split_and!; [exact Haction | exact Hcatch |].
  intros w. rewrite Haction. specialize (Hcatch (command_body env c) w).
  destruct (command_body env c w) as [[[[] | m] w'] t]; by rewrite Hcatch.
Qed.

Lemma console_lines_elem ev t l :
  ev ∈ t → console_line ev = Some l → l ∈ console_lines t.
Proof. intros Hin Hline. apply list_elem_of_omap. eauto. Qed.

(** With an accepted configuration and no pending record, the run is the
    nothing-to-sync run. *)
Lemma sync_action_nothing_pending (w : World R) config :
  no_pending_record (disk w) →
  config_accepted env w config →
  reports_nothing_to_sync (trace (sync_action env w))
  ∧ ∃ out,
      trace (sync_action env w) =
        EvReadFile ConfigFile :: EvFetch (test_api_key_request config) out
          :: header_lines config
          ++ match disk_learnings (disk w) with
             | Missing =>
                 [EvAccess LearningsDir;
                  EvConsole ConsoleWarn yellow "⚠️ No learnings directory found."]
             | _ =>
                 [EvAccess LearningsDir; EvReaddir LearningsDir;
                  EvConsole ConsoleLog blue "📭 No learnings to sync."]
             end.
Proof.
  intros Hnone Haccepted.
  destruct (sync_action_accepted env w config Haccepted) as (r & out & _ & Hrun).
  rewrite sync_validated_run in Hrun. cbn [disk] in Hrun.
  assert (Hshape : ∃ out,
    trace (sync_action env w) =
      EvReadFile ConfigFile :: EvFetch (test_api_key_request config) out
        :: header_lines config
        ++ match disk_learnings (disk w) with
           | Missing =>
               [EvAccess LearningsDir;
                EvConsole ConsoleWarn yellow "⚠️ No learnings directory found."]
           | _ =>
               [EvAccess LearningsDir; EvReaddir LearningsDir;
                EvConsole ConsoleLog blue "📭 No learnings to sync."]
           end).
  { exists out. destruct Hnone as [Hd | [[es Hd] Henum]]; rewrite Hd in Hrun |- *.
    - by rewrite Hrun.
    - cbv zeta in Hrun. rewrite <- (enumerated_dir _ _ Hd), Henum in Hrun.
      cbn [length Nat.eqb] in Hrun. by rewrite Hrun. }
  split; [| exact Hshape].
  destruct Hshape as [out' ->]. unfold reports_nothing_to_sync.
  destruct (disk_learnings (disk w)); [left | right | right];
    (eapply console_lines_elem;
     [ do 2 apply list_elem_of_further; apply elem_of_app; right;
       first [ do 2 apply list_elem_of_further; apply list_elem_of_here
             | apply list_elem_of_further, list_elem_of_here ]
     | reflexivity ]).
Qed.


End Specification.

(** ** Running [sync] twice *)

Lemma disk_readFile_remove_record file g d :
  g ≠ file →
  disk_readFile (LearningFile g) (remove_record file d) = disk_readFile (LearningFile g) d.
Proof.
  intros Hne. unfold remove_record. cbn [disk_unlink].
  destruct (disk_learnings d) as [| | es] eqn:Hd; try done.
  destruct (es !! file) as [[c |] |] eqn:Hes; try done.
  destruct (held d (LearningFile file)); [done |].
  destruct d as [[| | a] hooks h]; try done.
  cbn in *. rewrite Hd. by rewrite lookup_delete_ne.
Qed.

Lemma remove_record_config file d : disk_config (remove_record file d) = disk_config d.
Proof.
  unfold remove_record. cbn [disk_unlink].
  destruct (disk_learnings d) as [| | es] eqn:Hd; try done.
  destruct (es !! file) as [[c |] |]; try done.
  destruct (held d (LearningFile file)); [done |].
  by destruct d as [[| | a] hooks h].
Qed.

Lemma remove_records_config files d : disk_config (remove_records files d) = disk_config d.
Proof.
  revert d. induction files as [| file files IH]; intros d; [done |].
  cbn. fold (remove_records files (remove_record file d)).
  by rewrite IH, remove_record_config.
Qed.

Lemma remove_record_kind file d :
  same_kind (disk_learnings (remove_record file d)) (disk_learnings d).
Proof.
  unfold remove_record. cbn [disk_unlink].
  destruct (disk_learnings d) as [| | es] eqn:Hd; try (by rewrite Hd).
  destruct (es !! file) as [[c |] |]; try (by rewrite Hd).
  destruct (held d (LearningFile file)); [by rewrite Hd |].
  by destruct d as [[| | a] hooks h].
Qed.

Lemma remove_records_kind files d :
  same_kind (disk_learnings (remove_records files d)) (disk_learnings d).
Proof.
  revert d. induction files as [| file files IH]; intros d.
  { cbn. by destruct (disk_learnings d). }
  cbn. fold (remove_records files (remove_record file d)).
  pose proof (IH (remove_record file d)) as H1.
  pose proof (remove_record_kind file d) as H2.
  destruct (disk_learnings (remove_records files (remove_record file d))),
    (disk_learnings (remove_record file d)), (disk_learnings d); done.
Qed.

Section Twice.
Context {js : JsRuntime} {R : Type} (env : Env R).
Hypothesis Hsame : responds_identically env.

(** One turn of the loop makes the planned submission, and nothing else
    reaches the list of submissions. *)
Lemma sync_file_planned config s e file (w : World R) rest :
  ¬ starts_with_fetch rest →
  ∃ counts w1 t1,
    sync_file env config (s, e) file w = (Returned counts, w1, t1)
    ∧ submissions (t1 ++ rest) =
        option_list (planned env config (remote w) (disk w) file) ++ submissions rest
    ∧ (disk w1 = disk w ∨ disk w1 = remove_record file (disk w)).
Proof.
  intros Hrest. rewrite sync_file_run. cbv zeta. unfold planned.
  assert (Hcons : ∀ colour line,
    submissions (EvConsole ConsoleLog colour line :: rest) = submissions rest) by done.
  destruct (disk_readFile (LearningFile file) (disk w)) as [content | m] eqn:Hread.
  2:{ eexists _, _, _. split; [done |]. cbn. by split; [| left]. }
  destruct (JSON_parse_Learning content) as [learning | m].
  2:{ eexists _, _, _. split; [done |]. cbn. by split; [| left]. }
  rewrite sendLearning_run. cbv zeta.
  destruct (serve env (remote w) (submit_request learning config)) as [[m | res] r].
  { eexists _, _, _. split; [done |]. cbn. by split; [| left]. }
  destruct (ok res).
  2:{ eexists _, _, _. split; [done |]. cbn. by split; [| left]. }
  unfold remove_record.
  destruct (disk_unlink (LearningFile file) (disk w)) as [d | m];
    eexists _, _, _; (split; [done |]); cbn; (split; [done |]); [by right | by left].
Qed.

Lemma planned_state config r r' d file :
  planned env config r d file = planned env config r' d file.
Proof.
  unfold planned.
  destruct (disk_readFile (LearningFile file) d) as [content |]; [| done].
  destruct (JSON_parse_Learning content) as [learning |]; [| done].
  by rewrite (Hsame r r').
Qed.

(** The submissions of the loop, in closed form. *)
Lemma sync_files_submissions config files :
  NoDup files →
  ∀ counts (w : World R),
    submissions (trace (sync_files env config files counts w)) =
      omap (planned env config (remote w) (disk w)) files.
Proof.
  induction 1 as [| file files Hnotin Hdup IH]; intros [s e] w; [done |].
  cbn [sync_files]. unfold bind.
  assert (Hrest : ∀ counts' w1,
    ¬ starts_with_fetch (trace (sync_files env config files counts' w1))).
  { intros [s' e'] w1.
    by destruct (sync_files_spec env config files s' e' w1)
      as (w' & tr & -> & _ & _ & _ & _ & _ & _ & _ & _ & Hhead & _). }
  destruct (sync_file env config (s, e) file w) as [[c w1] t1] eqn:Hturn.
  destruct c as [counts' | m].
  2:{ destruct (sync_file_planned config s e file w [])
        as (? & ? & ? & Hret & _); [cbn; tauto | congruence]. }
  destruct (sync_file_planned config s e file w
              (trace (sync_files env config files counts' w1)) (Hrest _ _))
    as (c2 & w2 & t2 & Hret & Hsub & Hdisk).
  rewrite Hturn in Hret. injection Hret as <- <- <-.
  destruct (sync_files env config files counts' w1) as [[c3 w3] t3] eqn:Hloop.
  unfold trace in *. cbn [snd] in *.
  rewrite Hsub. specialize (IH counts' w1). rewrite Hloop in IH. cbn [snd] in IH.
  rewrite IH. cbn [omap list_omap].
  assert (Hext : omap (planned env config (remote w1) (disk w1)) files
                 = omap (planned env config (remote w) (disk w)) files).
  { apply list_omap_ext, Forall2_same_length_lookup_2; [done |].
    intros i g g' Hg Hg'. rewrite Hg in Hg'. injection Hg' as <-.
    rewrite (planned_state config (remote w1) (remote w)).
    unfold planned. destruct Hdisk as [-> | ->]; [done |].
    rewrite disk_readFile_remove_record; [done |].
    intros ->. apply Hnotin. by eapply list_elem_of_lookup_2. }
  rewrite Hext.
  by destruct (planned env config (remote w) (disk w) file).
Qed.

Lemma planned_name config r d file p :
  planned env config r d file = Some p → p.1 = file.
Proof.
  unfold planned.
  destruct (disk_readFile (LearningFile file) d) as [content |]; [| done].
  destruct (JSON_parse_Learning content); [| done]. by intros [= <-].
Qed.

(** The submissions of a run that reaches the enumeration. *)
Lemma sync_action_submissions (w : World R) config es :
  config_accepted env w config →
  disk_learnings (disk w) = Dir es →
  submissions (trace (sync_action env w)) =
    omap (planned env config (remote w) (disk w)) (enumerated (disk w)).
Proof.
  intros Haccepted Hd.
  destruct (sync_action_accepted env w config Haccepted) as (r & out & _ & Hrun).
  rewrite sync_validated_run in Hrun. cbn [disk] in Hrun. rewrite Hd in Hrun.
  cbv zeta in Hrun. rewrite <- (enumerated_dir _ _ Hd) in Hrun.
  destruct (length (enumerated (disk w)) =? 0) eqn:Hlen.
  { apply Nat.eqb_eq in Hlen. destruct (enumerated (disk w)); [| done].
    rewrite Hrun. unfold trace. cbn [snd omap list_omap].
    apply record_free_no_submissions.
    solve_record_free. }
  pose proof (sync_files_submissions config (enumerated (disk w)) (enumerated_NoDup _)
                (0, 0) (mkWorld (disk w) r)) as Hsub.
  destruct (sync_files env config (enumerated (disk w)) (0, 0) (mkWorld (disk w) r))
    as [[[[s e] | e] w'] tl] eqn:Hloop.
  2:{ destruct (sync_files_returns env config (enumerated (disk w)) (0, 0)
                  (mkWorld (disk w) r)) as (? & ? & ? & Hret). congruence. }
  cbn [fst snd] in Hrun. unfold trace in Hsub. cbn [snd disk remote] in Hsub.
  set (prelude := [EvReadFile ConfigFile; EvFetch (test_api_key_request config) out]
                    ++ header_lines config
                    ++ [EvAccess LearningsDir; EvReaddir LearningsDir;
                        syncing_line (length (enumerated (disk w)))]).
  assert (Ht : trace (sync_action env w) = prelude ++ tl ++ report_lines s e).
  { rewrite Hrun. unfold trace, prelude. cbn [snd app]. by rewrite <- !app_assoc. }
  assert (Hfree : record_free prelude).
  { unfold prelude.
    solve_record_free. }
  destruct (sync_guarantees_looped env config w (mkWorld (disk w) r) w' es prelude tl s e)
    as (_ & _ & Hsubs & _); [done | done | done | done |].
  rewrite Ht, Hsubs, Hsub. apply list_omap_ext, Forall2_same_length_lookup_2; [done |].
  intros i g g' Hg Hg'. rewrite Hg in Hg'. injection Hg' as <-. apply planned_state.
Qed.

(** Whether a configuration is accepted depends on the configuration file
    and on what the remote service answers. *)
Lemma config_accepted_transfer (w w' : World R) config :
  disk_config (disk w') = disk_config (disk w) →
  config_accepted env w config → config_accepted env w' config.
Proof.
  intros Hcfg [Hload Hvalid]. split.
  - rewrite load_config_run in Hload |- *. unfold result in *. cbn [fst disk_readFile] in *.
    by rewrite Hcfg.
  - rewrite validateConfig_run in Hvalid |- *. cbv zeta in *.
    pose proof (Hsame (remote w') (remote w) (test_api_key_request config)) as Hreply.
    destruct (serve env (remote w) (test_api_key_request config)) as [out r],
      (serve env (remote w') (test_api_key_request config)) as [out' r'].
    cbn in Hreply. subst out'. by destruct out.
Qed.

Lemma disk_readFile_learning d d' file :
  same_kind (disk_learnings d) (disk_learnings d') →
  pending d !! file = pending d' !! file →
  disk_readFile (LearningFile file) d = disk_readFile (LearningFile file) d'.
Proof.
  unfold pending. cbn [disk_readFile].
  destruct (disk_learnings d), (disk_learnings d'); try done.
  by intros _ ->.
Qed.

Lemma enumerated_elem d file :
  file ∈ enumerated d ↔ endsWith file ".json" = true ∧ is_Some (pending d !! file).
Proof.
  unfold enumerated, json_files. rewrite list_elem_of_filter, list_elem_of_fmap.
  split; intros [Hjson Hin]; (split; [done |]).
  - destruct Hin as ([f entry] & -> & Hin). apply elem_of_map_to_list in Hin. eauto.
  - destruct Hin as [entry Hentry]. exists (file, entry).
    split; [done | by apply elem_of_map_to_list].
Qed.

Lemma remove_records_held files d :
  Forall (λ file, held d (LearningFile file) = true) files → remove_records files d = d.
Proof.
  induction 1 as [| file files Hfile _ IH]; [done |].
  cbn. fold (remove_records files (remove_record file d)).
  by rewrite remove_record_held.
Qed.

(** What the second of two runs submits: the records that the first run
    submitted and left in the storage, each with the outcome it had. *)
Lemma second_run_submissions (w : World R) file out :
  let first := sync_action env w in
  let second := sync_action env (world_after first) in
  (file, out) ∈ submissions (trace second)
  ↔ (file, out) ∈ submissions (trace first)
    ∧ is_Some (pending (disk (world_after first)) !! file).
Proof.
  intros first second. set (w1 := world_after first) in *.
  destruct (sync_action_guarantees env w)
    as (_ & Hdisk1 & _ & _ & _ & _ & Hlook1 & _).
  fold first in Hdisk1, Hlook1. fold w1 in Hdisk1, Hlook1.
  assert (Hcfg : disk_config (disk w1) = disk_config (disk w)).
  { rewrite Hdisk1. apply remove_records_config. }
  assert (Hkind : same_kind (disk_learnings (disk w1)) (disk_learnings (disk w))).
  { rewrite Hdisk1. apply remove_records_kind. }
  assert (Hplan : ∀ config,
    is_Some (pending (disk w1) !! file) →
    planned env config (remote w1) (disk w1) file = planned env config (remote w) (disk w) file).
  { intros config [entry Hentry].
    rewrite (planned_state config (remote w1) (remote w)). unfold planned.
    erewrite (disk_readFile_learning (disk w1) (disk w)); [done | done |].
    rewrite Hlook1 in Hentry |- *. by case_decide. }
  assert (Hleft : is_Some (pending (disk w1) !! file) → is_Some (pending (disk w) !! file)).
  { intros [entry Hentry]. rewrite Hlook1 in Hentry. case_decide; [done | eauto]. }
  split.
  - intros Hsub2.
    destruct (sync_action_outcome env w1)
      as [(w' & t & Hrun & _ & Hfree & _)
         | (config & es1 & _ & _ & _ & _ & _ & _ & Haccepted & Hd1 & _)].
    { unfold second in Hsub2. rewrite Hrun in Hsub2. unfold trace in Hsub2. cbn in Hsub2.
      rewrite record_free_no_submissions in Hsub2 by done.
      by apply not_elem_of_nil in Hsub2. }
    unfold second in Hsub2.
    rewrite (sync_action_submissions w1 config es1 Haccepted Hd1) in Hsub2.
    apply list_elem_of_omap in Hsub2 as (g & Hg & Hplanned).
    pose proof (planned_name _ _ _ _ _ Hplanned) as Hname. cbn in Hname. subst g.
    apply enumerated_elem in Hg as [Hjson Hthere].
    split; [| done].
    assert (Hd : ∃ es, disk_learnings (disk w) = Dir es).
    { rewrite Hd1 in Hkind. destruct (disk_learnings (disk w)); try done. eauto. }
    destruct Hd as [es Hd].
    assert (Haccepted0 : config_accepted env w config)
      by by apply (config_accepted_transfer w1 w).
    unfold first. rewrite (sync_action_submissions w config es Haccepted0 Hd).
    apply list_elem_of_omap. exists file. split.
    + apply enumerated_elem. split; [done | by apply Hleft].
    + by rewrite <- Hplan.
  - intros [Hsub1 Hthere].
    destruct (sync_action_outcome env w)
      as [(w' & t & Hrun & _ & Hfree & _)
         | (config & es & _ & _ & _ & _ & _ & _ & Haccepted & Hd & _)].
    { unfold first in Hsub1. rewrite Hrun in Hsub1. unfold trace in Hsub1. cbn in Hsub1.
      rewrite record_free_no_submissions in Hsub1 by done.
      by apply not_elem_of_nil in Hsub1. }
    unfold first in Hsub1.
    rewrite (sync_action_submissions w config es Haccepted Hd) in Hsub1.
    apply list_elem_of_omap in Hsub1 as (g & Hg & Hplanned).
    pose proof (planned_name _ _ _ _ _ Hplanned) as Hname. cbn in Hname. subst g.
    apply enumerated_elem in Hg as [Hjson _].
    assert (Hd1 : ∃ es1, disk_learnings (disk w1) = Dir es1).
    { rewrite Hd in Hkind. destruct (disk_learnings (disk w1)); try done. eauto. }
    destruct Hd1 as [es1 Hd1].
    assert (Haccepted1 : config_accepted env w1 config)
      by by apply (config_accepted_transfer w w1).
    unfold second. rewrite (sync_action_submissions w1 config es1 Haccepted1 Hd1).
    apply list_elem_of_omap. exists file. split.
    + by apply enumerated_elem.
    + by rewrite Hplan.
Qed.


End Twice.

(** ** [init] *)

Section Init.
Context {js : JsRuntime} {R : Type} (env : Env R).

Lemma generateApiKey_run accessToken projectId (w : World R) :
  generateApiKey env accessToken projectId w =
    let req := generate_key_request accessToken projectId in
    match serve env (remote w) req with
    | (Rejected e, r) => (Thrown e, mkWorld (disk w) r, [EvFetch req (Rejected e)])
    | (Responded res, r) =>
        (if ok res then
           match decoded json_ApiKeyResponse res with
           | Returned data => Returned (ApiKeyResponse.api_key data)
           | Thrown e => Thrown e
           end
         else
           match decoded json_ErrorBody res with
           | Returned error =>
               Thrown (opt_or (ErrorBody.detail error) "Failed to generate API key")
           | Thrown e => Thrown e
           end,
         mkWorld (disk w) r, [EvFetch req (Responded res)])
    end.
Proof.
  unfold generateApiKey, bind, fetch, decoded. cbv zeta.
  fold (generate_key_request accessToken projectId).
  destruct (serve env (remote w) (generate_key_request accessToken projectId))
    as [[e | res] r]; [reflexivity |].
  unfold res_json, lift, throw, ret.
  destruct (ok res); cbn [negb]; destruct (text res) as [s | e]; try reflexivity.
  - destruct (json_ApiKeyResponse s); reflexivity.
  - destruct (json_ErrorBody s); reflexivity.
Qed.

(** [init] in direct style: the steps in order, each with the way it stops
    the command. *)
Lemma init_action_run (w : World R) :
  init_action env w =
    match disk_mkdir ConfigDir (disk w) with
    | Thrown _ =>
        (Returned tt, w,
         [EvMkdir ConfigDir;
          EvConsole ConsoleError red "Failed to create config directory"])
    | Returned d =>
        let stops (r : R) (t : list Event) (last : Event) :=
          (Returned tt, mkWorld d r, EvMkdir ConfigDir :: EvPrompt PromptInit :: t ++ [last]) in
        match prompt_init env with
        | Thrown message => stops (remote w) [] (failure_line init message)
        | Returned answers =>
            let logging_in := EvConsole ConsoleLog blue "🔐 Logging in..." in
            match serve env (remote w) (login_request answers) with
            | (Rejected e, r1) =>
                stops r1 [logging_in; EvFetch (login_request answers) (Rejected e)]
                      (failure_line init e)
            | (Responded loginRes, r1) =>
                let t1 := [logging_in; EvFetch (login_request answers) (Responded loginRes)] in
                match decoded json_LoginResponse loginRes with
                | Thrown e => stops r1 t1 (failure_line init e)
                | Returned loginData =>
                    if negb (ok loginRes) then
                      stops r1 t1
                        (EvConsole ConsoleLog red
                           ("Login failed: " +:+ template_opt (LoginResponse.detail loginData)))
                    else
                      let t2 :=
                        t1 ++ [EvConsole ConsoleLog green "✅ Login successful";
                               EvConsole ConsoleLog blue "🔍 Verifying project ownership..."] in
                      let project := project_request answers loginData in
                      match serve env r1 project with
                      | (Rejected e, r2) =>
                          stops r2 (t2 ++ [EvFetch project (Rejected e)]) (failure_line init e)
                      | (Responded projectRes, r2) =>
                          let t3 := t2 ++ [EvFetch project (Responded projectRes)] in
                          if negb (ok projectRes) then
                            match text projectRes with
                            | Thrown e => stops r2 t3 (failure_line init e)
                            | Returned errorText =>
                                stops r2
                                  (t3 ++ [EvConsole ConsoleLog red
                                            ("❌ Project " +:+ InitAnswers.projectId answers
                                               +:+ " not found or not owned by you.")])
                                  (EvConsole ConsoleLog gray ("Error details: " +:+ errorText))
                            end
                          else
                            let t4 := t3 ++ [EvConsole ConsoleLog blue "🔑 Generating API key..."] in
                            match generateApiKey env (LoginResponse.access_token loginData)
                                    (parseInt (InitAnswers.projectId answers))
                                    (mkWorld d r2) with
                            | (Thrown message, w3, t) =>
                                stops (remote w3) (t4 ++ t)
                                  (EvConsole ConsoleLog red
                                     ("❌ Failed to generate API key: " +:+ message))
                            | (Returned key, w3, t) =>
                                let data :=
                                  JSON_stringify_Config (initial_config answers loginData key) in
                                (Returned tt,
                                 mkWorld (set_config (Some data) d) (remote w3),
                                 EvMkdir ConfigDir :: EvPrompt PromptInit
                                   :: t4 ++ t
                                   ++ [EvConsole ConsoleLog green "✅ Generated API key";
                                       EvWriteFile ConfigFile data None;
                                       EvConsole ConsoleLog green
                                         "✅ Project initialized with API key"])
                            end
                      end
                end
            end
        end
    end.
Proof.
  unfold init_action, init_body, try_catch, bind, attempt, mkdir, change_disk.
  destruct (disk_mkdir ConfigDir (disk w)) as [d | e] eqn:Hmk; [| reflexivity].
  assert (Hdir : ∃ a, dot_arsenal d = ArsDir a).
  { unfold disk_mkdir in Hmk. destruct (dot_arsenal (disk w)) eqn:Hd; try discriminate.
    - injection Hmk as <-. cbn. eauto.
    - injection Hmk as <-. rewrite Hd. eauto. }
  destruct Hdir as [a Ha].
  cbv zeta. unfold prompt, console. cbn [app].
  destruct (prompt_init env) as [answers | m]; [| reflexivity].
  unfold fetch. cbn [remote disk]. fold (login_request answers).
  destruct (serve env (remote w) (login_request answers)) as [[e | loginRes] r1];
    [reflexivity |].
  unfold res_json, decoded, lift, throw.
  destruct (text loginRes) as [s | e]; [| reflexivity].
  destruct (json_LoginResponse s) as [loginData | e]; [| reflexivity].
  destruct (ok loginRes); cbn [negb]; [| reflexivity].
  cbn [remote disk]. fold (project_request answers loginData).
  destruct (serve env r1 (project_request answers loginData)) as [[e | projectRes] r2];
    [reflexivity |].
  destruct (ok projectRes); cbn [negb].
  2:{ unfold res_text, lift. destruct (text projectRes); reflexivity. }
  rewrite generateApiKey_run. cbv zeta. cbn [remote disk].
  destruct (serve env r2 _) as [[e | keyRes] r3]; [reflexivity |].
  destruct (if ok keyRes then _ else _) as [key | m]; [| reflexivity].
  unfold ret, writeFile, change_disk. cbn [disk remote disk_writeFile].
  rewrite Ha. fold (initial_config answers loginData key). reflexivity.
Qed.

Lemma disk_mkdir_returns d d' :
  disk_mkdir ConfigDir d = Returned d' →
  d' = with_config_dir d ∧ dot_arsenal d ≠ ArsNotADir ∧ ∃ a, dot_arsenal d' = ArsDir a.
Proof.
  intros Hmk. unfold with_config_dir. rewrite Hmk. split; [done |].
  unfold disk_mkdir in Hmk. destruct (dot_arsenal d) eqn:Hd; try discriminate.
  - injection Hmk as <-. cbn. eauto.
  - injection Hmk as <-. rewrite Hd. eauto.
Qed.

Lemma disk_mkdir_throws d e :
  disk_mkdir ConfigDir d = Thrown e → dot_arsenal d = ArsNotADir ∧ with_config_dir d = d.
Proof.
  intros Hmk. unfold with_config_dir. rewrite Hmk. split; [| done].
  unfold disk_mkdir in Hmk. by destruct (dot_arsenal d).
Qed.

Lemma disk_mkdir_possible d :
  dot_arsenal d ≠ ArsNotADir → disk_mkdir ConfigDir d = Returned (with_config_dir d).
Proof.
  intros Hd. unfold with_config_dir.
  destruct (disk_mkdir ConfigDir d) as [d' | e] eqn:Hmk; [done |].
  by apply disk_mkdir_throws in Hmk as [? _].
Qed.

Lemma with_config_dir_learnings d : disk_learnings (with_config_dir d) = disk_learnings d.
Proof.
  unfold with_config_dir, disk_mkdir, disk_learnings.
  destruct (dot_arsenal d) eqn:Hd; cbn; by rewrite ?Hd.
Qed.

Lemma with_config_dir_hooks d : git_hooks (with_config_dir d) = git_hooks d.
Proof. unfold with_config_dir, disk_mkdir. by destruct (dot_arsenal d). Qed.

Lemma set_config_config c d a : dot_arsenal d = ArsDir a → disk_config (set_config c d) = c.
Proof. intros Hd. unfold set_config, disk_config. by rewrite Hd. Qed.

Lemma set_config_learnings c d : disk_learnings (set_config c d) = disk_learnings d.
Proof. by destruct d as [[| | a] hooks h]. Qed.

Lemma set_config_hooks c d : git_hooks (set_config c d) = git_hooks d.
Proof. by destruct d as [[| | a] hooks h]. Qed.

Lemma writes_app t1 t2 : writes (t1 ++ t2) = writes t1 ++ writes t2.
Proof. apply omap_app. Qed.

Lemma requests_app t1 t2 : requests (t1 ++ t2) = requests t1 ++ requests t2.
Proof. apply omap_app. Qed.

(** X1. A run of [init], from any world, either writes nothing and leaves the
    disk as it was (but for the directory [.arsenal], made if it was missing),
    or it has made its three requests in order (login, ownership of the
    project, generation of a key), each answered with a success (2xx)
    response, and has written, once, the configuration that holds the
    project asked for, the user of the login response and the key of the key
    response. *)
Theorem init_writes_the_configuration_only_when_approved (w : World R) :
  let run := init_action env w in
  let after := disk (world_after run) in
  (after = with_config_dir (disk w) ∧ writes (trace run) = [])
  ∨ (∃ answers loginRes loginData projectRes keyRes key,
        prompt_init env = Returned answers
        ∧ decoded json_LoginResponse loginRes = Returned loginData
        ∧ decoded json_ApiKeyResponse keyRes = Returned key
        ∧ requests (trace run) =
            [login_request answers; project_request answers loginData;
             key_request answers loginData]
        ∧ approved (login_request answers) loginRes (trace run)
        ∧ approved (project_request answers loginData) projectRes (trace run)
        ∧ approved (key_request answers loginData) keyRes (trace run)
        ∧ let data :=
            JSON_stringify_Config
              (initial_config answers loginData (ApiKeyResponse.api_key key)) in
          after = set_config (Some data) (with_config_dir (disk w))
          ∧ disk_config after = Some data
          ∧ writes (trace run) = [(ConfigFile, data, None)]).
Proof.
  cbv zeta. rewrite init_action_run.
  destruct (disk_mkdir ConfigDir (disk w)) as [d | e] eqn:Hmk.
  2:{ left. apply disk_mkdir_throws in Hmk as [_ ->]. done. }
  apply disk_mkdir_returns in Hmk as (-> & _ & a & Ha).
  cbv zeta.
  destruct (prompt_init env) as [answers | m]; [| by left].
  destruct (serve env (remote w) (login_request answers)) as [[e | loginRes] r1] eqn:Hlogin;
    [by left |].
  destruct (decoded json_LoginResponse loginRes) as [loginData | e] eqn:HloginData;
    [| by left].
  destruct (ok loginRes) eqn:HloginOk; cbn [negb]; [| by left].
  destruct (serve env r1 (project_request answers loginData)) as [[e | projectRes] r2]
    eqn:Hproject; [by left |].
  destruct (ok projectRes) eqn:HprojectOk; cbn [negb].
  2:{ destruct (text projectRes); by left. }
  rewrite generateApiKey_run. cbv zeta. cbn [remote disk].
  fold (key_request answers loginData).
  destruct (serve env r2 (key_request answers loginData)) as [[e | keyRes] r3] eqn:Hkey;
    [by left |].
  destruct (ok keyRes) eqn:HkeyOk.
  2:{ destruct (decoded json_ErrorBody keyRes); by left. }
  destruct (decoded json_ApiKeyResponse keyRes) as [key |] eqn:HkeyData; [| by left].
  right. exists answers, loginRes, loginData, projectRes, keyRes, key.
  unfold approved, world_after, trace. cbn [fst snd disk].
  split_and!; try done.
  - cbn. set_solver.
  - cbn. set_solver.
  - cbn. set_solver.
  - by rewrite (set_config_config _ _ a).
Qed.

(** X2. When the prompt is answered and the three requests of [init] are
    each answered with a success (2xx) response whose body decodes, [init]
    stores the configuration made of the project asked for, the user of the
    login response and the key of the key response, with no repository in it;
    this is the whole run, in order. *)
Theorem init_stores_the_generated_key (w : World R) answers loginRes r1 loginData
    projectRes r2 keyRes r3 key :
  dot_arsenal (disk w) ≠ ArsNotADir →
  prompt_init env = Returned answers →
  serve env (remote w) (login_request answers) = (Responded loginRes, r1) →
  ok loginRes = true →
  decoded json_LoginResponse loginRes = Returned loginData →
  serve env r1 (project_request answers loginData) = (Responded projectRes, r2) →
  ok projectRes = true →
  serve env r2 (key_request answers loginData) = (Responded keyRes, r3) →
  ok keyRes = true →
  decoded json_ApiKeyResponse keyRes = Returned key →
  let data :=
    JSON_stringify_Config (initial_config answers loginData (ApiKeyResponse.api_key key)) in
  init_action env w =
    (Returned tt,
     mkWorld (set_config (Some data) (with_config_dir (disk w))) r3,
     [EvMkdir ConfigDir;
      EvPrompt PromptInit;
      EvConsole ConsoleLog blue "🔐 Logging in...";
      EvFetch (login_request answers) (Responded loginRes);
      EvConsole ConsoleLog green "✅ Login successful";
      EvConsole ConsoleLog blue "🔍 Verifying project ownership...";
      EvFetch (project_request answers loginData) (Responded projectRes);
      EvConsole ConsoleLog blue "🔑 Generating API key...";
      EvFetch (key_request answers loginData) (Responded keyRes);
      EvConsole ConsoleLog green "✅ Generated API key";
      EvWriteFile ConfigFile data None;
      EvConsole ConsoleLog green "✅ Project initialized with API key"])
  ∧ disk_config (set_config (Some data) (with_config_dir (disk w))) = Some data.
Proof.
  intros Hdir Hprompt Hlogin HloginOk HloginData Hproject HprojectOk Hkey HkeyOk HkeyData.
  cbv zeta. rewrite init_action_run.
  pose proof (disk_mkdir_possible _ Hdir) as Hmk. rewrite Hmk.
  apply disk_mkdir_returns in Hmk as (_ & _ & a & Ha).
  cbv zeta. rewrite Hprompt, Hlogin, HloginData, HloginOk. cbn [negb].
  rewrite Hproject, HprojectOk. cbn [negb].
  rewrite generateApiKey_run. cbv zeta. cbn [remote disk].
  fold (key_request answers loginData). rewrite Hkey, HkeyOk, HkeyData.
  split; [reflexivity |]. by rewrite (set_config_config _ _ a).
Qed.

(** X3. [init] decodes the body of the login response before it looks at its
    status.  When that body is not JSON the run ends with the line of the
    top-level catch, whatever the status: for a refused login too, no `Login
    failed' line is printed, and nothing is written. *)
Theorem init_decodes_the_login_body_first (w : World R) answers loginRes r1 message :
  dot_arsenal (disk w) ≠ ArsNotADir →
  prompt_init env = Returned answers →
  serve env (remote w) (login_request answers) = (Responded loginRes, r1) →
  decoded json_LoginResponse loginRes = Thrown message →
  init_action env w =
    (Returned tt,
     mkWorld (with_config_dir (disk w)) r1,
     [EvMkdir ConfigDir;
      EvPrompt PromptInit;
      EvConsole ConsoleLog blue "🔐 Logging in...";
      EvFetch (login_request answers) (Responded loginRes);
      EvConsole ConsoleError red ("❌ Initialization failed: " +:+ message)]).
Proof.
  intros Hdir Hprompt Hlogin HloginData.
  rewrite init_action_run, (disk_mkdir_possible _ Hdir).
  cbv zeta. by rewrite Hprompt, Hlogin, HloginData.
Qed.

(** X4. A login that the remote service refuses (a response that is not 2xx,
    with a JSON body) stops [init] after that one request: the line printed
    is `Login failed: ' followed by the [detail] of the body, or by
    `undefined' when the body has none; nothing is written. *)
Theorem init_stops_at_a_refused_login (w : World R) answers loginRes r1 loginData :
  dot_arsenal (disk w) ≠ ArsNotADir →
  prompt_init env = Returned answers →
  serve env (remote w) (login_request answers) = (Responded loginRes, r1) →
  decoded json_LoginResponse loginRes = Returned loginData →
  ok loginRes = false →
  init_action env w =
    (Returned tt,
     mkWorld (with_config_dir (disk w)) r1,
     [EvMkdir ConfigDir;
      EvPrompt PromptInit;
      EvConsole ConsoleLog blue "🔐 Logging in...";
      EvFetch (login_request answers) (Responded loginRes);
      EvConsole ConsoleLog red
        ("Login failed: "
           +:+ match LoginResponse.detail loginData with
               | Some detail => detail
               | None => "undefined"
               end)]).
Proof.
  intros Hdir Hprompt Hlogin HloginData HloginOk.
  rewrite init_action_run, (disk_mkdir_possible _ Hdir).
  cbv zeta. by rewrite Hprompt, Hlogin, HloginData, HloginOk.
Qed.

(** X5. When the key request is refused (a response that is not 2xx, with a
    JSON body), [generateApiKey] throws the [detail] of the body, or `Failed
    to generate API key' when the body has no [detail] or an empty one;
    [init] prints that message after `Failed to generate API key: ' and
    writes no configuration. *)
Theorem init_reports_a_refused_key (w : World R) answers loginRes r1 loginData
    projectRes r2 keyRes r3 error :
  dot_arsenal (disk w) ≠ ArsNotADir →
  prompt_init env = Returned answers →
  serve env (remote w) (login_request answers) = (Responded loginRes, r1) →
  ok loginRes = true →
  decoded json_LoginResponse loginRes = Returned loginData →
  serve env r1 (project_request answers loginData) = (Responded projectRes, r2) →
  ok projectRes = true →
  serve env r2 (key_request answers loginData) = (Responded keyRes, r3) →
  ok keyRes = false →
  decoded json_ErrorBody keyRes = Returned error →
  let message :=
    match ErrorBody.detail error with
    | Some detail => if String.eqb detail "" then "Failed to generate API key" else detail
    | None => "Failed to generate API key"
    end in
  let run := init_action env w in
  generateApiKey env (LoginResponse.access_token loginData)
    (parseInt (InitAnswers.projectId answers)) (mkWorld (with_config_dir (disk w)) r2) =
    (Thrown message, mkWorld (with_config_dir (disk w)) r3,
     [EvFetch (key_request answers loginData) (Responded keyRes)])
  ∧ result run = Returned tt
  ∧ world_after run = mkWorld (with_config_dir (disk w)) r3
  ∧ last (trace run) =
      Some (EvConsole ConsoleLog red ("❌ Failed to generate API key: " +:+ message))
  ∧ writes (trace run) = [].
Proof.
  intros Hdir Hprompt Hlogin HloginOk HloginData Hproject HprojectOk Hkey HkeyOk HkeyData.
  cbv zeta. rewrite init_action_run, (disk_mkdir_possible _ Hdir).
  cbv zeta. rewrite Hprompt, Hlogin, HloginData, HloginOk. cbn [negb].
  rewrite Hproject, HprojectOk. cbn [negb].
  rewrite generateApiKey_run. cbv zeta. cbn [remote disk].
  fold (key_request answers loginData). rewrite Hkey, HkeyOk, HkeyData.
  split_and!; reflexivity.
Qed.

End Init.

(** ** [link] and [unlink] *)

Section Hook.
Context {js : JsRuntime} {R : Type} (env : Env R).

Lemma isGitRepo_run (w : World R) :
  isGitRepo env w =
    (Returned (is_returned (execSync env "git rev-parse --is-inside-work-tree")), w,
     [EvExec "git rev-parse --is-inside-work-tree"]).
Proof.
  unfold isGitRepo, try_catch, bind, exec, ret.
  destruct (execSync env _); reflexivity.
Qed.

(** [link] in direct style. *)
Lemma link_action_run (w : World R) :
  link_action env w =
    let inside := EvExec "git rev-parse --is-inside-work-tree" in
    match execSync env "git rev-parse --is-inside-work-tree" with
    | Thrown _ => (Returned tt, w, [inside; not_a_git_repo_line])
    | Returned _ =>
        match result (load_config w) with
        | Thrown _ =>
            (Returned tt, w,
             [inside; EvReadFile ConfigFile;
              EvConsole ConsoleLog red
                "❌ No Arsenal config found. Please run `arsenal init` first."])
        | Returned config =>
            let detect :=
              EvExec "git config --get remote.origin.url"
              :: match execSync env "git config --get remote.origin.url" with
                 | Returned _ => []
                 | Thrown _ =>
                     [EvConsole ConsoleWarn yellow "⚠️ Could not auto-detect GitHub repo."]
                 end in
            let asked := inside :: EvReadFile ConfigFile :: detect ++ [EvPrompt PromptLink] in
            match prompt_link env with
            | Thrown message => (Returned tt, w, asked ++ [failure_line link message])
            | Returned answers =>
                let data := JSON_stringify_Config (linked_config config answers) in
                let d := set_config (Some data) (disk w) in
                let written :=
                  asked ++ [EvWriteFile ConfigFile data None;
                            EvWriteFile HookFile hookScript (Some 493%N)] in
                match git_hooks (disk w) with
                | Some _ =>
                    (Returned tt,
                     mkWorld (mkDisk (dot_arsenal d) (Some (Some hookScript)) (held (disk w)))
                             (remote w),
                     written
                       ++ [EvConsole ConsoleLog green "✅ Git hook installed at .git/hooks/pre-push";
                           EvConsole ConsoleLog green "✅ GitHub repo linked successfully"])
                | None =>
                    (Returned tt, mkWorld d (remote w),
                     written
                       ++ [EvConsole ConsoleLog red "❌ Failed to install Git hook: ENOENT"])
                end
            end
        end
    end.
Proof.
  unfold link_action, link_body. unfold try_catch at 1. unfold bind at 1.
  rewrite isGitRepo_run. cbv zeta.
  destruct (execSync env "git rev-parse --is-inside-work-tree") as [out | e];
    cbn [is_returned negb]; [| reflexivity].
  unfold bind at 1. unfold attempt. rewrite load_config_run. unfold result. cbn [fst].
  destruct (disk_readFile ConfigFile (disk w)) as [content | e] eqn:Hread; [| reflexivity].
  destruct (JSON_parse_Config content) as [config | e]; [| reflexivity].
  assert (Hdir : ∃ a, dot_arsenal (disk w) = ArsDir a).
  { cbn in Hread. unfold disk_config in Hread.
    destruct (dot_arsenal (disk w)); try discriminate. eauto. }
  destruct Hdir as [a Ha].
  unfold bind, try_catch, exec, ret, console, prompt.
  destruct (execSync env "git config --get remote.origin.url") as [url | e].
  - cbn [app]. destruct (prompt_link env) as [answers | m]; [| reflexivity].
    unfold writeFile, change_disk. cbn [disk remote disk_writeFile]. rewrite Ha.
    fold (linked_config config answers). cbn [disk remote].
    rewrite set_config_hooks, held_set_config.
    destruct (git_hooks (disk w)); reflexivity.
  - cbn [app]. destruct (prompt_link env) as [answers | m]; [| reflexivity].
    unfold writeFile, change_disk. cbn [disk remote disk_writeFile]. rewrite Ha.
    fold (linked_config config answers). cbn [disk remote].
    rewrite set_config_hooks, held_set_config.
    destruct (git_hooks (disk w)); reflexivity.
Qed.

(** [unlink] in direct style. *)
Lemma unlink_action_run (w : World R) :
  unlink_action w =
    match git_hooks (disk w) with
    | Some (Some _) =>
        if held (disk w) HookFile then
          (Returned tt, w,
           [EvAccess HookFile; EvUnlink HookFile;
            EvConsole ConsoleLog yellow "⚠️ No Arsenal git hook found"])
        else
          (Returned tt,
           mkWorld (mkDisk (dot_arsenal (disk w)) (Some None) (held (disk w))) (remote w),
           [EvAccess HookFile; EvUnlink HookFile;
            EvConsole ConsoleLog green "✅ Git hook removed successfully"])
    | _ =>
        (Returned tt, w,
         [EvAccess HookFile; EvConsole ConsoleLog yellow "⚠️ No Arsenal git hook found"])
    end.
Proof.
  unfold unlink_action, unlink_body, try_catch, bind, access, on_disk, unlink, change_disk,
    console.
  cbn [disk_access disk_unlink].
  destruct (git_hooks (disk w)) as [[c |] |] eqn:Hh; cbn; rewrite ?Hh; try reflexivity.
  destruct (held (disk w) HookFile); reflexivity.
Qed.

Lemma load_config_loads (w : World R) content config :
  disk_config (disk w) = Some content →
  JSON_parse_Config content = Returned config →
  result (load_config w) = Returned config ∧ ∃ a, dot_arsenal (disk w) = ArsDir a.
Proof.
  intros Hcontent Hparse. rewrite load_config_run. unfold result. cbn.
  rewrite Hcontent, Hparse. split; [done |].
  unfold disk_config in Hcontent. destruct (dot_arsenal (disk w)); try discriminate. eauto.
Qed.


(** X6. In a Git repository whose [.git/hooks] is there, with a configuration
    that loads and a prompt that is answered, [link] stores the configuration
    it loaded with the repository of the answer in it (project, key and user
    as they were), and then writes the hook script to [.git/hooks/pre-push]
    with mode 0o755, over whatever hook was there; the pending records are
    left alone. *)
Theorem link_records_the_repository_and_installs_the_hook (w : World R) out content config
    answers previous :
  execSync env "git rev-parse --is-inside-work-tree" = Returned out →
  disk_config (disk w) = Some content →
  JSON_parse_Config content = Returned config →
  prompt_link env = Returned answers →
  git_hooks (disk w) = Some previous →
  let run := link_action env w in
  let after := disk (world_after run) in
  let data := JSON_stringify_Config (linked_config config answers) in
  result run = Returned tt
  ∧ disk_config after = Some data
  ∧ git_hooks after = Some (Some hookScript)
  ∧ disk_learnings after = disk_learnings (disk w)
  ∧ writes (trace run) = [(ConfigFile, data, None); (HookFile, hookScript, Some 493%N)]
  ∧ ∃ before,
      trace run =
        before ++ [EvConsole ConsoleLog green "✅ Git hook installed at .git/hooks/pre-push";
                   EvConsole ConsoleLog green "✅ GitHub repo linked successfully"].
Proof.
  intros Hgit Hcontent Hparse Hprompt Hhooks. cbv zeta.
  destruct (load_config_loads w content config Hcontent Hparse) as [Hload [a Ha]].
  rewrite link_action_run. cbv zeta. rewrite Hgit, Hload, Hprompt, Hhooks.
  unfold result, world_after, trace. cbn [fst snd disk].
  split_and!; try done.
  - unfold disk_config, set_config. rewrite Ha. reflexivity.
  - unfold disk_learnings, set_config. rewrite Ha. reflexivity.
  - destruct (execSync env "git config --get remote.origin.url"); reflexivity.
  - eexists. reflexivity.
Qed.

(** X7. [link] stores the repository before it installs the hook.  When
    [.git/hooks] is missing (as it is when [link] runs in a subdirectory of
    the work tree), the configuration is updated all the same, no hook is
    written, and the run ends, normally, with `Failed to install Git hook:' and
    the error. *)
Theorem link_records_the_repository_though_the_hook_fails (w : World R) out content config
    answers :
  execSync env "git rev-parse --is-inside-work-tree" = Returned out →
  disk_config (disk w) = Some content →
  JSON_parse_Config content = Returned config →
  prompt_link env = Returned answers →
  git_hooks (disk w) = None →
  let run := link_action env w in
  let after := disk (world_after run) in
  result run = Returned tt
  ∧ disk_config after = Some (JSON_stringify_Config (linked_config config answers))
  ∧ git_hooks after = None
  ∧ last (trace run) =
      Some (EvConsole ConsoleLog red "❌ Failed to install Git hook: ENOENT").
Proof.
  intros Hgit Hcontent Hparse Hprompt Hhooks. cbv zeta.
  destruct (load_config_loads w content config Hcontent Hparse) as [Hload [a Ha]].
  rewrite link_action_run. cbv zeta. rewrite Hgit, Hload, Hprompt, Hhooks.
  unfold result, world_after, trace. cbn [fst snd disk].
  split_and!; try done.
  - unfold disk_config, set_config. rewrite Ha. reflexivity.
  - by rewrite set_config_hooks.
  - by rewrite last_snoc.
Qed.

End Hook.

(** X8. [link] looks at its two [git] commands only to see whether they
    fail.  What [git config --get remote.origin.url] prints is stored in a
    variable that is never read: in two environments whose commands fail
    alike and whose prompt is answered alike, [link] runs alike. *)
Theorem link_never_uses_what_git_prints {js : JsRuntime} {R : Type} (env env' : Env R)
    (w : World R) :
  is_returned (execSync env "git rev-parse --is-inside-work-tree")
    = is_returned (execSync env' "git rev-parse --is-inside-work-tree") →
  is_returned (execSync env "git config --get remote.origin.url")
    = is_returned (execSync env' "git config --get remote.origin.url") →
  prompt_link env = prompt_link env' →
  link_action env w = link_action env' w.
Proof.
  intros Hinside Hremote Hprompt. rewrite !link_action_run. cbv zeta.
  rewrite <- Hprompt.
  destruct (execSync env "git rev-parse --is-inside-work-tree"),
    (execSync env' "git rev-parse --is-inside-work-tree"); try discriminate; [| done].
  destruct (result (load_config w)) as [config | e]; [| done].
  by destruct (execSync env "git config --get remote.origin.url"),
    (execSync env' "git config --get remote.origin.url"); try discriminate.
Qed.

Section Unhook.
Context {js : JsRuntime} {R : Type} (env : Env R).

(** X9. [unlink], from any world, returns normally and changes nothing but
    the hook.  A pre-push hook that is there and is not held is deleted,
    whatever its content, and the success line is printed, exactly then.  A
    hook that is there and is held stays: the failure of its deletion is
    caught by the inner [catch], and the run prints `No Arsenal git hook
    found', as it does when there is no hook.  The line of the top-level
    catch is never printed. *)
Theorem unlink_removes_the_hook_unless_it_is_held (w : World R) :
  let run := unlink_action w in
  let after := disk (world_after run) in
  let removed :=
    (∃ content, disk_readFile HookFile (disk w) = Returned content)
    ∧ held (disk w) HookFile = false in
  result run = Returned tt
  ∧ dot_arsenal after = dot_arsenal (disk w)
  ∧ (git_hooks after = None ↔ git_hooks (disk w) = None)
  ∧ held after = held (disk w)
  ∧ remote (world_after run) = remote w
  ∧ (held (disk w) HookFile = false → disk_readFile HookFile after = Thrown "ENOENT")
  ∧ (held (disk w) HookFile = true → after = disk w)
  ∧ (EvConsole ConsoleLog green "✅ Git hook removed successfully" ∈ trace run ↔ removed)
  ∧ (EvConsole ConsoleLog yellow "⚠️ No Arsenal git hook found" ∈ trace run ↔ ¬ removed)
  ∧ Forall (λ ev, ∀ message, ev ≠ failure_line unlink_hook message) (trace run).
Proof.
  cbv zeta. rewrite unlink_action_run.
  destruct (git_hooks (disk w)) as [[c |] |] eqn:Hh;
    [destruct (held (disk w) HookFile) eqn:Hheld | |];
    unfold result, world_after, trace; cbn [fst snd disk remote disk_readFile git_hooks
      dot_arsenal held]; rewrite ?Hh.
  all: split_and!; try done.
  all: try (repeat apply Forall_cons_2; try apply Forall_nil_2; intros m; discriminate).
  all: rewrite !elem_of_cons, elem_of_nil.
  all: intuition (try discriminate; eauto).
  all: by repeat match goal with H : ∃ _, _ |- _ => destruct H end.
Qed.

(** X10. Running [unlink] again changes nothing more.  The second run finds
    no hook, or finds the hook that the first run could not delete and cannot
    delete it either; in both cases it prints `No Arsenal git hook found' and
    leaves the world as the first run left it. *)
Theorem unlink_twice_changes_nothing_more (w : World R) :
  let first := unlink_action w in
  unlink_action (world_after first) =
    (Returned tt, world_after first,
     EvAccess HookFile
     :: match disk_readFile HookFile (disk (world_after first)) with
        | Returned _ => [EvUnlink HookFile]
        | Thrown _ => []
        end
     ++ [EvConsole ConsoleLog yellow "⚠️ No Arsenal git hook found"]).
Proof.
  cbv zeta. rewrite (unlink_action_run w).
  destruct (git_hooks (disk w)) as [[c |] |] eqn:Hh;
    [destruct (held (disk w) HookFile) eqn:Hheld | |];
    unfold world_after; cbn [fst snd]; rewrite unlink_action_run;
    cbn [disk git_hooks held disk_readFile]; by rewrite ?Hh, ?Hheld.
Qed.

(** X11. [unlink] undoes the hook of [link], not its configuration: after a
    [link] that installed the hook, [unlink] deletes the hook, unless the
    hook is held and stays, and leaves the repository in the stored
    configuration. *)
Theorem unlink_after_link_keeps_the_repository (w : World R) out content config answers
    previous :
  execSync env "git rev-parse --is-inside-work-tree" = Returned out →
  disk_config (disk w) = Some content →
  JSON_parse_Config content = Returned config →
  prompt_link env = Returned answers →
  git_hooks (disk w) = Some previous →
  let linked := world_after (link_action env w) in
  let run := unlink_action linked in
  let after := disk (world_after run) in
  git_hooks (disk linked) = Some (Some hookScript)
  ∧ (if held (disk w) HookFile then
       trace run =
         [EvAccess HookFile; EvUnlink HookFile;
          EvConsole ConsoleLog yellow "⚠️ No Arsenal git hook found"]
       ∧ git_hooks after = Some (Some hookScript)
     else
       trace run =
         [EvAccess HookFile; EvUnlink HookFile;
          EvConsole ConsoleLog green "✅ Git hook removed successfully"]
       ∧ git_hooks after = Some None)
  ∧ disk_config after = Some (JSON_stringify_Config (linked_config config answers))
  ∧ disk_learnings after = disk_learnings (disk w).
Proof.
  intros Hgit Hcontent Hparse Hprompt Hhooks. cbv zeta.
  destruct (load_config_loads w content config Hcontent Hparse) as [Hload [a Ha]].
  rewrite link_action_run. cbv zeta. rewrite Hgit, Hload, Hprompt, Hhooks.
  unfold world_after. cbn [fst snd].
  rewrite unlink_action_run. cbn [disk git_hooks dot_arsenal held].
  destruct (held (disk w) HookFile);
    unfold trace; cbn [fst snd disk git_hooks].
  all: split_and!; try done.
  all: try (unfold disk_config, set_config; rewrite Ha; reflexivity).
  all: unfold disk_learnings, set_config; rewrite Ha; reflexivity.
Qed.

End Unhook.

(** ** What [sync] sends *)

Lemma remove_record_hooks file d : git_hooks (remove_record file d) = git_hooks d.
Proof.
  unfold remove_record. cbn [disk_unlink].
  destruct (disk_learnings d) as [| | es] eqn:Hd; try done.
  destruct (es !! file) as [[c |] |]; try done.
  destruct (held d (LearningFile file)); [done |].
  by destruct d as [[| | a] hooks h].
Qed.

Lemma remove_records_hooks files d : git_hooks (remove_records files d) = git_hooks d.
Proof.
  revert d. induction files as [| file files IH]; intros d; [done |].
  cbn. fold (remove_records files (remove_record file d)).
  by rewrite IH, remove_record_hooks.
Qed.

Section Traffic.
Context {js : JsRuntime} {R : Type} (env : Env R).

(** One turn of the loop sends the request of its record, if the record has
    one, and nothing else. *)
Lemma sync_file_requests config counts file (w : World R) :
  let turn := sync_file env config counts file w in
  requests (trace turn) = option_list (submission_of config (disk w) file)
  ∧ writes (trace turn) = []
  ∧ (disk (world_after turn) = disk w
     ∨ disk (world_after turn) = remove_record file (disk w)).
Proof.
  destruct counts as [s e]. cbv zeta. rewrite sync_file_run. cbv zeta.
  unfold submission_of.
  destruct (disk_readFile (LearningFile file) (disk w)) as [content | m] eqn:Hread;
    [| by split_and!; [| | left]].
  destruct (JSON_parse_Learning content) as [learning | m];
    [| by split_and!; [| | left]].
  rewrite sendLearning_run. cbv zeta.
  destruct (serve env (remote w) (submit_request learning config)) as [[m | res] r];
    [by split_and!; [| | left] |].
  destruct (ok res); [| by split_and!; [| | left]].
  unfold remove_record.
  destruct (disk_unlink (LearningFile file) (disk w)) as [d | m];
    by split_and!; [| | (right + left)].
Qed.

Lemma sync_files_requests config files :
  NoDup files →
  ∀ counts (w : World R),
    let loop := sync_files env config files counts w in
    requests (trace loop) = omap (submission_of config (disk w)) files
    ∧ writes (trace loop) = [].
Proof.
  induction 1 as [| file files Hnotin Hdup IH]; intros counts w; [done |].
  cbv zeta. cbn [sync_files]. unfold bind.
  destruct (sync_file_requests config counts file w) as (Hreq & Hwr & Hdisk).
  destruct (sync_file env config counts file w) as [[c w1] t1] eqn:Hturn.
  unfold trace, world_after in Hreq, Hwr, Hdisk. cbn [fst snd] in Hreq, Hwr, Hdisk.
  destruct c as [counts' | m].
  2:{ destruct (sync_file_returns env config counts file w) as (? & ? & ? & Heq).
      congruence. }
  destruct (IH counts' w1) as [IHreq IHwr].
  destruct (sync_files env config files counts' w1) as [[c3 w3] t3].
  unfold trace in *. cbn [snd] in *.
  rewrite requests_app, writes_app, Hreq, Hwr, IHreq, IHwr. split; [| done].
  cbn [omap list_omap].
  assert (Hext : omap (submission_of config (disk w1)) files
                 = omap (submission_of config (disk w)) files).
  { apply list_omap_ext, Forall2_same_length_lookup_2; [done |].
    intros i g g' Hg Hg'. rewrite Hg in Hg'. injection Hg' as <-.
    unfold submission_of. destruct Hdisk as [-> | ->]; [done |].
    rewrite disk_readFile_remove_record; [done |].
    intros ->. apply Hnotin. by eapply list_elem_of_lookup_2. }
  rewrite Hext. by destruct (submission_of config (disk w) file).
Qed.

Lemma requests_header config : requests (header_lines config) = [].
Proof.
  unfold header_lines. destruct (githubRepo config) as [repo |]; [| done].
  by destruct (String.eqb repo "").
Qed.

Lemma writes_header config : writes (header_lines config) = [].
Proof.
  unfold header_lines. destruct (githubRepo config) as [repo |]; [| done].
  by destruct (String.eqb repo "").
Qed.

Lemma requests_report s e : requests (report_lines s e) = [].
Proof. unfold report_lines. by destruct (0 <? s), (0 <? e). Qed.

Lemma writes_report s e : writes (report_lines s e) = [].
Proof. unfold report_lines. by destruct (0 <? s), (0 <? e). Qed.

Lemma enumerated_not_dir d : (∀ es, disk_learnings d ≠ Dir es) → enumerated d = [].
Proof.
  intros Hd. unfold enumerated, pending.
  destruct (disk_learnings d) as [| | es]; try by rewrite map_to_list_empty.
  by destruct (Hd es).
Qed.

Lemma sync_validated_requests config (w : World R) :
  let run := sync_validated env config w in
  requests (trace run) = omap (submission_of config (disk w)) (enumerated (disk w))
  ∧ writes (trace run) = [].
Proof.
  cbv zeta. rewrite sync_validated_run.
  destruct (disk_learnings (disk w)) as [| | es] eqn:Hd.
  - rewrite enumerated_not_dir by (by rewrite Hd). unfold trace. cbn [snd].
    by rewrite requests_app, writes_app, requests_header, writes_header.
  - rewrite enumerated_not_dir by (by rewrite Hd). unfold trace. cbn [snd].
    by rewrite requests_app, writes_app, requests_header, writes_header.
  - cbv zeta. rewrite <- (enumerated_dir _ _ Hd).
    destruct (length (enumerated (disk w)) =? 0) eqn:Hlen.
    { apply Nat.eqb_eq, nil_length_inv in Hlen. rewrite Hlen. unfold trace. cbn [snd].
      by rewrite requests_app, writes_app, requests_header, writes_header. }
    destruct (sync_files_requests config (enumerated (disk w)) (enumerated_NoDup _) (0, 0) w)
      as [Hreq Hwr].
    destruct (sync_files env config (enumerated (disk w)) (0, 0) w) as [[[counts | e] w'] t];
      unfold trace in *; cbn [snd] in *.
    + rewrite !requests_app, !writes_app, requests_header, writes_header, requests_report,
        writes_report, Hreq, Hwr. cbn. by rewrite !app_nil_r.
    + rewrite !requests_app, !writes_app, requests_header, writes_header, Hreq, Hwr.
      done.
Qed.

Lemma sync_action_requests (w : World R) :
  let run := sync_action env w in
  requests (trace run) =
    match result (load_config w) with
    | Thrown _ => []
    | Returned config =>
        test_api_key_request config
        :: match result (validateConfig env config w) with
           | Returned _ => omap (submission_of config (disk w)) (enumerated (disk w))
           | Thrown _ => []
           end
    end
  ∧ writes (trace run) = [].
Proof.
  cbv zeta. rewrite sync_action_run.
  destruct (result (load_config w)) as [config | e]; [| done].
  destruct (validateConfig_shape env config w) as (c & r & out & Hv). rewrite Hv.
  unfold result at 1. cbn [fst].
  destruct c as [[] | m]; [| done].
  destruct (sync_validated_requests config (mkWorld (disk w) r)) as [Hreq Hwr].
  cbn [disk] in Hreq.
  destruct (sync_validated env config (mkWorld (disk w) r)) as [[[[] | m] w2] t2];
    unfold trace in *; cbn [snd] in *.
  - change (EvReadFile ConfigFile :: [EvFetch (test_api_key_request config) out] ++ t2)
      with ([EvReadFile ConfigFile; EvFetch (test_api_key_request config) out] ++ t2).
    by rewrite requests_app, writes_app, Hreq, Hwr.
  - change (EvReadFile ConfigFile :: [EvFetch (test_api_key_request config) out] ++ ?l)
      with ([EvReadFile ConfigFile; EvFetch (test_api_key_request config) out] ++ l).
    rewrite !requests_app, !writes_app, Hreq, Hwr. cbn. by rewrite app_nil_r.
Qed.

(** X12. The requests of a run of [sync], from any world, in order: none when
    the configuration does not load; otherwise the validation of the stored
    key, followed, when the validation succeeds, by one submission for each
    enumerated record that can be read and parsed, in the order of the
    enumeration, carrying the five fields of the learning the file held when
    the run began (never its title) under the project and the key of the
    stored configuration.  No run writes a file. *)
Theorem sync_sends_what_the_records_hold (w : World R) :
  let run := sync_action env w in
  requests (trace run) =
    match result (load_config w) with
    | Thrown _ => []
    | Returned config =>
        test_api_key_request config
        :: match result (validateConfig env config w) with
           | Returned _ => omap (submission_of config (disk w)) (enumerated (disk w))
           | Thrown _ => []
           end
    end
  ∧ writes (trace run) = [].
Proof. exact (sync_action_requests w). Qed.

(** X13. A record that is read and parsed but whose submission is not
    answered with a success (the request is rejected, or the response is not
    2xx) is counted as failed and kept: nothing is deleted, and the line
    printed names the file, then the learning (its title, else its function
    name, else `Unknown learning'), then the error of the network or `Server
    error:' with the status and the [detail] of the body (`Unknown error'
    when the body is not JSON or has no [detail]). *)
Theorem sync_file_reports_a_refused_record config counts file (w : World R) content learning
    out r :
  disk_readFile (LearningFile file) (disk w) = Returned content →
  JSON_parse_Learning content = Returned learning →
  serve env (remote w) (submit_request learning config) = (out, r) →
  success out = false →
  sync_file env config counts file w =
    (Returned (counts.1, S counts.2), mkWorld (disk w) r,
     [EvReadFile (LearningFile file);
      EvFetch (submit_request learning config) out;
      EvConsole ConsoleLog red
        ("❌ Failed to sync " +:+ file +:+ ": Failed to sync " +:+ learning_name learning
           +:+ ": " +:+ refusal out)]).
Proof.
  intros Hread Hparse Hserve Hout. destruct counts as [s e].
  rewrite sync_file_run. cbv zeta. rewrite Hread, Hparse, sendLearning_run. cbv zeta.
  rewrite Hserve. unfold failed_to_sync, learning_name, opt_or, str_or.
  destruct out as [m | res]; [reflexivity |].
  cbn in Hout. rewrite Hout. reflexivity.
Qed.

(** X14. When the configuration is accepted and the pending storage exists
    but is not a directory, [sync] gets past [access], fails in [readdir]
    and ends at its top-level catch: it prints `Sync failed:' with the error,
    returns normally and leaves the disk as it is. *)
Theorem sync_fails_on_a_storage_that_is_a_file (w : World R) config :
  config_accepted env w config →
  disk_learnings (disk w) = NotADir →
  let run := sync_action env w in
  result run = Returned tt
  ∧ disk (world_after run) = disk w
  ∧ ∃ out,
      trace run =
        EvReadFile ConfigFile
        :: EvFetch (test_api_key_request config) out
        :: header_lines config
        ++ [EvAccess LearningsDir; EvReaddir LearningsDir;
            EvConsole ConsoleError red "❌ Sync failed: ENOTDIR"].
Proof.
  intros Hacc Hd. cbv zeta.
  destruct (sync_action_accepted env w config Hacc) as (r & out & _ & ->).
  rewrite sync_validated_run. cbn [disk]. rewrite Hd.
  unfold result, world_after, trace. cbn [fst snd disk].
  split_and!; [done | done |]. exists out. by rewrite <- app_assoc.
Qed.

(** X15. A stored project id that [parseInt] cannot read (it gives [NaN],
    which differs from every number) is rejected by [validateConfig]
    whatever the remote service answers; a run of [sync] with such a
    configuration sends the validation request and nothing else, and leaves
    the disk as it is. *)
Theorem sync_rejects_a_project_that_is_not_a_number (w : World R) content config :
  disk_config (disk w) = Some content →
  JSON_parse_Config content = Returned config →
  parseInt (projectId config) = None →
  let run := sync_action env w in
  (∀ w' : World R, ∃ message,
      result (validateConfig env config w') =
        Thrown ("Configuration validation failed: " +:+ message))
  ∧ requests (trace run) = [test_api_key_request config]
  ∧ disk (world_after run) = disk w.
Proof.
  intros Hcontent Hparse Hnan. cbv zeta.
  assert (Hrej : ∀ w' : World R, ∃ message,
    result (validateConfig env config w') =
      Thrown ("Configuration validation failed: " +:+ message)).
  { intros w'. rewrite validateConfig_run. cbv zeta.
    destruct (serve env (remote w') (test_api_key_request config)) as [[e | res] r];
      unfold result; cbn [fst]; [eauto |].
    destruct (ok res); [| eauto].
    destruct (text res) as [s | e]; [| eauto].
    destruct (json_TestApiKeyResponse s) as [data | e]; [| eauto].
    unfold mismatch. rewrite Hnan.
    rewrite (bool_decide_eq_false_2 (Some _ = None)) by done.
    rewrite orb_true_r. eauto. }
  split; [exact Hrej |].
  assert (Hload : result (load_config w) = Returned config).
  { rewrite load_config_run. unfold result. cbn. by rewrite Hcontent, Hparse. }
  destruct (Hrej w) as [message Hv].
  split.
  - destruct (sync_action_requests w) as [-> _]. by rewrite Hload, Hv.
  - rewrite sync_action_run, Hload.
    destruct (validateConfig_shape env config w) as (c & r & out & Hshape).
    rewrite Hshape in Hv |- *. unfold result in Hv. cbn [fst] in Hv. subst c. done.
Qed.

End Traffic.

(** ** The four commands together *)

Section Commands.
Context {js : JsRuntime} {R : Type} (env : Env R).

Lemma to_the_api_intro path method headers body :
  to_the_api {| url := API_URL +:+ path; method := method; headers := headers; body := body |}.
Proof. by exists path. Qed.

Lemma init_action_effects (w : World R) :
  let run := init_action env w in
  Forall to_the_api (requests (trace run))
  ∧ disk_learnings (disk (world_after run)) = disk_learnings (disk w)
  ∧ git_hooks (disk (world_after run)) = git_hooks (disk w).
Proof.
  cbv zeta. rewrite init_action_run.
  assert (Hlogin : ∀ answers, to_the_api (login_request answers))
    by (intros; apply to_the_api_intro).
  assert (Hproject : ∀ answers loginData, to_the_api (project_request answers loginData))
    by (intros; apply to_the_api_intro).
  assert (Hkey : ∀ token project, to_the_api (generate_key_request token project))
    by (intros; apply to_the_api_intro).
  destruct (disk_mkdir ConfigDir (disk w)) as [d | e] eqn:Hmk; [| by split_and!].
  apply disk_mkdir_returns in Hmk as (-> & _ & a & Ha).
  pose proof (with_config_dir_learnings (disk w)) as Hl.
  pose proof (with_config_dir_hooks (disk w)) as Hh.
  cbv zeta.
  destruct (prompt_init env) as [answers | m]; [| by split_and!].
  destruct (serve env (remote w) (login_request answers)) as [[e | loginRes] r1];
    [split_and!; [cbn; auto | done | done] |].
  destruct (decoded json_LoginResponse loginRes) as [loginData | e];
    [| split_and!; [cbn; auto | done | done]].
  destruct (ok loginRes); cbn [negb]; [| split_and!; [cbn; auto | done | done]].
  destruct (serve env r1 (project_request answers loginData)) as [[e | projectRes] r2];
    [split_and!; [cbn; auto | done | done] |].
  destruct (ok projectRes); cbn [negb].
  2:{ destruct (text projectRes); split_and!; try done; cbn; auto. }
  rewrite generateApiKey_run. cbv zeta. cbn [remote disk].
  destruct (serve env r2 _) as [[e | keyRes] r3]; [split_and!; [cbn; auto | done | done] |].
  destruct (if ok keyRes then _ else _) as [key | m];
    unfold world_after, trace; cbn [fst snd disk].
  - rewrite set_config_learnings, set_config_hooks. split_and!; [cbn; auto | done | done].
  - split_and!; [cbn; auto | done | done].
Qed.

Lemma link_action_effects (w : World R) :
  let run := link_action env w in
  requests (trace run) = []
  ∧ remote (world_after run) = remote w
  ∧ disk_learnings (disk (world_after run)) = disk_learnings (disk w).
Proof.
  cbv zeta. rewrite link_action_run. cbv zeta.
  destruct (execSync env "git rev-parse --is-inside-work-tree"); [| done].
  destruct (result (load_config w)) as [config | e]; [| done].
  assert (Hdetect : ∀ l : list Event,
    requests (match execSync env "git config --get remote.origin.url" with
              | Returned _ => []
              | Thrown _ =>
                  [EvConsole ConsoleWarn yellow "⚠️ Could not auto-detect GitHub repo."]
              end ++ l) = requests l).
  { intros l. by destruct (execSync env "git config --get remote.origin.url"). }
  destruct (prompt_link env) as [answers | m].
  2:{ split_and!; try done. unfold trace. cbn [snd]. cbn [app].
      rewrite <- app_assoc.
      change (requests (?a :: ?b :: ?c :: ?l)) with (requests l).
      by rewrite Hdetect. }
  destruct (git_hooks (disk w));
    unfold world_after, trace; cbn [fst snd disk remote].
  - split_and!; try done.
    + cbn [app]. rewrite <- !app_assoc.
      change (requests (?a :: ?b :: ?c :: ?l)) with (requests l).
      by rewrite Hdetect.
    + unfold disk_learnings. cbn [dot_arsenal]. fold (disk_learnings (set_config
        (Some (JSON_stringify_Config (linked_config config answers))) (disk w))).
      apply set_config_learnings.
  - split_and!; try done.
    + cbn [app]. rewrite <- !app_assoc.
      change (requests (?a :: ?b :: ?c :: ?l)) with (requests l).
      by rewrite Hdetect.
    + apply set_config_learnings.
Qed.

Lemma sync_action_frame (w : World R) :
  let run := sync_action env w in
  disk_config (disk (world_after run)) = disk_config (disk w)
  ∧ git_hooks (disk (world_after run)) = git_hooks (disk w).
Proof.
  cbv zeta.
  destruct (sync_action_guarantees env w) as (_ & -> & _).
  by rewrite remove_records_config, remove_records_hooks.
Qed.

Lemma to_the_api_validation config : to_the_api (test_api_key_request config).
Proof. apply to_the_api_intro. Qed.

Lemma to_the_api_submission config d file req :
  submission_of config d file = Some req → to_the_api req.
Proof.
  unfold submission_of.
  destruct (disk_readFile (LearningFile file) d) as [content |]; [| done].
  destruct (JSON_parse_Learning content) as [learning |]; [| done].
  intros [= <-]. unfold submit_request, to_the_api. cbn [url].
  exists ("/projects/" +:+ projectId config +:+ "/learnings"). reflexivity.
Qed.

Lemma sync_action_to_the_api (w : World R) :
  Forall to_the_api (requests (trace (sync_action env w))).
Proof.
  destruct (sync_action_requests env w) as [-> _].
  destruct (result (load_config w)) as [config | e]; [| constructor].
  apply Forall_cons_2; [apply to_the_api_validation |].
  destruct (result (validateConfig env config w)); [| constructor].
  apply Forall_forall. intros req Hreq.
  apply list_elem_of_omap in Hreq as (file & _ & Hreq).
  by eapply to_the_api_submission.
Qed.

(** X16. Whatever the world, every request a command sends goes to the API:
    its URL is [API_URL] followed by a path.  [link] and [unlink] send none
    and leave the remote service as it is. *)
Theorem commands_talk_to_the_api_only (c : Command) (w : World R) :
  let run := action env c w in
  Forall to_the_api (requests (trace run))
  ∧ match c with
    | link | unlink_hook =>
        requests (trace run) = [] ∧ remote (world_after run) = remote w
    | init | sync => True
    end.
Proof.
  cbv zeta. destruct c; cbn [action].
  - split; [apply init_action_effects | done].
  - split; [apply sync_action_to_the_api | done].
  - destruct (link_action_effects w) as (Hreq & Hremote & _).
    rewrite Hreq. by split_and!.
  - rewrite unlink_action_run.
    by destruct (git_hooks (disk w)) as [[hook |] |], (held (disk w) HookFile).
Qed.

(** X17. Each command keeps to its own files, whatever the world: [init]
    changes neither the pending records nor the hooks; [sync] changes neither
    the configuration nor the hooks, and writes no file; [link] leaves the
    pending records alone; [unlink] leaves [.arsenal] alone. *)
Theorem commands_keep_to_their_files (c : Command) (w : World R) :
  let run := action env c w in
  let before := disk w in
  let after := disk (world_after run) in
  match c with
  | init =>
      disk_learnings after = disk_learnings before ∧ git_hooks after = git_hooks before
  | sync =>
      disk_config after = disk_config before ∧ git_hooks after = git_hooks before
      ∧ writes (trace run) = []
  | link => disk_learnings after = disk_learnings before
  | unlink_hook => dot_arsenal after = dot_arsenal before
  end.
Proof.
  cbv zeta. destruct c; cbn [action].
  - apply init_action_effects.
  - destruct (sync_action_frame w) as [Hc Hh].
    destruct (sync_action_requests env w) as [_ Hw]. by split_and!.
  - apply link_action_effects.
  - rewrite unlink_action_run.
    by destruct (git_hooks (disk w)) as [[hook |] |], (held (disk w) HookFile).
Qed.

(** X18. [sync] after [init].  When [init] has stored a configuration (the
    prompt answered, its three requests accepted) and [JSON.parse] gives back
    what [JSON.stringify] was given, the next [sync] loads that very
    configuration and begins by asking the remote service about the key that
    [init] was given: its first request is the validation request, and it
    carries that key. *)
Theorem sync_after_init_validates_the_generated_key (w : World R) answers loginRes r1
    loginData projectRes r2 keyRes r3 key :
  dot_arsenal (disk w) ≠ ArsNotADir →
  prompt_init env = Returned answers →
  serve env (remote w) (login_request answers) = (Responded loginRes, r1) →
  ok loginRes = true →
  decoded json_LoginResponse loginRes = Returned loginData →
  serve env r1 (project_request answers loginData) = (Responded projectRes, r2) →
  ok projectRes = true →
  serve env r2 (key_request answers loginData) = (Responded keyRes, r3) →
  ok keyRes = true →
  decoded json_ApiKeyResponse keyRes = Returned key →
  let config := initial_config answers loginData (ApiKeyResponse.api_key key) in
  JSON_parse_Config (JSON_stringify_Config config) = Returned config →
  let initialised := world_after (init_action env w) in
  result (load_config initialised) = Returned config
  ∧ remote initialised = r3
  ∧ (∃ rest,
       requests (trace (sync_action env initialised)) = test_api_key_request config :: rest)
  ∧ headers (test_api_key_request config) =
      [("Authorization", "ApiKey " +:+ ApiKeyResponse.api_key key)].
Proof.
  intros Hdir Hprompt Hlogin HloginOk HloginData Hproject HprojectOk Hkey HkeyOk HkeyData
    config Hround.
  cbv zeta. rewrite init_action_run.
  pose proof (disk_mkdir_possible _ Hdir) as Hmk. rewrite Hmk.
  apply disk_mkdir_returns in Hmk as (_ & _ & a & Ha).
  cbv zeta. rewrite Hprompt, Hlogin, HloginData, HloginOk. cbn [negb].
  rewrite Hproject, HprojectOk. cbn [negb].
  rewrite generateApiKey_run. cbv zeta. cbn [remote disk].
  fold (key_request answers loginData). rewrite Hkey, HkeyOk, HkeyData.
  fold config. unfold world_after at 1 2 3. cbn [fst snd remote].
  set (initialised := mkWorld (set_config (Some (JSON_stringify_Config config))
                                 (with_config_dir (disk w))) r3).
  assert (Hload : result (load_config initialised) = Returned config).
  { rewrite load_config_run. unfold result, initialised. cbn [fst disk disk_readFile].
    by rewrite (set_config_config _ _ a), Hround. }
  split_and!; [exact Hload | done | | done].
  destruct (sync_action_requests env initialised) as [-> _]. rewrite Hload. eauto.
Qed.

End Commands.

(** ** The answers of the prompts *)

(** *** Strings *)

Lemma string_app_cons a (s t : string) : String a s +:+ t = String a (s +:+ t).
Proof. reflexivity. Qed.

Lemma string_app_nil_l (t : string) : "" +:+ t = t.
Proof. reflexivity. Qed.

Lemma string_app_nil_r (s : string) : s +:+ "" = s.
Proof. induction s as [| a s IH]; [done |]. by rewrite string_app_cons, IH. Qed.

Lemma string_app_assoc (s1 s2 s3 : string) : (s1 +:+ s2) +:+ s3 = s1 +:+ s2 +:+ s3.
Proof. induction s1 as [| a s1 IH]; [done |]. by rewrite !string_app_cons, IH. Qed.

Lemma string_app_eq_nil (s1 s2 : string) : s1 +:+ s2 = "" → s1 = "" ∧ s2 = "".
Proof. by destruct s1. Qed.

Lemma all_chars_nil p : all_chars p "".
Proof. constructor. Qed.

Lemma all_chars_cons p a s : all_chars p (String a s) ↔ p a = true ∧ all_chars p s.
Proof. unfold all_chars. cbn. apply (Forall_cons (λ a, p a = true)). Qed.

Lemma all_chars_app p s1 s2 : all_chars p (s1 +:+ s2) ↔ all_chars p s1 ∧ all_chars p s2.
Proof.
  induction s1 as [| a s1 IH].
  - rewrite string_app_nil_l. split; [by split; [apply all_chars_nil |] | tauto].
  - rewrite string_app_cons, !all_chars_cons, IH. tauto.
Qed.

Lemma all_chars_ext p q s : (∀ a, p a = q a) → all_chars p s ↔ all_chars q s.
Proof.
  intros Hpq. unfold all_chars.
  split; intros H; (eapply Forall_impl; [exact H |]); intros a; cbn; by rewrite Hpq.
Qed.

Lemma strip_prefix_spec p s rest : strip_prefix p s = Some rest ↔ s = p +:+ rest.
Proof.
  revert s. induction p as [| a p IH]; intros s; cbn [strip_prefix].
  - rewrite string_app_nil_l. split; [by intros [= ->] | by intros ->].
  - rewrite string_app_cons. destruct s as [| b s]; [done |].
    destruct (Ascii.eqb_spec a b) as [-> | Hne].
    + rewrite IH. split; [by intros -> | by intros [= ->]].
    + split; [done | intros [= ? ?]; congruence].
Qed.

(** *** [includes] *)

Lemma includes_spec s needle :
  includes s needle = true ↔ ∃ before after, s = before +:+ needle +:+ after.
Proof.
  induction s as [| a s IH]; cbn [includes].
  - destruct (strip_prefix needle "") as [rest |] eqn:Hp.
    + apply strip_prefix_spec in Hp. split; [intros _ | done]. by exists "", rest.
    + split; [done |]. intros (before & after & Heq).
      symmetry in Heq. apply string_app_eq_nil in Heq as [-> Heq].
      assert (Hsome : strip_prefix needle "" = Some after) by by apply strip_prefix_spec.
      congruence.
  - destruct (strip_prefix needle (String a s)) as [rest |] eqn:Hp.
    + apply strip_prefix_spec in Hp. split; [intros _ | done]. by exists "", rest.
    + rewrite IH. split.
      * intros (before & after & ->). by exists (String a before), after.
      * intros (before & after & Heq). destruct before as [| b before].
        -- rewrite string_app_nil_l in Heq.
           assert (Hsome : strip_prefix needle (String a s) = Some after)
             by by apply strip_prefix_spec.
           congruence.
        -- rewrite string_app_cons in Heq. injection Heq as -> ->. by exists before, after.
Qed.

(** *** [trim] *)

Lemma strip_white_space_spec s rest :
  strip_white_space s = Some rest →
  ∃ space, s = space +:+ rest ∧ space ≠ "" ∧ all_chars white_space_byte space.
Proof.
  unfold strip_white_space.
  assert (Hall : Forall (λ cp, utf8 cp ≠ "" ∧ all_chars white_space_byte (utf8 cp)) white_space).
  { unfold white_space.
    repeat (apply Forall_cons_2;
            [split; [discriminate | unfold all_chars; cbn;
                     repeat (apply Forall_cons_2; [vm_compute; reflexivity |]);
                     apply Forall_nil_2] |]).
    apply Forall_nil_2. }
  induction Hall as [| cp l [Hne Hcp] _ IH]; cbn [foldr]; [done |].
  destruct (strip_prefix (utf8 cp) s) as [rest' |] eqn:Hp; [| exact IH].
  intros [= ->]. apply strip_prefix_spec in Hp. eauto.
Qed.

Lemma trimStart_upto_spec n s :
  ∃ space, s = space +:+ trimStart_upto n s ∧ all_chars white_space_byte space.
Proof.
  revert s. induction n as [| n IH]; intros s; cbn [trimStart_upto].
  { exists "". split; [done | apply all_chars_nil]. }
  destruct (strip_white_space s) as [rest |] eqn:Hs.
  - apply strip_white_space_spec in Hs as (space & -> & _ & Hspace).
    destruct (IH rest) as (space' & Hrest & Hspace').
    exists (space +:+ space'). rewrite string_app_assoc, <- Hrest.
    split; [done |]. by apply all_chars_app.
  - exists "". split; [done | apply all_chars_nil].
Qed.

Lemma trimStart_spec s :
  ∃ space, s = space +:+ trimStart s ∧ all_chars white_space_byte space.
Proof. apply trimStart_upto_spec. Qed.

Lemma blank_spec s : blank s = true → all_chars white_space_byte s.
Proof.
  unfold blank. intros Hb. apply String.eqb_eq in Hb.
  destruct (trimStart_spec s) as (space & Hs & Hspace).
  rewrite Hb, string_app_nil_r in Hs. by subst.
Qed.

Lemma trimEnd_nil s : trimEnd s = "" → all_chars white_space_byte s.
Proof.
  destruct s as [| a s]; [intros _; apply all_chars_nil |].
  cbn [trimEnd]. destruct (blank (String a s)) eqn:Hb; [| done].
  intros _. by apply blank_spec.
Qed.

Lemma trim_nil s : trim s = "" → all_chars white_space_byte s.
Proof.
  unfold trim. intros Ht. apply trimEnd_nil in Ht.
  destruct (trimStart_spec s) as (space & Hs & Hspace).
  rewrite Hs. by apply all_chars_app.
Qed.
(** *** Matching by derivatives is matching *)

Lemma matches_seq_inv r1 r2 s :
  matches (Seq r1 r2) s ↔ ∃ s1 s2, s = s1 +:+ s2 ∧ matches r1 s1 ∧ matches r2 s2.
Proof.
  split.
  - inversion 1; subst. eauto.
  - intros (s1 & s2 & -> & H1 & H2). by constructor.
Qed.

Lemma matches_chars_inv ranges s :
  matches (Chars ranges) s ↔ ∃ a, s = String a "" ∧ in_class ranges a = true.
Proof.
  split.
  - inversion 1; subst. eauto.
  - intros (a & -> & Ha). by constructor.
Qed.

Lemma nullable_spec r : nullable r = true ↔ matches r "".
Proof.
  induction r as [| | ranges | r1 IH1 r2 IH2 | r1 IH1 r2 IH2 | r IH]; cbn [nullable].
  - split; [done | inversion 1].
  - split; [constructor | done].
  - split; [done | inversion 1].
  - rewrite andb_true_iff, IH1, IH2, matches_seq_inv. split.
    + intros [H1 H2]. by exists "", "".
    + intros (s1 & s2 & Heq & H1 & H2).
      symmetry in Heq. apply string_app_eq_nil in Heq as [-> ->]. done.
  - rewrite orb_true_iff, IH1, IH2. split.
    + intros [H | H]; [by apply matches_alt_l | by apply matches_alt_r].
    + inversion 1; subst; tauto.
  - split; [constructor | done].
Qed.

Lemma derive_sound a r : ∀ s, matches (derive a r) s → matches r (String a s).
Proof.
  induction r as [| | ranges | r1 IH1 r2 IH2 | r1 IH1 r2 IH2 | r IH]; intros s;
    cbn [derive].
  - inversion 1.
  - inversion 1.
  - destruct (in_class ranges a) eqn:Ha; inversion 1; subst. by constructor.
  - assert (Hleft : matches (Seq (derive a r1) r2) s → matches (Seq r1 r2) (String a s)).
    { intros (s1 & s2 & -> & H1 & H2)%matches_seq_inv.
      rewrite <- string_app_cons. constructor; [by apply IH1 | done]. }
    destruct (nullable r1) eqn:Hnull; [| exact Hleft].
    inversion 1; subst; [by apply Hleft |].
    rewrite <- (string_app_nil_l (String a s)).
    constructor; [by apply nullable_spec | by apply IH2].
  - inversion 1; subst; [apply matches_alt_l | apply matches_alt_r]; auto.
  - intros (s1 & s2 & -> & H1 & H2)%matches_seq_inv.
    rewrite <- string_app_cons. constructor; [by apply IH | done].
Qed.

Lemma derive_complete r t : matches r t → ∀ a s, t = String a s → matches (derive a r) s.
Proof.
  induction 1 as [| ranges b Hb | r1 r2 s1 s2 H1 IH1 H2 IH2 | r1 r2 s0 H IH | r1 r2 s0 H IH
                  | r | r s1 s2 H1 IH1 H2 IH2]; intros a s Heq; cbn [derive].
  - done.
  - injection Heq as -> <-. rewrite Hb. constructor.
  - destruct s1 as [| b s1].
    + rewrite string_app_nil_l in Heq.
      apply nullable_spec in H1. rewrite H1. apply matches_alt_r. by apply IH2.
    + rewrite string_app_cons in Heq. injection Heq as -> <-.
      assert (Hleft : matches (Seq (derive a r1) r2) (s1 +:+ s2))
        by (constructor; [by apply IH1 | done]).
      destruct (nullable r1); [by apply matches_alt_l | done].
  - apply matches_alt_l. by apply IH.
  - apply matches_alt_r. by apply IH.
  - done.
  - destruct s1 as [| b s1].
    + rewrite string_app_nil_l in Heq. by apply IH2.
    + rewrite string_app_cons in Heq. injection Heq as -> <-.
      constructor; [by apply IH1 | done].
Qed.

Lemma regex_test_spec r s : regex_test r s = true ↔ matches r s.
Proof.
  revert r. induction s as [| a s IH]; intros r; cbn [regex_test].
  - apply nullable_spec.
  - rewrite IH. split; [apply derive_sound |].
    intros H. by eapply derive_complete.
Qed.

Lemma matches_star_chars ranges s :
  matches (Star (Chars ranges)) s ↔ all_chars (in_class ranges) s.
Proof.
  split.
  - intros H. remember (Star (Chars ranges)) as r eqn:Hr.
    induction H as [| | | | | r' | r' s1 s2 H1 _ H2 IH2]; try discriminate.
    + apply all_chars_nil.
    + injection Hr as ->.
      apply matches_chars_inv in H1 as (a & -> & Ha).
      rewrite string_app_cons, string_app_nil_l. apply all_chars_cons. auto.
  - induction s as [| a s IH]; [constructor |].
    intros [Ha Hs]%all_chars_cons.
    change (String a s) with (String a "" +:+ s).
    constructor; [by constructor | by apply IH].
Qed.

Lemma matches_plus_chars ranges s :
  matches (Plus (Chars ranges)) s ↔ s ≠ "" ∧ all_chars (in_class ranges) s.
Proof.
  unfold Plus. rewrite matches_seq_inv. split.
  - intros (s1 & s2 & -> & (a & -> & Ha)%matches_chars_inv & H2%matches_star_chars).
    rewrite string_app_cons, string_app_nil_l. split; [done |].
    by apply all_chars_cons.
  - intros [Hne Hs]. destruct s as [| a s]; [done |].
    apply all_chars_cons in Hs as [Ha Hs].
    exists (String a ""), s. split_and!; [done | by constructor | by apply matches_star_chars].
Qed.

Lemma matches_at_least_two ranges s :
  matches (AtLeast 2 (Chars ranges)) s ↔ 2 ≤ String.length s ∧ all_chars (in_class ranges) s.
Proof.
  cbn [AtLeast]. rewrite matches_seq_inv. split.
  - intros (s1 & s' & -> & (a & -> & Ha)%matches_chars_inv
            & (s2 & s3 & -> & (b & -> & Hb)%matches_chars_inv
               & H3%matches_star_chars)%matches_seq_inv).
    rewrite !string_app_cons, !string_app_nil_l. split; [cbn; lia |].
    by rewrite !all_chars_cons.
  - intros [Hlen Hs]. destruct s as [| a [| b s]]; [cbn in Hlen; lia | cbn in Hlen; lia |].
    apply all_chars_cons in Hs as [Ha Hs]. apply all_chars_cons in Hs as [Hb Hs].
    exists (String a ""), (String b s). split_and!; [done | by constructor |].
    apply matches_seq_inv. exists (String b ""), s.
    split_and!; [done | by constructor | by apply matches_star_chars].
Qed.

Lemma matches_literal c s : matches (Chars [(c, c)]) s ↔ s = String c "".
Proof.
  rewrite matches_chars_inv. split.
  - intros (a & -> & Ha). unfold in_class, in_range in Ha. cbn in Ha.
    rewrite orb_false_r, andb_true_iff, !Nat.leb_le in Ha.
    assert (Heq : Ascii.nat_of_ascii a = Ascii.nat_of_ascii c) by lia.
    apply (f_equal Ascii.ascii_of_nat) in Heq. rewrite !Ascii.ascii_nat_embedding in Heq.
    by subst.
  - intros ->. exists c. split; [done |]. unfold in_class, in_range. cbn.
    by rewrite orb_false_r, andb_true_iff, !Nat.leb_le.
Qed.

Lemma local_class a :
  in_class [("a", "z"); ("A", "Z"); ("0", "9"); (".", "."); ("_", "_");
            ("%", "%"); ("+", "+"); ("-", "-")]%char a = local_char a.
Proof. destruct a as [[] [] [] [] [] [] [] []]; reflexivity. Qed.

Lemma domain_class a :
  in_class [("a", "z"); ("A", "Z"); ("0", "9"); (".", "."); ("-", "-")]%char a
  = domain_char a.
Proof. destruct a as [[] [] [] [] [] [] [] []]; reflexivity. Qed.

Lemma letter_class a : in_class [("a", "z"); ("A", "Z")]%char a = letter a.
Proof. destruct a as [[] [] [] [] [] [] [] []]; reflexivity. Qed.

(** X19. [validateEmail] accepts exactly the texts that, once trimmed, are a
    local part, an [@], a domain, a dot and a top-level domain: the local
    part is one or more letters, digits or characters among [._%+-], the
    domain is one or more letters, digits, dots or hyphens, and the
    top-level domain is two or more letters. *)
Theorem validateEmail_accepts_exactly_the_addresses (email : string) :
  validateEmail email = true ↔
  ∃ local domain tld,
    trim email = local +:+ "@" +:+ domain +:+ "." +:+ tld
    ∧ local ≠ "" ∧ all_chars local_char local
    ∧ domain ≠ "" ∧ all_chars domain_char domain
    ∧ 2 ≤ String.length tld ∧ all_chars letter tld.
Proof.
  unfold validateEmail, emailRegex. rewrite regex_test_spec.
  rewrite matches_seq_inv. split.
  - intros (local & s1 & Htrim & [Hlocal Hl]%matches_plus_chars
            & (at_ & s2 & -> & ->%matches_literal
               & (domain & s3 & -> & [Hdomain Hd]%matches_plus_chars
                  & (dot & tld & -> & ->%matches_literal
                     & [Htld Ht]%matches_at_least_two)%matches_seq_inv)%matches_seq_inv
              )%matches_seq_inv).
    exists local, domain, tld. split_and!; try done.
    + by apply (all_chars_ext _ _ _ local_class).
    + by apply (all_chars_ext _ _ _ domain_class).
    + by apply (all_chars_ext _ _ _ letter_class).
  - intros (local & domain & tld & Htrim & Hlocal & Hl & Hdomain & Hd & Htld & Ht).
    exists local, ("@" +:+ domain +:+ "." +:+ tld). split_and!; [done | |].
    { apply matches_plus_chars. split; [done |].
      by apply (all_chars_ext _ _ _ local_class). }
    apply matches_seq_inv. exists "@", (domain +:+ "." +:+ tld).
    split_and!; [done | by apply matches_literal |].
    apply matches_seq_inv. exists domain, ("." +:+ tld). split_and!; [done | |].
    { apply matches_plus_chars. split; [done |].
      by apply (all_chars_ext _ _ _ domain_class). }
    apply matches_seq_inv. exists ".", tld.
    split_and!; [done | by apply matches_literal |].
    apply matches_at_least_two. split; [done |].
    by apply (all_chars_ext _ _ _ letter_class).
Qed.

(** X20. The callback of the repository prompt accepts exactly the inputs
    that contain [github.com]: such an input is never blank, so the first
    test only chooses the message of a refusal, and nothing asks for a URL. *)
Theorem validate_githubRepo_accepts_what_mentions_github (input : string) :
  validate_githubRepo input = Valid ↔
  ∃ before after, input = before +:+ "github.com" +:+ after.
Proof.
  rewrite <- includes_spec. unfold validate_githubRepo.
  destruct (String.eqb (trim input) "") eqn:Hblank.
  - split; [done |]. intros (before & after & ->)%includes_spec.
    apply String.eqb_eq, trim_nil in Hblank.
    apply all_chars_app in Hblank as [_ Hblank].
    apply all_chars_app in Hblank as [Hblank _].
    apply all_chars_cons in Hblank as [Hg _]. discriminate.
  - destruct (includes input "github.com"); cbn [negb]; split; done.
Qed.

(** ** The second copy *)

Lemma shared_steps_app t1 t2 :
  Second.shared_steps (t1 ++ t2) = Second.shared_steps t1 ++ Second.shared_steps t2.
Proof. apply omap_app. Qed.

Lemma shared_steps_shared t : Second.shared_steps (Second.Shared <$> t) = t.
Proof.
  unfold Second.shared_steps. induction t as [| ev t IH]; [done |]. cbn. by f_equal.
Qed.

Section SecondCopy.
Context {js : JsRuntime} {R : Type} (env : Env R).

(** [validateConfig] is the same text in both copies. *)
Lemma Second_validateConfig_shared config (w : World R) :
  Second.validateConfig env config w = Second.shared (validateConfig env config) w.
Proof.
  unfold Second.shared. rewrite validateConfig_run. cbv zeta.
  unfold Second.validateConfig, Second.try_catch, Second.bind, Second.fetch, Second.shared,
    fetch.
  destruct (serve env (remote w) (test_api_key_request config)) as [[e | res] r];
    [reflexivity |].
  destruct (ok res); cbn [negb]; [| reflexivity].
  unfold Second.ret, Second.res_json, Second.shared, res_json, lift, throw.
  destruct (text res) as [s | e]; [| reflexivity].
  destruct (json_TestApiKeyResponse s) as [data | e]; [| reflexivity].
  destruct (mismatch data config); reflexivity.
Qed.

(** The message [sendLearning] of the second copy wraps an error in. *)
Lemma Second_sendLearning_run learning config p (w : World R) :
  Second.sendLearning env learning config p w =
    let req := submit_request learning config in
    let failed message :=
      Thrown ("Failed to sync " +:+ template_opt (title learning) +:+ ": " +:+ message) in
    match serve env (remote w) req with
    | (Rejected e, r) =>
        (failed e, mkWorld (disk w) r, [Second.Shared (EvFetch req (Rejected e))])
    | (Responded res, r) =>
        if ok res then
          match disk_unlink p (disk w) with
          | Returned d =>
              (Returned tt, mkWorld d r,
               [Second.Shared (EvFetch req (Responded res)); Second.Shared (EvUnlink p)])
          | Thrown e =>
              (failed e, mkWorld (disk w) r,
               [Second.Shared (EvFetch req (Responded res)); Second.Shared (EvUnlink p)])
          end
        else
          (failed ("Server error: " +:+ pretty (status res)), mkWorld (disk w) r,
           [Second.Shared (EvFetch req (Responded res))])
    end.
Proof.
  unfold Second.sendLearning, Second.try_catch, Second.bind, Second.fetch, Second.shared,
    fetch.
  cbv zeta.
  destruct (serve env (remote w) (submit_request learning config)) as [[e | res] r];
    [reflexivity |].
  destruct (ok res); cbn [negb]; [| reflexivity].
  unfold Second.ret, Second.unlinkSync, Second.shared, unlink, change_disk.
  cbn [disk remote].
  destruct (disk_unlink p (disk w)); reflexivity.
Qed.

(** One turn of the loop of the second copy, in direct style. *)
Lemma Second_sync_files_cons config file rest (w : World R) :
  Second.sync_files env config (file :: rest) w =
    let read := Second.Shared (EvReadFile (LearningFile file)) in
    match disk_readFile (LearningFile file) (disk w) with
    | Thrown message => (Thrown message, w, [read])
    | Returned content =>
        match JSON_parse_Learning content with
        | Thrown message => (Thrown message, w, [read])
        | Returned learning =>
            match Second.sendLearning env learning config (LearningFile file) w with
            | (Thrown message, w1, t1) => (Thrown message, w1, read :: t1)
            | (Returned _, w1, t1) =>
                match Second.sync_files env config rest w1 with
                | (c, w2, t2) => (c, w2, read :: t1 ++ t2)
                end
            end
        end
    end.
Proof.
  cbn [Second.sync_files].
  unfold Second.bind, Second.readFileSync, Second.shared, readFile, on_disk, Second.lift.
  cbv zeta.
  destruct (disk_readFile (LearningFile file) (disk w)) as [content | m]; [| reflexivity].
  destruct (JSON_parse_Learning content) as [learning | m]; [| reflexivity].
  destruct (Second.sendLearning env learning config (LearningFile file) w)
    as [[[[] | m] w1] t1]; [| reflexivity].
  destruct (Second.sync_files env config rest w1) as [[c w2] t2]. reflexivity.
Qed.

(** The loop of the second copy: it deletes the records it had accepted one
    after the other, and stops at the first record that is not accepted or
    whose file cannot be deleted, which it has read and not deleted. *)
Lemma Second_sync_files_spec config files :
  ∀ w : World R,
    let run := Second.sync_files env config files w in
    let t := Second.shared_steps (Second.trace run) in
    let free file := held (disk w) (LearningFile file) = false in
    disk (Second.world_after run) = remove_records (record_unlinks t) (disk w)
    ∧ ((Second.result run = Returned tt
        ∧ record_reads t = files ∧ record_unlinks t = files ∧ Forall free files)
       ∨ (∃ accepted file left message,
            Second.result run = Thrown message
            ∧ files = accepted ++ file :: left
            ∧ record_reads t = accepted ++ [file]
            ∧ Forall free accepted
            ∧ (record_unlinks t = accepted
               ∨ record_unlinks t = accepted ++ [file] ∧ ¬ free file)
            ∧ disk (Second.world_after run) = remove_records accepted (disk w))).
Proof.
  induction files as [| file files IH]; intros w; cbv zeta.
  { cbn. split; [done | left]. split_and!; try done. }
  rewrite Second_sync_files_cons. cbv zeta.
  assert (Hstop : ∀ message (w1 : World R) mid,
    disk w1 = disk w → record_reads mid = [] →
    record_unlinks mid = []
    ∨ record_unlinks mid = [file] ∧ held (disk w) (LearningFile file) = true →
    let run : Completion unit * World R * list Second.Step :=
      (Thrown message, w1,
       Second.Shared (EvReadFile (LearningFile file)) :: (Second.Shared <$> mid)) in
    let t := Second.shared_steps (Second.trace run) in
    let free file := held (disk w) (LearningFile file) = false in
    disk (Second.world_after run) = remove_records (record_unlinks t) (disk w)
    ∧ ((Second.result run = Returned tt
        ∧ record_reads t = file :: files ∧ record_unlinks t = file :: files
        ∧ Forall free (file :: files))
       ∨ (∃ accepted f left m,
            Second.result run = Thrown m
            ∧ file :: files = accepted ++ f :: left
            ∧ record_reads t = accepted ++ [f]
            ∧ Forall free accepted
            ∧ (record_unlinks t = accepted
               ∨ record_unlinks t = accepted ++ [f] ∧ ¬ free f)
            ∧ disk (Second.world_after run) = remove_records accepted (disk w)))).
  { intros message w1 mid Hdisk Hreads Hunl. cbv zeta.
    unfold Second.world_after, Second.trace, Second.result. cbn [fst snd].
    change (Second.shared_steps (Second.Shared ?ev :: (Second.Shared <$> mid)))
      with (ev :: Second.shared_steps (Second.Shared <$> mid)).
    rewrite shared_steps_shared.
    change (record_unlinks (EvReadFile (LearningFile file) :: mid)) with (record_unlinks mid).
    change (record_reads (EvReadFile (LearningFile file) :: mid))
      with (file :: record_reads mid).
    rewrite Hreads. split.
    - destruct Hunl as [-> | [-> Hheld]]; [done |].
      cbn. by rewrite remove_record_held.
    - right. exists [], file, files, message. split_and!; try done.
      destruct Hunl as [-> | [-> Hheld]]; [by left | right].
      split; [done |]. by rewrite Hheld. }
  destruct (disk_readFile (LearningFile file) (disk w)) as [content | m] eqn:Hread;
    [| apply (Hstop m w []); auto].
  destruct (JSON_parse_Learning content) as [learning | m];
    [| apply (Hstop m w []); auto].
  rewrite Second_sendLearning_run. cbv zeta.
  destruct (serve env (remote w) (submit_request learning config)) as [[m | res] r].
  { apply (Hstop _ (mkWorld (disk w) r) [EvFetch _ _]); auto. }
  destruct (ok res).
  2:{ apply (Hstop _ (mkWorld (disk w) r) [EvFetch _ _]); auto. }
  destruct (disk_unlink (LearningFile file) (disk w)) as [d | m] eqn:Hunlink.
  2:{ assert (Hheld : held (disk w) (LearningFile file) = true).
      { cbn in Hread, Hunlink.
        destruct (disk_learnings (disk w)) as [| | es]; try discriminate.
        destruct (es !! file) as [[c |] |]; try discriminate.
        by destruct (held (disk w) (LearningFile file)). }
      apply (Hstop _ (mkWorld (disk w) r) [EvFetch _ _; EvUnlink (LearningFile file)]); auto. }
  assert (Hfree : held (disk w) (LearningFile file) = false).
  { cbn in Hunlink.
    destruct (disk_learnings (disk w)) as [| | es]; try discriminate.
    destruct (es !! file) as [[c |] |]; try discriminate.
    by destruct (held (disk w) (LearningFile file)). }
  assert (Hd : d = remove_record file (disk w)).
  { unfold remove_record. by rewrite Hunlink. }
  assert (Hheld : held d = held (disk w)).
  { rewrite Hd. apply held_remove_record. }
  specialize (IH (mkWorld d r)). cbv zeta in IH.
  destruct (Second.sync_files env config files (mkWorld d r)) as [[c w2] t2].
  unfold Second.world_after, Second.trace, Second.result in *. cbn [fst snd disk] in *.
  rewrite Hheld in IH.
  change (Second.shared_steps (Second.Shared ?a :: [Second.Shared ?b; Second.Shared ?c'] ++ t2))
    with (a :: b :: c' :: Second.shared_steps t2).
  change (record_unlinks (EvReadFile (LearningFile file) :: EvFetch ?q ?o
                            :: EvUnlink (LearningFile file) :: ?l))
    with (file :: record_unlinks l).
  change (record_reads (EvReadFile (LearningFile file) :: EvFetch ?q ?o
                          :: EvUnlink (LearningFile file) :: ?l))
    with (file :: record_reads l).
  destruct IH as [Hdisk Hcases]. split.
  - unfold remove_records. cbn [foldl]. fold (remove_records (record_unlinks
      (Second.shared_steps t2))).
    by rewrite <- Hd.
  - destruct Hcases as [(-> & -> & -> & Hall)
                       | (accepted & f & left & m & -> & -> & -> & Hall & Hunl & Hrest)].
    + left. split_and!; try done. by constructor.
    + right. exists (file :: accepted), f, left, m. split_and!; try done.
      * by constructor.
      * destruct Hunl as [-> | [-> Hf]]; [by left | by right].
      * cbn. fold (remove_records accepted (remove_record file (disk w))). by rewrite <- Hd.
Qed.

Lemma record_reads_console t stream colour line :
  record_reads (t ++ [EvConsole stream colour line]) = record_reads t.
Proof. rewrite record_reads_app. cbn. by rewrite app_nil_r. Qed.

Lemma record_unlinks_console t stream colour line :
  record_unlinks (t ++ [EvConsole stream colour line]) = record_unlinks t.
Proof. rewrite record_unlinks_app. cbn. by rewrite app_nil_r. Qed.

(** X21. The loop of the second copy ends at the first failure.  [syncAll]
    returns normally from any world; either every record was read, accepted
    and deleted, and the last line counts them all as synced, or the records
    before some record were accepted and deleted, that record was read and
    not deleted (it was not accepted, or its file is held and its deletion
    failed), the last line is its error, and the records after it were not
    read at all. *)
Theorem second_copy_sync_stops_at_the_first_failure config files (w : World R) :
  let run := Second.syncAll env config files w in
  let t := Second.shared_steps (Second.trace run) in
  let free file := held (disk w) (LearningFile file) = false in
  Second.result run = Returned tt
  ∧ disk (Second.world_after run) = remove_records (record_unlinks t) (disk w)
  ∧ ((record_reads t = files
      ∧ record_unlinks t = files
      ∧ Forall free files
      ∧ last t =
          Some (EvConsole ConsoleLog green
                  ("✅ Successfully synced " +:+ pretty (length files) +:+ " learning(s)")))
     ∨ (∃ accepted file left message,
          files = accepted ++ file :: left
          ∧ record_reads t = accepted ++ [file]
          ∧ Forall free accepted
          ∧ (record_unlinks t = accepted
             ∨ record_unlinks t = accepted ++ [file] ∧ ¬ free file)
          ∧ disk (Second.world_after run) = remove_records accepted (disk w)
          ∧ last t = Some (EvConsole ConsoleLog red ("❌ " +:+ message)))).
Proof.
  cbv zeta. unfold Second.syncAll, Second.try_catch, Second.bind.
  pose proof (Second_sync_files_spec config files w) as Hloop. cbv zeta in Hloop.
  destruct (Second.sync_files env config files w) as [[c w1] t1].
  unfold Second.world_after, Second.trace, Second.result in *. cbn [fst snd] in *.
  unfold Second.console, Second.shared, console. cbn [fmap list_fmap].
  destruct Hloop as [Hdisk [(-> & Hreads & Hunl & Hall)
                           | (accepted & f & left & m & -> & -> & Hreads & Hall & Hunl
                              & Hrest)]];
    cbn [fst snd]; rewrite shared_steps_app;
    change (Second.shared_steps [Second.Shared ?ev]) with [ev];
    rewrite record_reads_console, record_unlinks_console, last_snoc.
  - split_and!; [done | done |]. by left.
  - split_and!; [done | done |]. right. by exists accepted, f, left, m.
Qed.

(** [sync] of the second copy, in direct style. *)
Lemma Second_sync_action_run (w : World R) :
  Second.sync_action env w =
    match disk_config (disk w) with
    | None =>
        (Returned tt, w,
         [Second.Exists ConfigFile;
          Second.Shared
            (EvConsole ConsoleError red "❌ No config found. Did you run `arsenal init`?")])
    | Some content =>
        match JSON_parse_Config content with
        | Thrown message =>
            (Thrown message, w,
             [Second.Exists ConfigFile; Second.Shared (EvReadFile ConfigFile)])
        | Returned config =>
            match validateConfig env config w with
            | (Thrown message, w1, t1) =>
                (Returned tt, w1,
                 Second.Exists ConfigFile :: Second.Shared (EvReadFile ConfigFile)
                   :: (Second.Shared <$> t1)
                   ++ [Second.Shared (EvConsole ConsoleError red ("❌ " +:+ message))])
            | (Returned _, w1, t1) =>
                let head :=
                  Second.Exists ConfigFile :: Second.Shared (EvReadFile ConfigFile)
                    :: (Second.Shared <$> t1)
                    ++ [Second.Shared
                          (EvConsole ConsoleLog blue ("🔗 Project ID: " +:+ projectId config));
                        Second.Shared
                          (EvConsole ConsoleLog blue
                             ("🔗 GitHub Repo: " +:+ template_opt (githubRepo config)));
                        Second.Exists LearningsDir] in
                match disk_learnings (disk w1) with
                | Missing =>
                    (Returned tt, w1,
                     head ++ [Second.Print ConsoleWarn
                                [Second.Bare "⚠️ No learnings directory found."]])
                | NotADir =>
                    (Thrown "ENOTDIR", w1, head ++ [Second.Shared (EvReaddir LearningsDir)])
                | Dir es =>
                    let files := json_files (map_to_list es).*1 in
                    if length files =? 0 then
                      (Returned tt, w1,
                       head ++ [Second.Shared (EvReaddir LearningsDir);
                                Second.Print ConsoleLog
                                  [Second.Bare "📭 No learnings to sync."]])
                    else
                      match Second.syncAll env config files w1 with
                      | (c, w2, t2) =>
                          (c, w2,
                           head ++ [Second.Shared (EvReaddir LearningsDir);
                                    Second.Shared (syncing_line (length files))] ++ t2)
                      end
                end
            end
        end
    end.
Proof.
  unfold Second.sync_action, Second.bind at 1, Second.existsSync at 1.
  cbn [disk_access].
  destruct (disk_config (disk w)) as [content |] eqn:Hcontent; cbn [is_returned negb];
    [| reflexivity].
  unfold Second.bind at 1, Second.readFileSync, Second.shared at 1, readFile, on_disk.
  cbn [disk_readFile]. rewrite Hcontent.
  unfold Second.bind at 1, Second.lift.
  destruct (JSON_parse_Config content) as [config | m]; [| reflexivity].
  unfold Second.bind at 1, Second.attempt.
  rewrite Second_validateConfig_shared. unfold Second.shared at 1.
  destruct (validateConfig env config w) as [[[[] | m] w1] t1].
  2:{ unfold Second.console, Second.shared, console. cbn [fmap list_fmap app].
      reflexivity. }
  unfold Second.bind at 1 2, Second.console, Second.shared, console.
  unfold Second.bind at 1, Second.existsSync. cbn [disk_access].
  destruct (disk_learnings (disk w1)) as [| | es] eqn:Hd; cbn [is_returned negb].
  - unfold Second.print. cbn [fmap list_fmap app]. by rewrite <- ?app_assoc.
  - unfold Second.bind, Second.readdirSync, Second.shared, readdir, on_disk.
    cbn [disk_readdir]. rewrite Hd. cbn [fmap list_fmap app]. by rewrite <- ?app_assoc.
  - unfold Second.bind at 1, Second.readdirSync, Second.shared at 1, readdir, on_disk.
    cbn [disk_readdir]. rewrite Hd. cbv zeta.
    destruct (length (json_files (map_to_list es).*1) =? 0).
    + unfold Second.print. cbn [fmap list_fmap app]. by rewrite <- ?app_assoc.
    + unfold Second.bind at 1, Second.shared. unfold syncing_line.
      destruct (Second.syncAll env config (json_files (map_to_list es).*1) w1)
        as [[c w2] t2].
      cbn [fmap list_fmap app]. by rewrite <- ?app_assoc.
Qed.

(** X22. The second copy lets errors out.  With a configuration file that is
    there but is not JSON, its [sync] throws the error of [JSON.parse] (the
    promise of the handler is rejected), where the [sync] of the first copy
    reports a missing configuration and returns. *)
Theorem second_copy_sync_throws_on_a_broken_configuration (w : World R) content message :
  disk_config (disk w) = Some content →
  JSON_parse_Config content = Thrown message →
  Second.sync_action env w =
    (Thrown message, w, [Second.Exists ConfigFile; Second.Shared (EvReadFile ConfigFile)])
  ∧ sync_action env w =
      (Returned tt, w,
       [EvReadFile ConfigFile;
        EvConsole ConsoleError red "❌ No config found. Did you run `arsenal init`?"]).
Proof.
  intros Hcontent Hparse. split.
  - by rewrite Second_sync_action_run, Hcontent, Hparse.
  - rewrite sync_action_run, load_config_run. unfold result. cbn.
    by rewrite Hcontent, Hparse.
Qed.

(** Where the loop of the first copy has every record accepted and deleted,
    the loop of the second copy ends in the same world. *)
Lemma loops_agree config files :
  ∀ s e (w : World R),
    let first := sync_files env config files (s, e) w in
    let second := Second.sync_files env config files w in
    deleted_records (disk w) (trace first) = files →
    Second.result second = Returned tt ∧ Second.world_after second = world_after first.
Proof.
  induction files as [| file files IH]; intros s e w; cbv zeta; [done |].
  cbn [sync_files]. unfold bind.
  assert (Hshort : ∀ counts (w1 : World R),
    held (disk w1) = held (disk w) →
    deleted_records (disk w) (trace (sync_files env config files counts w1))
      ≠ file :: files).
  { intros [s1 e1] w1 Hheld Heq.
    destruct (sync_files_spec env config files s1 e1 w1)
      as (w' & tr & Hloop & _ & _ & _ & Hsub & _).
    rewrite Hloop in Heq. unfold trace in Heq. cbn [snd] in Heq.
    pose proof (sublist_length _ _ (deleted_records_sublist (disk w) tr)) as Hlen.
    apply sublist_length in Hsub. rewrite Heq in Hlen. cbn in Hlen. lia. }
  destruct (sync_file_cases env config s e file w)
    as [(es & content & learning & res & r & Hd & Hes & Hparse & Hserve & Hok & Hfree & ->)
       | [(es & content & learning & res & r & Hd & Hes & Hparse & Hserve & Hok & Hheld & ->)
         | (r & mid & message & -> & Hmid)]].
  - set (w1 := mkWorld (set_learnings (delete file es) (disk w)) r).
    assert (Hh1 : held (disk w1) = held (disk w)) by apply held_set_learnings.
    destruct (sync_files_spec env config files (S s) e w1)
      as (w' & tr & Hloop & _ & _ & _ & _ & _ & _ & _ & _ & Hhead & _).
    specialize (IH (S s) e w1). cbv zeta in IH. rewrite Hloop in IH |- *.
    unfold trace, world_after in *. cbn [fst snd] in *.
    match goal with
    | |- deleted_records _ (?seg ++ _) = _ → _ =>
        assert (Hacc : accepted_records (seg ++ tr) = file :: accepted_records tr)
    end.
    { rewrite accepted_records_app by done. unfold accepted_records. cbn [submissions].
      rewrite filter_cons_True by (cbn; done). reflexivity. }
    unfold deleted_records. rewrite Hacc, filter_cons_True by done.
    fold (deleted_records (disk w) tr). rewrite <- (deleted_records_held _ _ tr Hh1).
    intros [= Hdel]. destruct (IH Hdel) as [Hres Hworld].
    rewrite Second_sync_files_cons. cbv zeta. cbn [disk_readFile].
    rewrite Hd, Hes, Hparse, Second_sendLearning_run. cbv zeta.
    rewrite Hserve, Hok. cbn [disk_unlink]. rewrite Hd, Hes, Hfree. fold w1.
    destruct (Second.sync_files env config files w1) as [[c w2] t2].
    unfold Second.result, Second.world_after in *. cbn [fst snd] in *. done.
  - set (w1 := mkWorld (disk w) r).
    destruct (sync_files_spec env config files s (S e) w1)
      as (w' & tr & Hloop & _ & _ & _ & _ & _ & _ & _ & _ & Hhead & _).
    pose proof (Hshort (s, S e) w1 eq_refl) as Hnot.
    rewrite Hloop in Hnot |- *. unfold trace in *. cbn [fst snd] in *.
    match goal with
    | |- deleted_records _ (?seg ++ _) = _ → _ =>
        assert (Hacc : accepted_records (seg ++ tr) = file :: accepted_records tr)
    end.
    { rewrite accepted_records_app by done. unfold accepted_records. cbn [submissions].
      rewrite filter_cons_True by (cbn; done). reflexivity. }
    unfold deleted_records in *. rewrite Hacc, filter_cons_False by (by rewrite Hheld).
    done.
  - set (w1 := mkWorld (disk w) r).
    destruct (sync_files_spec env config files s (S e) w1)
      as (w' & tr & Hloop & _ & _ & _ & _ & _ & _ & _ & _ & Hhead & _).
    pose proof (Hshort (s, S e) w1 eq_refl) as Hnot.
    rewrite Hloop in Hnot |- *. unfold trace in *. cbn [fst snd] in *.
    unfold deleted_records in *. rewrite accepted_records_app by done.
    assert (Hnone : accepted_records
                      (EvReadFile (LearningFile file) :: mid
                         ++ [EvConsole ConsoleLog red
                               ("❌ Failed to sync " +:+ file +:+ ": " +:+ message)])
                    = []).
    { unfold accepted_records.
      destruct Hmid as [-> | (req & out & -> & Hreq & Hout)]; cbn [app submissions].
      - reflexivity.
      - by rewrite filter_cons_False by (cbn; by rewrite Hout). }
    rewrite Hnone. done.
Qed.

(** X23. Where nothing fails the two copies agree.  From a world whose
    configuration is accepted and whose pending storage is a directory or
    absent, if the [sync] of the first copy has every enumerated record
    accepted and deleted, the [sync] of the second copy returns normally and
    ends in the same world: the same records deleted, the remote service in
    the same state. *)
Theorem second_copy_sync_agrees_when_nothing_fails (w : World R) config :
  config_accepted env w config →
  storage_enumerable (disk w) →
  deleted_records (disk w) (trace (sync_action env w)) = enumerated (disk w) →
  Second.result (Second.sync_action env w) = Returned tt
  ∧ Second.world_after (Second.sync_action env w) = world_after (sync_action env w).
Proof.
  intros Hacc Hstorage.
  destruct (sync_action_accepted env w config Hacc) as (r & out & Hv & ->).
  destruct Hacc as [Hload _]. rewrite load_config_run in Hload.
  unfold result in Hload. cbn [fst] in Hload. cbn [disk_readFile] in Hload.
  destruct (disk_config (disk w)) as [content |] eqn:Hcontent; [| discriminate].
  rewrite Second_sync_action_run, Hcontent, Hload, Hv. cbv zeta. cbn [disk].
  rewrite sync_validated_run. cbn [disk].
  destruct (disk_learnings (disk w)) as [| | es] eqn:Hd; [done | by destruct Hstorage |].
  cbv zeta. rewrite <- (enumerated_dir _ _ Hd).
  destruct (length (enumerated (disk w)) =? 0) eqn:Hlen; [done |].
  destruct (sync_files env config (enumerated (disk w)) (0, 0) (mkWorld (disk w) r))
    as [[[[s e] | m] w'] t] eqn:Hloop.
  2:{ destruct (sync_files_returns env config (enumerated (disk w)) (0, 0)
                  (mkWorld (disk w) r)) as (? & ? & ? & Hret). congruence. }
  unfold trace, world_after. cbn [fst snd]. intros Hall.
  set (prelude := EvReadFile ConfigFile
                    :: EvFetch (test_api_key_request config) out
                    :: header_lines config
                    ++ [EvAccess LearningsDir; EvReaddir LearningsDir;
                        syncing_line (length (enumerated (disk w)))]).
  assert (Hall' : deleted_records (disk w) (prelude ++ t ++ report_lines s e)
                  = enumerated (disk w)).
  { unfold prelude. cbn [app]. rewrite <- !app_assoc. exact Hall. }
  destruct (sync_guarantees_looped env config w (mkWorld (disk w) r) w' es prelude t s e)
    as (_ & _ & _ & Hsame & _); [done | unfold prelude; solve_record_free | done | done |].
  unfold deleted_records in Hall'. rewrite Hsame in Hall'.
  pose proof (loops_agree config (enumerated (disk w)) 0 0 (mkWorld (disk w) r)) as Hagree.
  cbv zeta in Hagree. rewrite Hloop in Hagree.
  destruct (Hagree Hall') as [Hres Hworld].
  unfold Second.syncAll, Second.try_catch, Second.bind.
  destruct (Second.sync_files env config (enumerated (disk w)) (mkWorld (disk w) r))
    as [[c w2] t2].
  unfold Second.result, Second.world_after, world_after in *. cbn [fst snd] in *.
  by subst c w2.
Qed.

(** X24. Where [.arsenal] exists and is not a directory, the [init] of the
    second copy skips [mkdirSync], and, when the prompt is answered and its
    three requests succeed, throws only when it writes the configuration:
    by then the remote service has generated a key that is stored nowhere.
    The [init] of the first copy, in the same world, prints `Failed to create
    config directory' and stops: it asks nothing and sends nothing. *)
Theorem second_copy_init_loses_the_key (Number_toString : option Z → string) (w : World R)
    answers loginRes r1 loginData projectRes r2 keyRes r3 key :
  dot_arsenal (disk w) = ArsNotADir →
  prompt_init env = Returned answers →
  serve env (remote w) (login_request answers) = (Responded loginRes, r1) →
  ok loginRes = true →
  decoded json_LoginResponse loginRes = Returned loginData →
  serve env r1 (project_request answers loginData) = (Responded projectRes, r2) →
  ok projectRes = true →
  let request :=
    generate_key_request (LoginResponse.access_token loginData)
      (parseInt (Number_toString (parseInt (InitAnswers.projectId answers)))) in
  serve env r2 request = (Responded keyRes, r3) →
  ok keyRes = true →
  decoded json_ApiKeyResponse keyRes = Returned key →
  Second.init_action env Number_toString w =
    (Thrown "ENOTDIR", mkWorld (disk w) r3,
     [Second.Exists ConfigDir;
      Second.Ask PromptInit None;
      Second.Shared (EvFetch (login_request answers) (Responded loginRes));
      Second.Shared (EvFetch (project_request answers loginData) (Responded projectRes));
      Second.Shared (EvFetch request (Responded keyRes));
      Second.Shared (EvConsole ConsoleLog green "✅ Generated API key");
      Second.Shared
        (EvWriteFile ConfigFile
           (JSON_stringify_Config
              (initial_config answers loginData (ApiKeyResponse.api_key key))) None)])
  ∧ init_action env w =
      (Returned tt, w,
       [EvMkdir ConfigDir; EvConsole ConsoleError red "Failed to create config directory"]).
Proof.
  intros Hdir Hprompt Hlogin HloginOk HloginData Hproject HprojectOk request Hkey HkeyOk
    HkeyData.
  split; [| rewrite init_action_run; unfold disk_mkdir; by rewrite Hdir].
  unfold decoded in HloginData, HkeyData.
  unfold Second.init_action, Second.bind, Second.existsSync, Second.ask.
  cbn [disk_access]. rewrite Hdir. cbn [is_returned negb]. unfold Second.ret at 1.
  rewrite Hprompt.
  unfold Second.fetch at 1. unfold Second.shared at 1. unfold fetch at 1.
  fold (login_request answers). cbn [remote disk]. rewrite Hlogin.
  unfold Second.res_json at 1. unfold Second.shared at 1. unfold res_json, lift, throw.
  destruct (text loginRes) as [s |]; [| discriminate]. rewrite HloginData, HloginOk.
  cbn [negb].
  unfold Second.fetch at 1. unfold Second.shared at 1. unfold fetch at 1.
  fold (project_request answers loginData). cbn [remote disk]. rewrite Hproject, HprojectOk.
  cbn [negb].
  unfold Second.attempt, Second.generateApiKey, Second.bind.
  unfold Second.fetch at 1. unfold Second.shared at 1. unfold fetch at 1.
  fold (generate_key_request (LoginResponse.access_token loginData)
          (parseInt (Number_toString (parseInt (InitAnswers.projectId answers))))).
  fold request. cbn [remote disk]. rewrite Hkey, HkeyOk. cbn [negb].
  unfold Second.res_json, Second.shared, res_json, lift, throw.
  destruct (text keyRes) as [s' |]; [| discriminate]. rewrite HkeyData.
  unfold Second.ret, Second.console, Second.writeFileSync, Second.shared, console, writeFile,
    change_disk.
  cbn [disk remote disk_writeFile]. rewrite Hdir.
  fold (initial_config answers loginData (ApiKeyResponse.api_key key)). reflexivity.
Qed.

(** The default that [link] of the second copy shows in its prompt. *)
Lemma Second_link_action_run (prompt_link_default : string → Completion LinkAnswers.t)
    (w : World R) :
  Second.link_action env prompt_link_default w =
    let inside := Second.Shared (EvExec "git rev-parse --is-inside-work-tree") in
    match execSync env "git rev-parse --is-inside-work-tree" with
    | Thrown _ => (Returned tt, w, [inside; Second.Shared not_a_git_repo_line])
    | Returned _ =>
        match disk_config (disk w) with
        | None =>
            (Returned tt, w,
             [inside; Second.Exists ConfigFile;
              Second.Shared
                (EvConsole ConsoleLog red
                   "❌ No Arsenal config found. Please run `arsenal init` first.")])
        | Some content =>
            let detected := execSync env "git config --get remote.origin.url" in
            let default :=
              str_or (match detected with Returned url => trim url | Thrown _ => "" end)
                     "https://github.com/username/repo" in
            let asked :=
              inside :: Second.Exists ConfigFile
                :: Second.Shared (EvExec "git config --get remote.origin.url")
                :: match detected with
                   | Returned _ => []
                   | Thrown _ =>
                       [Second.Print ConsoleWarn
                          [Second.Bare "⚠️ Could not auto-detect GitHub repo."]]
                   end
                ++ [Second.Ask PromptLink (Some default)] in
            match prompt_link_default default with
            | Thrown message => (Thrown message, w, asked)
            | Returned answers =>
                match JSON_parse_Config content with
                | Thrown message =>
                    (Thrown message, w, asked ++ [Second.Shared (EvReadFile ConfigFile)])
                | Returned config =>
                    let data := JSON_stringify_Config (linked_config config answers) in
                    let d := set_config (Some data) (disk w) in
                    let written :=
                      asked ++ [Second.Shared (EvReadFile ConfigFile);
                                Second.Shared (EvWriteFile ConfigFile data None);
                                Second.Shared
                                  (EvWriteFile HookFile Second.hookScript (Some 493%N))] in
                    match git_hooks (disk w) with
                    | Some _ =>
                        (Returned tt,
                         mkWorld (mkDisk (dot_arsenal d) (Some (Some Second.hookScript))
                                         (held (disk w)))
                                 (remote w),
                         written
                           ++ [Second.Shared
                                 (EvConsole ConsoleLog green
                                    "✅ Git hook installed at .git/hooks/pre-push");
                               Second.Shared
                                 (EvConsole ConsoleLog green
                                    "✅ GitHub repo linked successfully")])
                    | None =>
                        (Returned tt, mkWorld d (remote w),
                         written
                           ++ [Second.Print ConsoleLog
                                 [Second.Coloured red "❌ Failed to install Git hook:";
                                  Second.Bare "ENOENT"]])
                    end
                end
            end
        end
    end.
Proof.
  unfold Second.link_action, Second.isGitRepo, Second.try_catch, Second.bind, Second.exec,
    Second.ret, Second.existsSync, Second.console, Second.print, Second.ask,
    Second.readFileSync, Second.lift, Second.writeFileSync.
  unfold Second.shared, exec, console, readFile, on_disk, writeFile, change_disk,
    not_a_git_repo_line.
  cbv zeta.
  destruct (execSync env "git rev-parse --is-inside-work-tree") as [out | e];
    cbn [negb]; [| reflexivity].
  cbn [disk_access disk_readFile].
  destruct (disk_config (disk w)) as [content |] eqn:Hcontent; cbn [is_returned negb];
    [| reflexivity].
  assert (Hdir : ∃ a, dot_arsenal (disk w) = ArsDir a).
  { unfold disk_config in Hcontent. destruct (dot_arsenal (disk w)); try discriminate. eauto. }
  destruct Hdir as [a Ha].
  destruct (execSync env "git config --get remote.origin.url") as [url | e].
  - destruct (prompt_link_default _) as [answers | m]; [| reflexivity].
    rewrite Hcontent.
    destruct (JSON_parse_Config content) as [config | m]; [| reflexivity].
    fold (linked_config config answers).
    cbn [disk remote disk_writeFile]. rewrite Ha. cbn [disk remote].
    rewrite set_config_hooks, held_set_config.
    destruct (git_hooks (disk w)); reflexivity.
  - destruct (prompt_link_default _) as [answers | m]; [| reflexivity].
    rewrite Hcontent.
    destruct (JSON_parse_Config content) as [config | m]; [| reflexivity].
    fold (linked_config config answers).
    cbn [disk remote disk_writeFile]. rewrite Ha. cbn [disk remote].
    rewrite set_config_hooks, held_set_config.
    destruct (git_hooks (disk w)); reflexivity.
Qed.

(** X25. [link] of the second copy offers what it detected.  In a Git
    repository with a configuration file, the default of its prompt is the
    output of [git config --get remote.origin.url], trimmed, or
    [https://github.com/username/repo] when the command fails or prints
    nothing but white space; the configuration is read only after the prompt
    is answered, and then the repository of the answer is stored and the
    hook written, as in the first copy. *)
Theorem second_copy_link_offers_the_detected_remote
    (prompt_link_default : string → Completion LinkAnswers.t) (w : World R) out content config
    answers previous :
  let default :=
    match execSync env "git config --get remote.origin.url" with
    | Returned url =>
        if String.eqb (trim url) "" then "https://github.com/username/repo" else trim url
    | Thrown _ => "https://github.com/username/repo"
    end in
  execSync env "git rev-parse --is-inside-work-tree" = Returned out →
  disk_config (disk w) = Some content →
  JSON_parse_Config content = Returned config →
  prompt_link_default default = Returned answers →
  git_hooks (disk w) = Some previous →
  let run := Second.link_action env prompt_link_default w in
  let after := disk (Second.world_after run) in
  Second.result run = Returned tt
  ∧ Second.Ask PromptLink (Some default) ∈ Second.trace run
  ∧ disk_config after = Some (JSON_stringify_Config (linked_config config answers))
  ∧ git_hooks after = Some (Some Second.hookScript)
  ∧ writes (Second.shared_steps (Second.trace run)) =
      [(ConfigFile, JSON_stringify_Config (linked_config config answers), None);
       (HookFile, Second.hookScript, Some 493%N)].
Proof.
  intros default Hgit Hcontent Hparse Hprompt Hhooks. cbv zeta.
  assert (Hdir : ∃ a, dot_arsenal (disk w) = ArsDir a).
  { unfold disk_config in Hcontent. destruct (dot_arsenal (disk w)); try discriminate. eauto. }
  destruct Hdir as [a Ha].
  rewrite Second_link_action_run. cbv zeta. rewrite Hgit, Hcontent.
  assert (Hdefault :
    str_or (match execSync env "git config --get remote.origin.url" with
            | Returned url => trim url
            | Thrown _ => ""
            end) "https://github.com/username/repo" = default).
  { unfold default, str_or.
    by destruct (execSync env "git config --get remote.origin.url"). }
  rewrite Hdefault, Hprompt, Hparse, Hhooks.
  unfold Second.result, Second.world_after, Second.trace. cbn [fst snd disk git_hooks].
  split_and!; try done.
  - apply elem_of_app. left. apply elem_of_app. left.
    do 3 apply list_elem_of_further. apply elem_of_app. right. constructor.
  - unfold disk_config, set_config. rewrite Ha. reflexivity.
  - by destruct (execSync env "git config --get remote.origin.url").
Qed.

(** X26. [unlink] in the two copies.  From any world both return normally
    and end in the same world.  Where the hook is absent or is deleted, the
    second copy asks [existsSync] where the first calls [access], and the
    steps after that are the same.  Where the hook is there and is held, so
    that its deletion fails, the first copy prints `No Arsenal git hook
    found' from its inner [catch] and the second `Failed to remove Git hook:'
    with the error from its only one. *)
Theorem second_copy_unlink_agrees_but_for_a_held_hook (w : World R) :
  let first := unlink_action w in
  let second := Second.unlink_action w in
  let stays :=
    match disk_readFile HookFile (disk w) with
    | Returned _ => held (disk w) HookFile
    | Thrown _ => false
    end in
  Second.result second = result first
  ∧ Second.world_after second = world_after first
  ∧ if stays then
      world_after first = w
      ∧ trace first =
          [EvAccess HookFile; EvUnlink HookFile;
           EvConsole ConsoleLog yellow "⚠️ No Arsenal git hook found"]
      ∧ Second.trace second =
          [Second.Exists HookFile; Second.Shared (EvUnlink HookFile);
           Second.Print ConsoleLog
             [Second.Coloured red "❌ Failed to remove Git hook:"; Second.Bare "EPERM"]]
    else
      Second.trace second = Second.Exists HookFile :: (Second.Shared <$> tail (trace first)).
Proof.
  cbv zeta. rewrite unlink_action_run.
  unfold Second.unlink_action, Second.try_catch, Second.bind, Second.existsSync,
    Second.unlinkSync, Second.console, Second.print, Second.shared, unlink, change_disk,
    console.
  cbn [disk_access disk_unlink disk_readFile].
  destruct (git_hooks (disk w)) as [[hook |] |] eqn:Hh; cbn; rewrite ?Hh; try done.
  destruct (held (disk w) HookFile); done.
Qed.

End SecondCopy.

(** * The properties on the concrete world *)

Import Sample.

(** The embedding at work: a storage with a record that is accepted, one that
    is refused, one that is not JSON, a directory named like a record and a
    text file. *)
Example sync_on_a_messy_storage :
  let run := sync_action in_git messy in
  record_reads (trace run) = ["old.json"; "fetch.json"; "broken.json"; "parser.json"]
  ∧ submissions (trace run) =
      [("fetch.json", Responded (mkResponse 500 (Returned (detail_text "quota exceeded"))));
       ("parser.json", Responded (mkResponse 201 (Returned "{}")))]
  ∧ record_unlinks (trace run) = ["parser.json"]
  ∧ (map_to_list (pending (disk (world_after run)))).*1 =
      ["old.json"; "notes.txt"; "fetch.json"; "broken.json"]
  ∧ console_lines (trace run) =
      [(ConsoleLog, blue, "🔗 Project ID: 12");
       (ConsoleLog, yellow, "📤 Syncing 4 learning(s)...");
       (ConsoleLog, red, "❌ Failed to sync old.json: EISDIR");
       (ConsoleLog, red,
        "❌ Failed to sync fetch.json: Failed to sync fetch status: Server error: 500 - quota exceeded");
       (ConsoleLog, red, "❌ Failed to sync broken.json: Unexpected token in JSON");
       (ConsoleLog, green, "✅ Synced: parseArgs");
       (ConsoleLog, green, "✅ Successfully synced 1 learning(s)");
       (ConsoleLog, red, "❌ Failed to sync 3 learning(s)")].
Proof. cbv zeta. split_and!; vm_compute; reflexivity. Qed.

(** Errors that reach the top level of a command: a prompt that is closed,
    and a pending storage that is a regular file. *)
Example init_with_a_closed_prompt :
  init_action in_git ready =
    (Returned tt, ready,
     [EvMkdir ConfigDir; EvPrompt PromptInit;
      failure_line init "User force closed the prompt"]).
Proof. vm_compute. reflexivity. Qed.

Example sync_with_a_file_for_storage :
  console_lines (trace (sync_action in_git storage_is_a_file)) =
    [(ConsoleLog, blue, "🔗 Project ID: 12");
     (ConsoleError, red, "❌ Sync failed: ENOTDIR")].
Proof. vm_compute. reflexivity. Qed.

Example link_in_a_repository :
  let run := link_action in_git ready in
  git_hooks (disk (world_after run)) = Some (Some hookScript)
  ∧ disk_config (disk (world_after run)) =
      Some (config_text
              {| projectId := "12"; apiKey := "ak_7_12"; userId := 7;
                 githubRepo := Some "https://github.com/jacobalbert3/arsenal-cli" |}).
Proof. cbv zeta. split; vm_compute; reflexivity. Qed.

Example parseInt_reads_a_prefix :
  parse_int "12" = Some 12%Z ∧ parse_int " 12abc" = Some 12%Z
  ∧ parse_int "0x1F" = Some 31%Z ∧ parse_int "-7" = Some (-7)%Z ∧ parse_int "abc" = None.
Proof. split_and!; reflexivity. Qed.

Example endsWith_json :
  endsWith "parser.json" ".json" = true ∧ endsWith "notes.txt" ".json" = false
  ∧ endsWith "json" ".json" = false ∧ endsWith ".json" ".json" = true.
Proof. split_and!; reflexivity. Qed.

(** The remote service of the example keeps no state. *)
Lemma example_responds_identically : responds_identically in_git.
Proof. intros [] [] req. reflexivity. Qed.

(** C1, as stated, fails where the file of an accepted record is held: the
    submission of [parser.json] is answered 201, the deletion of its file
    fails, and the record is still in the pending storage after the run,
    reported as failed. *)
Lemma accepted_record_is_kept_when_its_file_is_held :
  let run := sync_action in_git stuck in
  let accepted := Responded (mkResponse 201 (Returned "{}")) in
  ("parser.json", accepted) ∈ submissions (trace run)
  ∧ success accepted = true
  ∧ pending (disk (world_after run)) !! "parser.json"
    = Some (RegFile (learning_text parser_learning))
  ∧ (ConsoleLog, red, "❌ Failed to sync parser.json: Failed to sync parseArgs: EPERM")
    ∈ console_lines (trace run)
  ∧ ¬ (∀ file out,
         (file, out) ∈ submissions (trace run) → success out = true →
         pending (disk (world_after run)) !! file = None).
Proof.
  cbv zeta.
  assert (Hsub : submissions (trace (sync_action in_git stuck)) =
    [("fetch.json", Responded (mkResponse 500 (Returned (detail_text "quota exceeded"))));
     ("parser.json", Responded (mkResponse 201 (Returned "{}")))])
    by (vm_compute; reflexivity).
  assert (Hthere : pending (disk (world_after (sync_action in_git stuck))) !! "parser.json"
                   = Some (RegFile (learning_text parser_learning)))
    by (vm_compute; reflexivity).
  assert (Hlines : console_lines (trace (sync_action in_git stuck)) =
    [(ConsoleLog, blue, "🔗 Project ID: 12");
     (ConsoleLog, yellow, "📤 Syncing 2 learning(s)...");
     (ConsoleLog, red,
      "❌ Failed to sync fetch.json: Failed to sync fetch status: Server error: 500 - quota exceeded");
     (ConsoleLog, red, "❌ Failed to sync parser.json: Failed to sync parseArgs: EPERM");
     (ConsoleLog, red, "❌ Failed to sync 2 learning(s)")])
    by (vm_compute; reflexivity).
  assert (Hin : ("parser.json", Responded (mkResponse 201 (Returned "{}")))
                ∈ submissions (trace (sync_action in_git stuck))).
  { rewrite Hsub. apply list_elem_of_further, list_elem_of_here. }
  split_and!; [exact Hin | reflexivity | exact Hthere | |].
  - rewrite Hlines. do 3 apply list_elem_of_further. apply list_elem_of_here.
  - intros Hclaim. specialize (Hclaim _ _ Hin eq_refl). rewrite Hthere in Hclaim.
    discriminate.
Qed.

(** C2, as stated, fails in the same run: of the two enumerated records one
    is answered 500 and the other 201, and the run reports no success and two
    failures, and removes nothing. *)
Lemma held_record_is_counted_as_failed :
  let run := sync_action in_git stuck in
  length (enumerated (disk stuck)) = 2
  ∧ length (refused_records (trace run)) = 1
  ∧ length (accepted_records (trace run)) = 1
  ∧ verdicts (trace run) =
      [EvConsole ConsoleLog red
         "❌ Failed to sync fetch.json: Failed to sync fetch status: Server error: 500 - quota exceeded";
       EvConsole ConsoleLog red
         "❌ Failed to sync parser.json: Failed to sync parseArgs: EPERM";
       EvConsole ConsoleLog red "❌ Failed to sync 2 learning(s)"]
  ∧ (∀ before, trace run ≠ before ++ report_lines (2 - 1) 1)
  ∧ pending (disk (world_after run)) = pending (disk stuck).
Proof.
  cbv zeta. split_and!; try (vm_compute; reflexivity).
  intros before Heq. apply (f_equal last) in Heq.
  assert (Hlast : last (trace (sync_action in_git stuck))
                  = Some (EvConsole ConsoleLog red "❌ Failed to sync 2 learning(s)"))
    by (vm_compute; reflexivity).
  rewrite Hlast in Heq.
  assert (Hreport : report_lines (2 - 1) 1 =
    [EvConsole ConsoleLog green "✅ Successfully synced 1 learning(s)"]
      ++ [EvConsole ConsoleLog red "❌ Failed to sync 1 learning(s)"])
    by (vm_compute; reflexivity).
  rewrite Hreport, (app_assoc before), last_snoc in Heq.
  injection Heq as Heq. discriminate Heq.
Qed.

(** C2, as amended, on that run (one record answered 500, the other accepted
    and held), and on the same two records with none held. *)
Lemma sync_reports_and_removes_witness :
  (let run := sync_action in_git stuck in
   (2 = length (enumerated (disk stuck))
    ∧ 1 = length (refused_records (trace run))
    ∧ length (accepted_records (trace run)) + 1 = 2
    ∧ 1 = length (stuck_records (disk stuck) (trace run)))
   ∧ (∃ before, trace run = before ++ report_lines 0 2)
   ∧ length (deleted_records (disk stuck) (trace run)) = 0
   ∧ size (pending (disk (world_after run))) + 0 = size (pending (disk stuck)))
  ∧ (let run := sync_action in_git ready in
     (2 = length (enumerated (disk ready))
      ∧ 1 = length (refused_records (trace run))
      ∧ length (accepted_records (trace run)) + 1 = 2
      ∧ 0 = length (stuck_records (disk ready) (trace run)))
     ∧ (∃ before, trace run = before ++ report_lines 1 1)
     ∧ length (deleted_records (disk ready) (trace run)) = 1
     ∧ size (pending (disk (world_after run))) + 1 = size (pending (disk ready))).
Proof.
  split; cbv zeta.
  - split; [split_and!; vm_compute; reflexivity |].
    destruct (sync_reports_and_removes in_git stuck 2 1 1)
      as (_ & Hreport & _ & Hdeleted & _ & Hsize & _); try (vm_compute; reflexivity).
    split_and!; [exact Hreport | exact Hdeleted | exact Hsize].
  - split; [split_and!; vm_compute; reflexivity |].
    destruct (sync_reports_and_removes in_git ready 2 1 0)
      as (_ & Hreport & _ & Hdeleted & _ & Hsize & _); try (vm_compute; reflexivity).
    split_and!; [exact Hreport | exact Hdeleted | exact Hsize].
Defined.

(** C3 on a configuration file whose user was changed from 7 to 9. *)
Lemma mismatch_stops_sync_witness :
  differs (TestApiKeyResponse.mk_user 7 12) tampered_config
  ∧ sync_action in_git tampered =
      (Returned tt, tampered,
       [EvReadFile ConfigFile;
        EvFetch (test_api_key_request tampered_config)
          (Responded (mkResponse 200 (Returned (owner_text 7 12))));
        EvConsole ConsoleError red ("❌ " +:+ validate_message ConfigMismatch)])
  ∧ submission_calls (trace (sync_action in_git tampered)) = [].
Proof.
  assert (Hdiff : differs (TestApiKeyResponse.mk_user 7 12) tampered_config)
    by (left; cbn; lia).
  split; [exact Hdiff |].
  destruct (mismatch_stops_sync in_git tampered (config_text tampered_config) tampered_config
              (mkResponse 200 (Returned (owner_text 7 12))) tt (owner_text 7 12)
              (TestApiKeyResponse.mk (TestApiKeyResponse.mk_user 7 12)))
    as (_ & Hrun & Hcalls & _); try (vm_compute; reflexivity); [exact Hdiff |].
  split; [exact Hrun | exact Hcalls].
Defined.







(** ** The other commands on the concrete worlds *)

(** X2 for the owner of project 12, in a directory never initialised. *)
Lemma init_stores_the_generated_key_witness :
  let run := init_action (js := Account.runtime) (Account.office Account.owner) Account.fresh in
  console_lines (trace run) =
    [(ConsoleLog, blue, "🔐 Logging in...");
     (ConsoleLog, green, "✅ Login successful");
     (ConsoleLog, blue, "🔍 Verifying project ownership...");
     (ConsoleLog, blue, "🔑 Generating API key...");
     (ConsoleLog, green, "✅ Generated API key");
     (ConsoleLog, green, "✅ Project initialized with API key")]
  ∧ disk_config (disk (world_after run)) = Some (config_text stored_config).
Proof.
  destruct (init_stores_the_generated_key (js := Account.runtime)
              (Account.office Account.owner) Account.fresh Account.owner
              (mkResponse 200 (Returned Account.login_text)) tt
              (LoginResponse.mk "jwt-7" 7 "bearer" None)
              (mkResponse 200 (Returned "{}")) tt
              (mkResponse 200 (Returned Account.key_text)) tt
              (ApiKeyResponse.mk "ak_7_12"))
    as [Hrun Hconfig]; try (vm_compute; reflexivity); [discriminate |].
  cbv zeta. rewrite Hrun. split; [vm_compute; reflexivity |].
  unfold world_after. cbn [fst snd disk]. rewrite Hconfig. vm_compute. reflexivity.
Defined.

(** X3 behind the proxy: the login is answered 502 with a page of HTML. *)
Lemma init_decodes_the_login_body_first_witness :
  init_action (js := Account.runtime) (Account.office Account.proxied) Account.fresh =
    (Returned tt,
     mkWorld {| dot_arsenal := ArsDir {| config_json := None; learnings := Missing |};
                git_hooks := Some None;
                held := λ _, false |} tt,
     [EvMkdir ConfigDir;
      EvPrompt PromptInit;
      EvConsole ConsoleLog blue "🔐 Logging in...";
      EvFetch (login_request Account.proxied)
        (Responded (mkResponse 502 (Returned "<html>Bad Gateway</html>")));
      EvConsole ConsoleError red "❌ Initialization failed: Unexpected token in JSON"]).
Proof.
  apply (init_decodes_the_login_body_first (js := Account.runtime)
           (Account.office Account.proxied) Account.fresh Account.proxied
           (mkResponse 502 (Returned "<html>Bad Gateway</html>")) tt
           "Unexpected token in JSON");
    try (vm_compute; reflexivity). discriminate.
Defined.

(** X4 with a mistyped password, and for an address the service does not
    know, whose refusal carries no [detail]. *)
Lemma init_stops_at_a_refused_login_witness :
  console_lines
    (trace (init_action (js := Account.runtime) (Account.office Account.mistyped)
              Account.fresh)) =
    [(ConsoleLog, blue, "🔐 Logging in...");
     (ConsoleLog, red, "Login failed: Incorrect email or password")]
  ∧ console_lines
      (trace (init_action (js := Account.runtime)
                (Account.office (InitAnswers.mk "nobody@example.com" "x" "12"))
                Account.fresh)) =
      [(ConsoleLog, blue, "🔐 Logging in...");
       (ConsoleLog, red, "Login failed: undefined")].
Proof.
  split.
  - rewrite (init_stops_at_a_refused_login (js := Account.runtime)
               (Account.office Account.mistyped) Account.fresh Account.mistyped
               (mkResponse 401 (Returned (detail_text "Incorrect email or password"))) tt
               (LoginResponse.mk "" 0 "" (Some "Incorrect email or password")));
      try (vm_compute; reflexivity). discriminate.
  - rewrite (init_stops_at_a_refused_login (js := Account.runtime)
               (Account.office (InitAnswers.mk "nobody@example.com" "x" "12")) Account.fresh
               (InitAnswers.mk "nobody@example.com" "x" "12")
               (mkResponse 401 (Returned "{}")) tt
               (LoginResponse.mk "" 0 "" None));
      try (vm_compute; reflexivity). discriminate.
Defined.

(** X5 for project 14, for which the service gives no key and an empty
    [detail]. *)
Lemma init_reports_a_refused_key_witness :
  let run :=
    init_action (js := Account.runtime) (Account.office Account.keyless) Account.fresh in
  last (trace run) =
    Some (EvConsole ConsoleLog red "❌ Failed to generate API key: Failed to generate API key")
  ∧ writes (trace run) = [].
Proof.
  destruct (init_reports_a_refused_key (js := Account.runtime)
              (Account.office Account.keyless) Account.fresh Account.keyless
              (mkResponse 200 (Returned Account.login_text)) tt
              (LoginResponse.mk "jwt-7" 7 "bearer" None)
              (mkResponse 200 (Returned "{}")) tt
              (mkResponse 403 (Returned (detail_text ""))) tt
              (ErrorBody.mk (Some "")))
    as (_ & _ & _ & Hlast & Hwrites); try (vm_compute; reflexivity); [discriminate |].
  split; [exact Hlast | exact Hwrites].
Defined.

(** X6 over a hook that Arsenal did not install. *)
Lemma link_records_the_repository_and_installs_the_hook_witness :
  let run :=
    link_action (js := Account.runtime) (Account.office Account.owner) Account.hooked in
  disk_readFile HookFile (disk Account.hooked)
    = Returned ("#!/bin/sh" +:+ newline +:+ "npm test")
  ∧ disk_readFile HookFile (disk (world_after run)) = Returned hookScript
  ∧ disk_config (disk (world_after run)) =
      Some (config_text
              {| projectId := "12"; apiKey := "ak_7_12"; userId := 7;
                 githubRepo := Some "https://github.com/jacobalbert3/arsenal-cli" |}).
Proof.
  destruct (link_records_the_repository_and_installs_the_hook (js := Account.runtime)
              (Account.office Account.owner) Account.hooked "true"
              (config_text stored_config) stored_config
              (LinkAnswers.mk "https://github.com/jacobalbert3/arsenal-cli")
              (Some ("#!/bin/sh" +:+ newline +:+ "npm test")))
    as (_ & Hconfig & Hhook & _); try (vm_compute; reflexivity).
  cbv zeta. split; [reflexivity |]. split.
  - cbn [disk_readFile]. by rewrite Hhook.
  - exact Hconfig.
Defined.

(** X7 in a subdirectory of the work tree. *)
Lemma link_records_the_repository_though_the_hook_fails_witness :
  let run :=
    link_action (js := Account.runtime) (Account.office Account.owner)
      Account.subdirectory in
  disk_config (disk (world_after run)) =
    Some (config_text
            {| projectId := "12"; apiKey := "ak_7_12"; userId := 7;
               githubRepo := Some "https://github.com/jacobalbert3/arsenal-cli" |})
  ∧ git_hooks (disk (world_after run)) = None
  ∧ last (trace run) =
      Some (EvConsole ConsoleLog red "❌ Failed to install Git hook: ENOENT").
Proof.
  destruct (link_records_the_repository_though_the_hook_fails (js := Account.runtime)
              (Account.office Account.owner) Account.subdirectory "true"
              (config_text stored_config) stored_config
              (LinkAnswers.mk "https://github.com/jacobalbert3/arsenal-cli"))
    as (_ & Hconfig & Hhook & Hlast); try (vm_compute; reflexivity).
  split_and!; [exact Hconfig | exact Hhook | exact Hlast].
Defined.

(** X8: the clone and a repository without a remote run [link] alike. *)
Lemma link_never_uses_what_git_prints_witness :
  execSync Account.cloned "git config --get remote.origin.url"
    ≠ execSync (Account.office Account.owner) "git config --get remote.origin.url"
  ∧ link_action (js := Account.runtime) Account.cloned Account.hooked
    = link_action (js := Account.runtime) (Account.office Account.owner) Account.hooked.
Proof.
  split; [discriminate |].
  apply (link_never_uses_what_git_prints (js := Account.runtime)); reflexivity.
Defined.

(** X11 after the [link] of X6, and where the hook that [link] overwrote is
    held. *)
Lemma unlink_after_link_keeps_the_repository_witness :
  (let linked :=
     world_after (link_action (js := Account.runtime) (Account.office Account.owner)
                    Account.hooked) in
   let after := disk (world_after (unlink_action linked)) in
   git_hooks after = Some None
   ∧ disk_config after =
       Some (config_text
               {| projectId := "12"; apiKey := "ak_7_12"; userId := 7;
                  githubRepo := Some "https://github.com/jacobalbert3/arsenal-cli" |}))
  ∧ (let linked :=
       world_after (link_action (js := Account.runtime) (Account.office Account.owner)
                      Account.guarded) in
     let after := disk (world_after (unlink_action linked)) in
     git_hooks after = Some (Some hookScript)
     ∧ disk_config after =
         Some (config_text
                 {| projectId := "12"; apiKey := "ak_7_12"; userId := 7;
                    githubRepo := Some "https://github.com/jacobalbert3/arsenal-cli" |})).
Proof.
  split.
  - destruct (unlink_after_link_keeps_the_repository (js := Account.runtime)
                (Account.office Account.owner) Account.hooked "true"
                (config_text stored_config) stored_config
                (LinkAnswers.mk "https://github.com/jacobalbert3/arsenal-cli")
                (Some ("#!/bin/sh" +:+ newline +:+ "npm test")))
      as (_ & [_ Hhook] & Hconfig & _); try (vm_compute; reflexivity).
    split; [exact Hhook | exact Hconfig].
  - destruct (unlink_after_link_keeps_the_repository (js := Account.runtime)
                (Account.office Account.owner) Account.guarded "true"
                (config_text stored_config) stored_config
                (LinkAnswers.mk "https://github.com/jacobalbert3/arsenal-cli")
                (Some ("#!/bin/sh" +:+ newline +:+ "npm test")))
      as (_ & [_ Hhook] & Hconfig & _); try (vm_compute; reflexivity).
    split; [exact Hhook | exact Hconfig].
Defined.

(** X13 on the record that the remote service of the first world answers
    with 500. *)
Lemma sync_file_reports_a_refused_record_witness :
  sync_file in_git stored_config (1, 0) "fetch.json" ready =
    (Returned (1, 1), ready,
     [EvReadFile (LearningFile "fetch.json");
      EvFetch (submit_request fetch_learning stored_config)
        (Responded (mkResponse 500 (Returned (detail_text "quota exceeded"))));
      EvConsole ConsoleLog red
        "❌ Failed to sync fetch.json: Failed to sync fetch status: Server error: 500 - quota exceeded"]).
Proof.
  rewrite (sync_file_reports_a_refused_record in_git stored_config (1, 0) "fetch.json" ready
             (learning_text fetch_learning) fetch_learning
             (Responded (mkResponse 500 (Returned (detail_text "quota exceeded")))) tt);
    vm_compute; reflexivity.
Defined.

(** X14 on a pending storage that is a regular file. *)
Lemma sync_fails_on_a_storage_that_is_a_file_witness :
  let run := sync_action in_git storage_is_a_file in
  result run = Returned tt
  ∧ disk (world_after run) = disk storage_is_a_file
  ∧ last (trace run) = Some (EvConsole ConsoleError red "❌ Sync failed: ENOTDIR").
Proof.
  destruct (sync_fails_on_a_storage_that_is_a_file in_git storage_is_a_file stored_config)
    as (Hresult & Hdisk & out & Htrace); [split; vm_compute; reflexivity | reflexivity |].
  split_and!; [exact Hresult | exact Hdisk |].
  rewrite Htrace. vm_compute. reflexivity.
Defined.

(** X15 on a configuration whose project id is the word `twelve'. *)
Lemma sync_rejects_a_project_that_is_not_a_number_witness :
  let run :=
    sync_action (js := Account.runtime) (Account.office Account.owner) Account.worded in
  parseInt (JsRuntime := Account.runtime) "twelve" = None
  ∧ requests (trace run) = [test_api_key_request Account.worded_config]
  ∧ disk (world_after run) = disk Account.worded.
Proof.
  split; [reflexivity |].
  exact (proj2 (sync_rejects_a_project_that_is_not_a_number (js := Account.runtime)
                  (Account.office Account.owner) Account.worded
                  (config_text Account.worded_config) Account.worded_config
                  eq_refl eq_refl eq_refl)).
Defined.

(** X18 for the owner of project 12: the [sync] that follows [init] is
    accepted by the remote service. *)
Lemma sync_after_init_validates_the_generated_key_witness :
  let initialised :=
    world_after (init_action (js := Account.runtime) (Account.office Account.owner)
                   Account.fresh) in
  result (load_config (js := Account.runtime) initialised) = Returned stored_config
  ∧ requests (trace (sync_action (js := Account.runtime) (Account.office Account.owner)
                       initialised)) = [test_api_key_request stored_config]
  ∧ headers (test_api_key_request stored_config) = [("Authorization", "ApiKey ak_7_12")].
Proof.
  destruct (sync_after_init_validates_the_generated_key (js := Account.runtime)
              (Account.office Account.owner) Account.fresh Account.owner
              (mkResponse 200 (Returned Account.login_text)) tt
              (LoginResponse.mk "jwt-7" 7 "bearer" None)
              (mkResponse 200 (Returned "{}")) tt
              (mkResponse 200 (Returned Account.key_text)) tt
              (ApiKeyResponse.mk "ak_7_12"))
    as (Hload & _ & _ & Hheaders); try (vm_compute; reflexivity); [discriminate |].
  split_and!; [exact Hload | vm_compute; reflexivity | exact Hheaders].
Defined.

(** The answers of the prompts. *)
Example validateEmail_examples :
  validateEmail "dev@example.com" = true
  ∧ validateEmail ("  dev@example.com" +:+ newline) = true
  ∧ validateEmail "a_b%+-.x@x-1.YZ" = true
  ∧ validateEmail "a@-.com" = true
  ∧ validateEmail "dev@example" = false
  ∧ validateEmail "dev@example.c" = false
  ∧ validateEmail "dev@@example.com" = false
  ∧ validateEmail "dev@127.0.0.1" = false
  ∧ validateEmail "dev@exam_ple.com" = false
  ∧ validateEmail "" = false.
Proof. split_and!; vm_compute; reflexivity. Qed.

Example validate_examples :
  validate_email "dev@example.com" = Valid
  ∧ validate_email "dev" = Invalid "Please enter a valid email address"
  ∧ validate_password "s3cret" = Valid
  ∧ validate_password "" = Invalid "Password cannot be empty"
  ∧ validate_githubRepo "https://github.com/jacobalbert3/arsenal-cli" = Valid
  ∧ validate_githubRepo "see github.com" = Valid
  ∧ validate_githubRepo "   " = Invalid "GitHub repo URL is required"
  ∧ validate_githubRepo "https://gitlab.com/a/b"
    = Invalid "Please enter a valid GitHub repository URL".
Proof. split_and!; vm_compute; reflexivity. Qed.

(** ** The second copy on the concrete worlds *)

(** The two copies on a storage with a record that is accepted, one that is
    refused, one that is not JSON and a directory named like a record: the
    first copy goes through them all, the second stops at the first. *)
Example the_two_copies_on_a_messy_storage :
  record_reads (trace (sync_action in_git messy))
    = ["old.json"; "fetch.json"; "broken.json"; "parser.json"]
  ∧ record_reads (Second.shared_steps (Second.trace (Second.sync_action in_git messy)))
    = ["old.json"]
  ∧ last (Second.trace (Second.sync_action in_git messy))
    = Some (Second.Shared (EvConsole ConsoleLog red "❌ EISDIR"))
  ∧ pending (disk (Second.world_after (Second.sync_action in_git messy)))
    = pending (disk messy).
Proof. split_and!; vm_compute; reflexivity. Qed.

(** The two copies where the hook is held: neither removes it; the first
    says that there is no hook, the second that it failed to remove it. *)
Example the_two_copies_on_a_held_hook :
  unlink_action Account.guarded =
    (Returned tt, Account.guarded,
     [EvAccess HookFile; EvUnlink HookFile;
      EvConsole ConsoleLog yellow "⚠️ No Arsenal git hook found"])
  ∧ Second.unlink_action Account.guarded =
      (Returned tt, Account.guarded,
       [Second.Exists HookFile; Second.Shared (EvUnlink HookFile);
        Second.Print ConsoleLog
          [Second.Coloured red "❌ Failed to remove Git hook:"; Second.Bare "EPERM"]]).
Proof. split; vm_compute; reflexivity. Qed.

(** The two copies where the file of the accepted record is held: the first
    copy counts it as failed and goes on, the second stops at the record
    before it, which is refused. *)
Example the_two_copies_on_a_held_record :
  console_lines (trace (sync_action in_git stuck)) =
    [(ConsoleLog, blue, "🔗 Project ID: 12");
     (ConsoleLog, yellow, "📤 Syncing 2 learning(s)...");
     (ConsoleLog, red,
      "❌ Failed to sync fetch.json: Failed to sync fetch status: Server error: 500 - quota exceeded");
     (ConsoleLog, red, "❌ Failed to sync parser.json: Failed to sync parseArgs: EPERM");
     (ConsoleLog, red, "❌ Failed to sync 2 learning(s)")]
  ∧ pending (disk (world_after (sync_action in_git stuck))) = pending (disk stuck)
  ∧ record_reads (Second.shared_steps (Second.trace (Second.sync_action in_git stuck)))
    = ["fetch.json"].
Proof. split_and!; vm_compute; reflexivity. Qed.

(** X22 on a configuration file that was cut short. *)
Lemma second_copy_sync_throws_on_a_broken_configuration_witness :
  Second.result (Second.sync_action (js := Account.runtime) (Account.office Account.owner)
                   Account.truncated)
    = Thrown "Unexpected token in JSON"
  ∧ result (sync_action (js := Account.runtime) (Account.office Account.owner)
              Account.truncated)
    = Returned tt.
Proof.
  destruct (second_copy_sync_throws_on_a_broken_configuration (js := Account.runtime)
              (Account.office Account.owner) Account.truncated "{"
              "Unexpected token in JSON" eq_refl eq_refl) as [Hsecond Hfirst].
  by rewrite Hsecond, Hfirst.
Defined.

(** X23 on a storage whose only record is accepted and deleted. *)
Lemma second_copy_sync_agrees_when_nothing_fails_witness :
  deleted_records (disk one_record) (trace (sync_action in_git one_record)) = ["parser.json"]
  ∧ Second.result (Second.sync_action in_git one_record) = Returned tt
  ∧ Second.world_after (Second.sync_action in_git one_record)
    = world_after (sync_action in_git one_record).
Proof.
  split; [vm_compute; reflexivity |].
  apply (second_copy_sync_agrees_when_nothing_fails in_git one_record stored_config).
  - split; vm_compute; reflexivity.
  - unfold storage_enumerable. cbn. discriminate.
  - vm_compute. reflexivity.
Defined.

(** X24 where [.arsenal] is a regular file. *)
Lemma second_copy_init_loses_the_key_witness :
  let run :=
    Second.init_action (js := Account.runtime) (Account.office Account.owner)
      Account.toString Account.blocked in
  Second.result run = Thrown "ENOTDIR"
  ∧ requests (Second.shared_steps (Second.trace run)) =
      [login_request Account.owner;
       project_request Account.owner (LoginResponse.mk "jwt-7" 7 "bearer" None);
       generate_key_request "jwt-7" (Some 12%Z)]
  ∧ disk (Second.world_after run) = disk Account.blocked
  ∧ trace (init_action (js := Account.runtime) (Account.office Account.owner)
             Account.blocked) =
      [EvMkdir ConfigDir; EvConsole ConsoleError red "Failed to create config directory"].
Proof.
  destruct (second_copy_init_loses_the_key (js := Account.runtime)
              (Account.office Account.owner) Account.toString Account.blocked Account.owner
              (mkResponse 200 (Returned Account.login_text)) tt
              (LoginResponse.mk "jwt-7" 7 "bearer" None)
              (mkResponse 200 (Returned "{}")) tt
              (mkResponse 200 (Returned Account.key_text)) tt
              (ApiKeyResponse.mk "ak_7_12")) as [Hsecond Hfirst];
    try (vm_compute; reflexivity).
  cbv zeta. rewrite Hsecond, Hfirst. split_and!; reflexivity.
Defined.

(** X25 in a clone, for a user who accepts the default. *)
Lemma second_copy_link_offers_the_detected_remote_witness :
  let run :=
    Second.link_action (js := Account.runtime) Account.cloned Account.accept_default
      Account.hooked in
  Second.Ask PromptLink (Some "https://github.com/jacobalbert3/arsenal-cli.git")
    ∈ Second.trace run
  ∧ disk_config (disk (Second.world_after run)) =
      Some (config_text
              {| projectId := "12"; apiKey := "ak_7_12"; userId := 7;
                 githubRepo := Some "https://github.com/jacobalbert3/arsenal-cli.git" |})
  ∧ git_hooks (disk (Second.world_after run)) = Some (Some Second.hookScript).
Proof.
  destruct (second_copy_link_offers_the_detected_remote (js := Account.runtime)
              Account.cloned Account.accept_default Account.hooked "true"
              (config_text stored_config) stored_config
              (LinkAnswers.mk "https://github.com/jacobalbert3/arsenal-cli.git")
              (Some ("#!/bin/sh" +:+ newline +:+ "npm test")))
    as (_ & Hask & Hconfig & Hhook & _); try (vm_compute; reflexivity).
  split_and!; [exact Hask | exact Hconfig | exact Hhook].
Defined.
